(** * newrelic-cli: recipe executor, credential profiles and configuration keys

    A shallow embedding of
      - [internal/install/go_task_recipe_executor.go]
        ([execute], [setSystemVars], [setInputVars]),
      - [internal/credentials/profiles.go] ([Credentials.Default]),
      - [internal/config/config.go] ([Config.Set], [validConfigKeys],
        [stringInStrings]),
    together with the few operations of the libraries they call
    ([taskfile.Vars] of go-task, [promptui.Prompt], [strings.EqualFold]).

    Go strings are byte strings ([string]); a Go [map[string]T] is a
    [gmap string T]; an [error] is represented by its message. *)

From stdpp Require Import base option list gmap strings.
From Stdlib Require Import Ascii String.

Open Scope string_scope.

(** ** Results of fallible calls

    [Ok a] is a normal return with a nil error, [Err msg] a normal return
    with a non-nil error, [Panic msg] a run-time panic that unwinds the
    calling function. *)
Inductive result (A : Type) : Type :=
| Ok (a : A)
| Err (msg : string)
| Panic (msg : string).
Arguments Ok {A} a.
Arguments Err {A} msg.
Arguments Panic {A} msg.

(** ** go-task: [taskfile.Var] and [taskfile.Vars] *)
Module taskfile.

(** [taskfile.Var]; the executor only ever builds [Var{Static: s}].  The
    untyped [Live] field is left out. *)
Record Var : Type := mkVar { Static : string; Sh : string; Dir : string }.

Definition zeroVar : Var := mkVar "" "" "".

(** [taskfile.Var{Static: s}] *)
Definition static (s : string) : Var := mkVar s "" "".

(** [taskfile.Vars]: the keys in insertion order and the mapping. *)
Record Vars : Type := mkVars { Keys : list string; Mapping : gmap string Var }.

(** [taskfile.Vars{}] *)
Definition empty : Vars := mkVars [] ∅.

(** [func (vs *Vars) Set(key string, value Var)]: the key is appended
    unless already listed, the mapping entry is overwritten. *)
Definition set (vs : Vars) (key : string) (value : Var) : Vars :=
  mkVars (if bool_decide (key ∈ Keys vs) then Keys vs else Keys vs ++ [key])
         (<[key := value]> (Mapping vs)).

(** [func (vs *Vars) Merge(other *Vars)]: ranges over [other] in key
    order (a key without an entry yields the zero [Var]) and [Set]s each
    into the receiver. *)
Definition Merge (vs other : Vars) : Vars :=
  foldl (fun acc k => set acc k (default zeroVar (Mapping other !! k)))
        vs (Keys other).

(** The value a template sees for [key]. *)
Definition get (vs : Vars) (key : string) : option Var := Mapping vs !! key.

End taskfile.

(** ** promptui: the part of [promptui.Prompt] the executor fills in *)
Module promptui.

Record Prompt : Type := mkPrompt { Label : string; Default : string }.

End promptui.

(** ** internal/credentials *)
Module credentials.

(** [type Profile struct] (profiles.go) *)
Record Profile : Type := mkProfile {
  APIKey : string;
  InsightsInsertKey : string;
  Region : string;
  AccountID : Z;
  LicenseKey : string
}.

(** The zero value of [Profile], which a Go map lookup yields for a
    missing key. *)
Definition zeroProfile : Profile := mkProfile "" "" "" 0 "".

(** [type Credentials struct]: its declaration (credentials.go) is not
    among the sources; the fields are the ones the code reads. *)
Record Credentials : Type := mkCredentials {
  DefaultProfile : string;
  Profiles : gmap string Profile;
  ConfigDirectory : string
}.

(** [func (c *Credentials) Default() *Profile].  The method runs on a
    pointer receiver, so the model returns the receiver's value after the
    call next to the result; [None] is the nil pointer and [Some p] a
    pointer to (a copy of) the profile [p]. *)
Definition Default (c : Credentials) : option Profile * Credentials :=
  if bool_decide (DefaultProfile c ≠ "") then
    match Profiles c !! DefaultProfile c with
    | Some val => (Some val, c)
    | None => (None, c)
    end
  else (None, c).

(** Modelled from the spec: [WithCredentials] (credentials.go, not among
    the sources) is the callback-style accessor: it hands the loaded
    credentials [c] to the callback [f], once. *)
Definition WithCredentials {S : Type} (c : Credentials)
    (f : Credentials → S → S) (s : S) : S :=
  f c s.

End credentials.

(** ** internal/install: the go-task recipe executor *)
Module install.

(** [discoveryManifest]: the host facts [setSystemVars] reads (the type is
    declared in another file of the package). *)
Record discoveryManifest : Type := mkManifest {
  os : string;
  platform : string;
  platformFamily : string;
  platformVersion : string;
  kernelArch : string;
  kernelVersion : string
}.

(** [variableConfig]: one declared input variable of a recipe. *)
Record variableConfig : Type := mkVariableConfig {
  Name : string;
  Prompt : string;
  Default : string
}.

(** [recipeFile]: [Install] is the task definition handed to the engine,
    kept opaque as its YAML text. *)
Record recipeFile : Type := mkRecipeFile {
  Install : string;
  InputVars : list variableConfig
}.

(** [recipe]: [MetadataName] is [r.Metadata.Name], [File] the recipe text
    that [ToRecipeFile] parses. *)
Record recipe : Type := mkRecipe {
  MetadataName : string;
  File : string
}.

(** What the executor does to its surroundings, in order. *)
Inductive event : Type :=
| EvTempFile (path : string)
| EvWrite (path : string) (content : string)
| EvSetup (entrypoint : string)
| EvPrompt (p : promptui.Prompt)
| EvRun (calls : list string) (vars : taskfile.Vars)
| EvRemove (path : string).

(** The mutable surroundings: the files of the temporary directory, the
    number of prompts shown so far and the log of events. *)
Record World : Type := mkWorld {
  files : gset string;
  prompts : nat;
  trace : list event
}.

(** The collaborators of [execute], each a function of what the code
    passes to it.
    - [ToRecipeFile]: [recipe.ToRecipeFile] (in another file of the package);
    - [yamlMarshal], [yamlUnmarshal]: gopkg.in/yaml.v2;
    - [TempFile]: [ioutil.TempFile("", pattern)], the path it created;
    - [fileWrite]: [os.File.Write];
    - [Setup]: [task.Executor.Setup], yielding [e.Taskfile.Vars];
    - [loaded]: the credentials [WithCredentials] loads;
    - [promptRun]: [promptui.Prompt.Run], by the number of earlier prompts;
    - [Run]: [task.Executor.Run]. *)
Record Externals : Type := mkExternals {
  ToRecipeFile : recipe → result recipeFile;
  yamlMarshal : string → result string;
  TempFile : string → result string;
  fileWrite : string → string → result unit;
  Setup : string → result taskfile.Vars;
  yamlUnmarshal : string → result unit;
  loaded : credentials.Credentials;
  promptRun : nat → promptui.Prompt → result string;
  Run : list string → taskfile.Vars → result unit
}.

(** A computation over the world that may fail or panic. *)
Definition M (A : Type) : Type := World → result A * World.

Definition ret {A : Type} (a : A) : M A := fun w => (Ok a, w).

Definition fail {A : Type} (msg : string) : M A := fun w => (Err msg, w).

Definition bind {A B : Type} (m : M A) (k : A → M B) : M B :=
  fun w =>
    match m w with
    | (Ok a, w') => k a w'
    | (Err e, w') => (Err e, w')
    | (Panic p, w') => (Panic p, w')
    end.

Notation "'let!' x ':=' m 'in' k" := (bind m (fun x => k))
  (at level 10, x binder, m at level 100, k at level 200).

(** An external call whose result does not depend on the world. *)
Definition call {A : Type} (r : result A) : M A := fun w => (r, w).

Definition emit (ev : event) : M unit :=
  fun w => (Ok tt, mkWorld (files w) (prompts w) (trace w ++ [ev])).

(** [defer cleanup] around [body]: [cleanup] runs when [body] is left,
    whether by a return, an error or a panic. *)
Definition defer {A : Type} (cleanup : World → World) (body : M A) : M A :=
  fun w => let '(r, w') := body w in (r, cleanup w').

(** [os.Getenv]: the value, or the empty string when the variable is unset. *)
Definition Getenv (env : gmap string string) (key : string) : string :=
  default "" (env !! key).

(** [os.Remove(path)] on a file of the temporary directory (the returned
    error is discarded by the caller). *)
Definition os_Remove (path : string) (w : World) : World :=
  mkWorld (files w ∖ {[path]}) (prompts w) (trace w ++ [EvRemove path]).

(** [os.File.Name]: a nil receiver is dereferenced, which panics. *)
Definition File_Name (file : option string) : M string :=
  match file with
  | Some path => ret path
  | None => call (Panic "invalid memory address or nil pointer dereference")
  end.

(** [taskargs.ParseV3()] without arguments: the default call and no
    global variables. *)
Definition ParseV3 : list string * taskfile.Vars := (["default"], taskfile.empty).

Section executor.

Context (ext : Externals) (env : gmap string string).

(** [ioutil.TempFile]: the pair [(file, err)] as Go returns it, a nil file
    with the error or the created file with a nil error. *)
Definition ioutil_TempFile (pattern : string) : M (option string * option string) :=
  fun w =>
    match TempFile ext pattern with
    | Ok path =>
        (Ok (Some path, None),
         mkWorld ({[path]} ∪ files w) (prompts w) (trace w ++ [EvTempFile path]))
    | Err e => (Ok (None, Some e), w)
    | Panic p => (Panic p, w)
    end.

(** [prompt.Run()] *)
Definition prompt_Run (p : promptui.Prompt) : M string :=
  fun w =>
    (promptRun ext (prompts w) p,
     mkWorld (files w) (S (prompts w)) (trace w ++ [EvPrompt p])).

(** [setSystemVars] *)
Definition setSystemVars (t : taskfile.Vars) (m : discoveryManifest) : taskfile.Vars :=
  let v := taskfile.empty in
  let v := taskfile.set v "OS" (taskfile.static (os m)) in
  let v := taskfile.set v "Platform" (taskfile.static (platform m)) in
  let v := taskfile.set v "PlatformFamily" (taskfile.static (platformFamily m)) in
  let v := taskfile.set v "PlatformVersion" (taskfile.static (platformVersion m)) in
  let v := taskfile.set v "KernelArch" (taskfile.static (kernelArch m)) in
  let v := taskfile.set v "KernelVersion" (taskfile.static (kernelVersion m)) in
  taskfile.Merge t v.

(** The prompt built for a variable whose environment value is empty
    (lines 118-130 of the executor). *)
Definition inputPrompt (envConfig : variableConfig) : promptui.Prompt :=
  let msg := "value for " ++ Name envConfig ++ " required" in
  let msg := if bool_decide (Prompt envConfig ≠ "") then Prompt envConfig else msg in
  let prompt := promptui.mkPrompt msg "" in
  if bool_decide (Default envConfig ≠ "")
  then promptui.mkPrompt (promptui.Label prompt) (Default envConfig)
  else prompt.

(** The body of the loop of [setInputVars]: the one-entry [Vars] that is
    merged into the task file. *)
Definition inputVar (envConfig : variableConfig) : M taskfile.Vars :=
  let v := taskfile.empty in
  let envValue := Getenv env (Name envConfig) in
  if bool_decide (envValue = "") then
    fun w =>
      match prompt_Run (inputPrompt envConfig) w with
      | (Ok result, w') => (Ok (taskfile.set v (Name envConfig) (taskfile.static result)), w')
      | (Err err, w') => (Err ("prompt failed: " ++ err), w')
      | (Panic p, w') => (Panic p, w')
      end
  else ret (taskfile.set v (Name envConfig) (taskfile.static envValue)).

(** [setInputVars] *)
Fixpoint setInputVars (t : taskfile.Vars) (inputVars : list variableConfig)
    : M taskfile.Vars :=
  match inputVars with
  | [] => ret t
  | envConfig :: rest =>
      let! v := inputVar envConfig in
      setInputVars (taskfile.Merge t v) rest
  end.

(** The callback [execute] passes to [WithCredentials]; the state it
    updates is the task file's variables and the captured [err]. *)
Definition licenseKeyCallback (c : credentials.Credentials)
    (s : taskfile.Vars * option string) : taskfile.Vars * option string :=
  let '(vars, err) := s in
  let v := taskfile.empty in
  let licenseKey :=
    credentials.LicenseKey
      (default credentials.zeroProfile
         (credentials.Profiles c !! credentials.DefaultProfile c)) in
  let err :=
    if bool_decide (licenseKey = "")
    then Some "license key not found in default profile"
    else err in
  let v := taskfile.set v "NR_LICENSE_KEY" (taskfile.static licenseKey) in
  (taskfile.Merge vars v, err).

(** [e.Run(ctx, calls...)] with the variables assembled in [e.Taskfile]. *)
Definition task_Run (calls : list string) (vars : taskfile.Vars) : M unit :=
  fun w =>
    (Run ext calls vars,
     mkWorld (files w) (prompts w) (trace w ++ [EvRun calls vars])).

(** The variable assembly of [execute] (lines 68-90): the globals of
    [ParseV3], the license key of the default profile, the system
    variables and the declared input variables, merged in this order into
    the variables [vars] of the task file. *)
Definition assembleVars (m : discoveryManifest) (f : recipeFile)
    (vars : taskfile.Vars) : M taskfile.Vars :=
  let '(_, globals) := ParseV3 in
  let vars := taskfile.Merge vars globals in
  let '(vars, err) :=
    credentials.WithCredentials (loaded ext) licenseKeyCallback (vars, None) in
  match err with
  | Some e => fail e
  | None =>
      let vars := setSystemVars vars m in
      setInputVars vars (InputVars f)
  end.

(** The part of [execute] that runs under the deferred removal of the
    temporary file: from the check of [TempFile]'s error to the end. *)
Definition executeBody (m : discoveryManifest) (f : recipeFile) (out : string)
    (path : string) (err : option string) : M unit :=
  match err with
  | Some e => fail e
  | None =>
      let! _ := call (fileWrite ext path out) in
      let! _ := emit (EvWrite path out) in
      let! _ := emit (EvSetup path) in
      let! vars := call (Setup ext path) in
      let! _ := call (yamlUnmarshal ext out) in
      let! vars := assembleVars m f vars in
      task_Run (fst ParseV3) vars
  end.

(** [execute] *)
Definition execute (m : discoveryManifest) (r : recipe) : M unit :=
  let! f := call (ToRecipeFile ext r) in
  let! out := call (yamlMarshal ext (Install f)) in
  let! '(file, err) := ioutil_TempFile (MetadataName r) in
  let! path := File_Name file in
  defer (os_Remove path) (executeBody m f out path err).

End executor.

Definition isRun (ev : event) : bool :=
  match ev with EvRun _ _ => true | _ => false end.

Definition isPrompt (ev : event) : bool :=
  match ev with EvPrompt _ => true | _ => false end.

(** The number of times the task engine was run, read off a trace. *)
Definition runs (tr : list event) : nat := List.length (List.filter isRun tr).

(** The number of prompts shown, read off a trace. *)
Definition shown (tr : list event) : nat := List.length (List.filter isPrompt tr).

(** The license key [execute] reads: that of the default profile, empty
    when the profile is missing. *)
Definition defaultLicenseKey (c : credentials.Credentials) : string :=
  credentials.LicenseKey
    (default credentials.zeroProfile
       (credentials.Profiles c !! credentials.DefaultProfile c)).

(** The world in which [execute] starts to assemble the variables, once
    the temporary file [path] holds the task definition [out]. *)
Definition staged (path out : string) (w : World) : World :=
  mkWorld ({[path]} ∪ files w) (prompts w)
          (trace w ++ [EvTempFile path; EvWrite path out; EvSetup path]).

(** The world after one prompt [p]. *)
Definition prompted (p : promptui.Prompt) (w : World) : World :=
  mkWorld (files w) (S (prompts w)) (trace w ++ [EvPrompt p]).

(** The declared variables whose environment value is empty. *)
Definition unresolved (env : gmap string string) (inputVars : list variableConfig)
    : list variableConfig :=
  List.filter (fun cfg => bool_decide (Getenv env (Name cfg) = "")) inputVars.

(** The world after the prompts for the variables [cfgs] have been shown,
    one after the other. *)
Definition afterPrompts (w : World) (cfgs : list variableConfig) : World :=
  mkWorld (files w) (prompts w + List.length cfgs)
          (trace w ++ (EvPrompt ∘ inputPrompt <$> cfgs)).

(** The operator answers every prompt that the resolution of [inputVars]
    shows from the world [w] on: the variables without an environment
    value are asked in the order of declaration, the i-th of them at the
    i-th prompt after those already shown. *)
Definition answered (ext : Externals) (env : gmap string string)
    (inputVars : list variableConfig) (w : World) : Prop :=
  ∀ i cfg, unresolved env inputVars !! i = Some cfg →
           ∃ answer, promptRun ext (prompts w + i) (inputPrompt cfg) = Ok answer.

(** The bindings [execute] injects besides the declared variables, by name
    and value: the license key of the credentials [c] and the facts of the
    manifest [m]. *)
Definition systemBindings (c : credentials.Credentials) (m : discoveryManifest)
    : list (string * string) :=
  [ ("NR_LICENSE_KEY", defaultLicenseKey c);
    ("OS", os m);
    ("Platform", platform m);
    ("PlatformFamily", platformFamily m);
    ("PlatformVersion", platformVersion m);
    ("KernelArch", kernelArch m);
    ("KernelVersion", kernelVersion m) ].

(** The variables of [execute] at the point where the declared ones are
    about to be resolved: those of the task file, the license key and the
    system variables (lines 71-86). *)
Definition baseVars (ext : Externals) (m : discoveryManifest) (vars : taskfile.Vars)
    : taskfile.Vars :=
  setSystemVars
    (taskfile.set vars "NR_LICENSE_KEY"
       (taskfile.static (defaultLicenseKey (loaded ext)))) m.

(** Every step of [execute] before the variable assembly succeeds: the
    recipe parses to [f] and marshals to [out], the temporary file [path]
    is created and written, the engine loads it with variables [vars]. *)
Definition prepared (ext : Externals) (r : recipe) (f : recipeFile)
    (out path : string) (vars : taskfile.Vars) : Prop :=
  ToRecipeFile ext r = Ok f ∧
  yamlMarshal ext (Install f) = Ok out ∧
  TempFile ext (MetadataName r) = Ok path ∧
  fileWrite ext path out = Ok tt ∧
  Setup ext path = Ok vars ∧
  yamlUnmarshal ext out = Ok tt.

End install.

(** ** internal/config: the key check of [Config.Set] *)
Module config.

(** A struct field as [reflect] shows it: its name and its tag, the tag as
    the list of its [key:"value"] pairs. *)
Record StructField : Type := mkField {
  FieldName : string;
  Tag : list (string * string)
}.

(** [field.Tag.Get(key)]: the value under [key], or the empty string when
    the tag has no such key. *)
Fixpoint Tag_Get (tag : list (string * string)) (key : string) : string :=
  match tag with
  | [] => ""
  | (name, value) :: rest =>
      if bool_decide (name = key) then value else Tag_Get rest key
  end.

(** The fields of [type Config struct], in declaration order: three tagged
    string fields and the untagged [cfgViper]. *)
Definition ConfigFields : list StructField :=
  [ mkField "LogLevel" [("mapstructure", "logLevel")];
    mkField "PluginDir" [("mapstructure", "pluginDir")];
    mkField "SendUsageData" [("mapstructure", "sendUsageData")];
    mkField "cfgViper" [] ].

(** [validConfigKeys]: the [mapstructure] tag of every field of [Config]. *)
Definition validConfigKeys : list string :=
  (fun field => Tag_Get (Tag field) "mapstructure") <$> ConfigFields.

Definition byte (c : ascii) : nat := nat_of_ascii c.

(** One step of the ASCII loop of [strings.EqualFold]: equal bytes, or an
    upper-case letter and its lower-case form. *)
Definition foldEqByte (sr tr : ascii) : bool :=
  if bool_decide (tr = sr) then true
  else
    let '(sr, tr) := if (byte tr <? byte sr)%nat then (tr, sr) else (sr, tr) in
    (byte "A" <=? byte sr)%nat && (byte sr <=? byte "Z")%nat
      && (byte tr =? byte sr + byte "a" - byte "A")%nat.

(** ASCII strings and their lower-case form, to state what the comparison
    accepts. *)
Definition isUpper (c : ascii) : bool :=
  (byte "A" <=? byte c)%nat && (byte c <=? byte "Z")%nat.

Definition lowerByte (c : ascii) : ascii :=
  if isUpper c then ascii_of_nat (byte c + 32) else c.

Fixpoint lowerASCII (s : string) : string :=
  match s with
  | EmptyString => EmptyString
  | String c s' => String (lowerByte c) (lowerASCII s')
  end.

Fixpoint isASCII (s : string) : bool :=
  match s with
  | EmptyString => true
  | String c s' => (byte c <? 128)%nat && isASCII s'
  end.

Section fold.

(** The comparison [strings.EqualFold] makes from the first byte outside
    ASCII on, by Unicode's simple case folding of the decoded runes. *)
Context (hasUnicode : string → string → bool).

(** [strings.EqualFold] *)
Fixpoint EqualFold (s t : string) : bool :=
  match s, t with
  | String sr s', String tr t' =>
      if (128 <=? byte sr)%nat || (128 <=? byte tr)%nat then hasUnicode s t
      else if foldEqByte sr tr then EqualFold s' t'
      else false
  | EmptyString, EmptyString => true
  | _, _ => false
  end.

(** [stringInStrings] *)
Definition stringInStrings (s : string) (ss : list string) : bool :=
  existsb (fun v => EqualFold v s) ss.

(** The text of [%s] applied to a [[]string]. *)
Definition formatStrings (ss : list string) : string :=
  "[" ++ String.concat " " ss ++ "]".

Definition quote : string := String (ascii_of_nat 34) EmptyString.

(** The error [Set] returns for a key that fails the check. *)
Definition invalidKey (key : string) : string :=
  quote ++ key ++ quote ++ " is not a valid key; Please use one of: "
    ++ formatStrings validConfigKeys.

(** [c.set] (which writes the value through viper and saves the file) and
    [renderer.Set], as transformers of the state [St] they work on. *)
Context {St : Type}.
Context (c_set : string → string → St → result unit * St).
Context (renderer_Set : string → string → St → St).

(** [func (c *Config) Set(key string, value string) error] *)
Definition ConfigSet (key value : string) (st : St) : result unit * St :=
  if negb (stringInStrings key validConfigKeys) then (Err (invalidKey key), st)
  else
    match c_set key value st with
    | (Ok _, st') => (Ok tt, renderer_Set key value st')
    | (Err e, st') => (Err e, st')
    | (Panic p, st') => (Panic p, st')
    end.

End fold.

End config.

(** ** Sample data, used to run the definitions on concrete inputs *)
Module sample.

Definition profile : credentials.Profile :=
  credentials.mkProfile "NRAK-1" "" "us" 42 "license-0001".

Definition creds : credentials.Credentials :=
  credentials.mkCredentials "default" {[ "default" := profile ]} "/home/op/.newrelic".

(** The same profiles with a default profile name that names none of them. *)
Definition credsDangling : credentials.Credentials :=
  credentials.mkCredentials "staging" {[ "default" := profile ]} "/home/op/.newrelic".

(** No default profile chosen. *)
Definition credsUnset : credentials.Credentials :=
  credentials.mkCredentials "" {[ "default" := profile ]} "/home/op/.newrelic".

(** The same profiles, the default one without a license key. *)
Definition credsNoKey : credentials.Credentials :=
  credentials.mkCredentials "default"
    {[ "default" := credentials.mkProfile "NRAK-1" "" "us" 42 "" ]} "/home/op/.newrelic".

Definition manifest : install.discoveryManifest :=
  install.mkManifest "linux" "ubuntu" "debian" "20.04" "x86_64" "5.4.0-42".

Definition nginx : install.recipe := install.mkRecipe "nginx" "name: nginx".

(** A declared variable that carries the name of a system variable. *)
Definition varOS : install.variableConfig := install.mkVariableConfig "OS" "" "".

Definition varPort : install.variableConfig :=
  install.mkVariableConfig "PORT" "Port to monitor" "8080".

Definition varHost : install.variableConfig := install.mkVariableConfig "HOST" "" "".

(** An operator who accepts the default of every prompt. *)
Definition acceptDefault (n : nat) (p : promptui.Prompt) : result string :=
  Ok (promptui.Default p).

(** An operator who interrupts every prompt. *)
Definition interrupt (n : nat) (p : promptui.Prompt) : result string := Err "^C".

(** Collaborators that all succeed, but for the given outcome [tmp] of
    [TempFile]; the recipe declares [inputVars], the operator answers by
    [answers], the credentials are [c] and the task file has no variables
    of its own. *)
Definition ext (inputVars : list install.variableConfig)
    (answers : nat → promptui.Prompt → result string)
    (tmp : result string) (c : credentials.Credentials) : install.Externals :=
  install.mkExternals
    (fun r => Ok (install.mkRecipeFile "tasks: {}" inputVars))
    (fun i => Ok i)
    (fun pattern => tmp)
    (fun path out => Ok tt)
    (fun path => Ok taskfile.empty)
    (fun out => Ok tt)
    c
    answers
    (fun calls vars => Ok tt).

Definition tmpPath : string := "/tmp/nginx123456".

(** The environment of a run in which nothing is exported. *)
Definition noEnv : gmap string string := ∅.

(** The environment of a run in which the operator exported [OS]. *)
Definition envOS : gmap string string := {[ "OS" := "custom" ]}.

Definition world : install.World := install.mkWorld ∅ 0 [].

(** The variables assembled on the sample host for a recipe that declares
    [OS] when [OS=custom] is exported. *)
Definition varsOS : taskfile.Vars :=
  taskfile.set
    (install.setSystemVars
       (taskfile.set taskfile.empty "NR_LICENSE_KEY" (taskfile.static "license-0001"))
       manifest)
    "OS" (taskfile.static "custom").

End sample.

(** ** Go's [strings.ToLower], [strings.ToUpper] and [strings.Trim] *)
Module gostrings.

Definition isLower (c : ascii) : bool :=
  (config.byte "a" <=? config.byte c)%nat && (config.byte c <=? config.byte "z")%nat.

Definition upperByte (c : ascii) : ascii :=
  if isLower c then ascii_of_nat (config.byte c - 32) else c.

Fixpoint upperASCII (s : string) : string :=
  match s with
  | EmptyString => EmptyString
  | String c s' => String (upperByte c) (upperASCII s')
  end.

Section unicode.

(** The mapping of a string that holds a byte outside ASCII, by Unicode's
    case tables. *)
Context (unicodeMap : string → string).

(** [strings.ToLower]: an ASCII string is mapped byte by byte. *)
Definition ToLower (s : string) : string :=
  if config.isASCII s then config.lowerASCII s else unicodeMap s.

(** [strings.ToUpper] *)
Definition ToUpper (s : string) : string :=
  if config.isASCII s then upperASCII s else unicodeMap s.

End unicode.

(** [trimLeftByte] *)
Fixpoint trimLeftByte (s : string) (c : ascii) : string :=
  match s with
  | String b s' => if bool_decide (b = c) then trimLeftByte s' c else s
  | EmptyString => EmptyString
  end.

(** [trimRightByte]: the bytes equal to [c] at the end of [s] are dropped. *)
Fixpoint trimRightByte (s : string) (c : ascii) : string :=
  match s with
  | String b s' =>
      match trimRightByte s' c with
      | EmptyString => if bool_decide (b = c) then EmptyString else String b EmptyString
      | rest => String b rest
      end
  | EmptyString => EmptyString
  end.

(** [strings.Trim(s, cutset)] for a cutset of one ASCII byte [c]. *)
Definition TrimByte (s : string) (c : ascii) : string :=
  trimLeftByte (trimRightByte s c) c.

End gostrings.

(** ** internal/config: defaults, validation and the walk over the fields *)
Module cfg.

(** [type Config struct]; [cfgViper] is the viper handle, [None] when nil. *)
Record Config : Type := mkConfig {
  LogLevel : string;
  PluginDir : string;
  SendUsageData : string;
  cfgViper : option nat
}.

(** The dynamic values an [interface{}] of [Value] holds here: a string,
    or a value of another comparable type (told apart by [tag]). *)
Inductive iface : Type :=
| IString (s : string)
| IOther (tag : nat).

#[global] Instance iface_eq_dec : EqDecision iface.
Proof. solve_decision. Defined.

(** [type Value struct] *)
Record Value : Type := mkValue {
  Name : string;
  Val : iface;
  Default : iface
}.

(** [defaultConfig] as [init] builds it, [dir] being the default
    configuration directory. *)
Definition defaultConfig (dir : string) : Config :=
  mkConfig "INFO" (dir ++ "/plugins") "NOT_ASKED" None.

(** [reflect.ValueOf(c).Field(i).Interface()]: the value of an exported
    field; for the unexported [cfgViper], [Interface] panics. *)
Definition fieldInterface (c : Config) (i : nat) : result iface :=
  match i with
  | 0 => Ok (IString (LogLevel c))
  | 1 => Ok (IString (PluginDir c))
  | 2 => Ok (IString (SendUsageData c))
  | _ =>
      Panic "reflect.Value.Interface: cannot return value obtained from unexported field or method"
  end.

Section walk.

Context (hasUnicode : string → string → bool) (unicodeMap : string → string).
Context (defaults : Config).

(** The loop of [visitAllConfigFields] from field [i] on; the callback
    [f] returns its error and the variables it captured. *)
Fixpoint visitFrom {A : Type} (c : Config) (f : Value → A → result unit * A)
    (i : nat) (fields : list config.StructField) (a : A) : result unit * A :=
  match fields with
  | [] => (Ok tt, a)
  | field :: rest =>
      let name := config.Tag_Get (config.Tag field) "mapstructure" in
      match fieldInterface c i with
      | Ok value =>
          match fieldInterface defaults i with
          | Ok defaultValue =>
              match f (mkValue name value defaultValue) a with
              | (Ok _, a') => visitFrom c f (S i) rest a'
              | (Err err, a') => (Err err, a')
              | (Panic p, a') => (Panic p, a')
              end
          | Err e => (Err e, a)
          | Panic p => (Panic p, a)
          end
      | Err e => (Err e, a)
      | Panic p => (Panic p, a)
      end
  end.

(** [func (c *Config) visitAllConfigFields(f) error] *)
Definition visitAllConfigFields {A : Type} (c : Config)
    (f : Value → A → result unit * A) (a : A) : result unit * A :=
  visitFrom c f 0 config.ConfigFields a.

(** The error of [validate] for a value outside [validValues]. *)
Definition invalidValue (value name : string) (validValues : list string) : string :=
  config.quote ++ value ++ config.quote ++ " is not a valid " ++ name
    ++ " value; Please use one of: " ++ config.formatStrings validValues.

(** One case of the switch of [validate]: [v.Value.(string)] panics on a
    value that is not a string. *)
Definition checkValue (v : Value) (validValues : list string) : result unit :=
  match Val v with
  | IString s =>
      if negb (config.stringInStrings hasUnicode s validValues)
      then Err (invalidValue s (Name v) validValues)
      else Ok tt
  | IOther _ => Panic "interface conversion: interface {} is not string"
  end.

Definition logLevels : list string := ["Info"; "Debug"; "Trace"; "Warn"; "Error"].

Definition usageValues : list string := ["NOT_ASKED"; "DISALLOW"; "ALLOW"].

(** The callback of [validate]; it captures nothing. *)
Definition validateField (v : Value) (a : unit) : result unit * unit :=
  let k := gostrings.ToLower unicodeMap (Name v) in
  if bool_decide (k = "loglevel") then (checkValue v logLevels, a)
  else if bool_decide (k = "sendusagedata") then (checkValue v usageValues, a)
  else (Ok tt, a).

(** [func (c *Config) validate() error] *)
Definition validate (c : Config) : result unit :=
  fst (visitAllConfigFields c validateField tt).

(** [func (c *Config) getDefaultValue(key string) (interface{}, error)]: the
    callback captures [dv] ([None] while nil) and [found]; the error of the
    walk is dropped. *)
Definition getDefaultValue (c : Config) (key : string) : result (option iface) :=
  match visitAllConfigFields c
          (fun v '(dv, found) =>
             if bool_decide (key = Name v) then (Ok tt, (Some (Default v), true))
             else (Ok tt, (dv, found)))
          (None, false) with
  | (Panic p, _) => Panic p
  | (_, (dv, found)) =>
      if found then Ok dv else Err ("failed to locate default value for " ++ key)
  end.

(** [func (c *Config) getAll(key string) []Value] *)
Definition getAll (c : Config) (key : string) : result (list Value) :=
  match visitAllConfigFields c
          (fun v values =>
             if bool_decide (key ≠ "") && bool_decide (key ≠ Name v)
             then (Ok tt, values)
             else (Ok tt, (values ++ [v])%list))
          [] with
  | (Panic p, _) => Panic p
  | (_, values) => Ok values
  end.

(** [func (c *Config) get(key string) []Value] *)
Definition get (c : Config) (key : string) : result (list Value) := getAll c key.

Context {St : Type}.
Context (c_set : Config → string → option iface → St → result unit * St).
Context (renderer_Delete : string → St → St).

(** [func (c *Config) Delete(key string) error]; [c.set] and the renderer
    work on the state [St]. *)
Definition Delete (c : Config) (key : string) (st : St) : result unit * St :=
  match getDefaultValue c key with
  | Ok defaultValue =>
      match c_set c key defaultValue st with
      | (Ok _, st') => (Ok tt, renderer_Delete key st')
      | (Err e, st') => (Err e, st')
      | (Panic p, st') => (Panic p, st')
      end
  | Err e => (Err e, st)
  | Panic p => (Panic p, st)
  end.

(** [func (c *Value) IsDefault() bool]: strings are compared by
    [EqualFold] (the assertion on [Default] panics when it holds no
    string), other values by [==]. *)
Definition IsDefault (v : Value) : result bool :=
  match Val v with
  | IString s =>
      match Default v with
      | IString d => Ok (config.EqualFold hasUnicode s d)
      | IOther _ => Panic "interface conversion: interface {} is not string"
      end
  | IOther _ => Ok (bool_decide (Val v = Default v))
  end.

(** What [mergo.Merge] does to one string field: an empty destination
    takes a non-empty source. *)
Definition mergeString (dst src : string) : string :=
  if bool_decide (dst = "") && negb (bool_decide (src = "")) then src else dst.

(** [func (c *Config) setDefaults() error] on a receiver that is not nil:
    [mergo.Merge(c, defaultConfig)] fills the exported fields and leaves the
    unexported one; it returns no error for two structs of one type. *)
Definition setDefaults (c : Config) : Config :=
  mkConfig (mergeString (LogLevel c) (LogLevel defaults))
           (mergeString (PluginDir c) (PluginDir defaults))
           (mergeString (SendUsageData c) (SendUsageData defaults))
           (cfgViper c).

(** logrus: the levels, the text formatter and the standard logger. *)
Inductive Level : Type :=
| ErrorLevel | WarnLevel | InfoLevel | DebugLevel | TraceLevel.

Record TextFormatter : Type := mkFormatter {
  FullTimestamp : bool;
  TimestampFormat : string;
  DisableLevelTruncation : bool
}.

Record Logger : Type := mkLogger {
  Formatter : TextFormatter;
  level : Level;
  ReportCaller : bool
}.

Definition RFC3339 : string := "2006-01-02T15:04:05Z07:00".

(** [func (c *Config) setLogger()] *)
Definition setLogger (c : Config) (lg : Logger) : Logger :=
  let lg := mkLogger (mkFormatter true RFC3339 true) (level lg) (ReportCaller lg) in
  let lvl := gostrings.ToUpper unicodeMap (LogLevel c) in
  if bool_decide (lvl = "TRACE") then mkLogger (Formatter lg) TraceLevel true
  else if bool_decide (lvl = "DEBUG") then mkLogger (Formatter lg) DebugLevel true
  else if bool_decide (lvl = "WARN") then mkLogger (Formatter lg) WarnLevel (ReportCaller lg)
  else if bool_decide (lvl = "ERROR") then mkLogger (Formatter lg) ErrorLevel (ReportCaller lg)
  else mkLogger (Formatter lg) InfoLevel (ReportCaller lg).

(** The errors of [viper.ReadInConfig], by the types the code tells
    apart; each carries its text. *)
Inductive viperError : Type :=
| ConfigFileNotFoundError (msg : string)
| ConfigParseError (msg : string)
| OtherError (msg : string).

(** A viper handle once configured for a directory: what [ReadInConfig]
    returns, what [Unmarshal] decodes the settings to, and its identity. *)
Record Viper : Type := mkViper {
  ReadInConfig : option viperError;
  Unmarshal : result (gmap string Config);
  handle : nat
}.

(** [readConfig], [newViper] being the handle [viper.New] yields once
    set up for [configDir]. *)
Definition readConfig (newViper : string → Viper) (configDir : string) : result Viper :=
  let cfgViper := newViper configDir in
  match ReadInConfig cfgViper with
  | Some (ConfigParseError e) => Err ("error parsing config file: " ++ e)
  | _ => Ok cfgViper
  end.

(** [unmarshalAllScopes] *)
Definition unmarshalAllScopes (cfgViper : Viper) : result (gmap string Config) :=
  match Unmarshal cfgViper with
  | Ok cfgMap => Ok cfgMap
  | Err err => Err ("failed to unmarshal config with error: " ++ err)
  | Panic p => Panic p
  end.

Definition globalScopeIdentifier : string := "*".

(** [LoadConfig]; the logger is the state it changes. *)
Definition LoadConfig (newViper : string → Viper) (configDir : string) (lg : Logger)
    : result Config * Logger :=
  match readConfig newViper configDir with
  | Ok cfgViper =>
      match unmarshalAllScopes cfgViper with
      | Ok allScopes =>
          let config :=
            match allScopes !! globalScopeIdentifier with
            | Some config => config
            | None => mkConfig "" "" "" None
            end in
          let config := setDefaults config in
          let lg := setLogger config lg in
          (Ok (mkConfig (LogLevel config) (PluginDir config) (SendUsageData config)
                        (Some (handle cfgViper))), lg)
      | Err e => (Err e, lg)
      | Panic p => (Panic p, lg)
      end
  | Err e => (Err e, lg)
  | Panic p => (Panic p, lg)
  end.

End walk.

End cfg.

(** ** internal/credentials: loading and marshalling the profiles *)
Module profiles.

(** A viper handle set up for the credentials of a directory: what
    [ReadInConfig] returns, what [WriteConfigAs] returns for a path and
    what [Unmarshal] decodes the settings to. *)
Record Viper : Type := mkViper {
  ReadInConfig : option cfg.viperError;
  WriteConfigAs : string → option string;
  Unmarshal : result (gmap string credentials.Profile)
}.

Section load.

(** [DefaultCredentialsFile] (declared in another file of the package),
    [os.ExpandEnv] and the handle [viper.New] yields once set up. *)
Context (DefaultCredentialsFile : string) (ExpandEnv : string → string).
Context (newViper : string → Viper).

(** The path of the credentials file that [readCredentials] creates. *)
Definition credentialsPath (configDir : string) : string :=
  ExpandEnv (configDir ++ "/" ++ DefaultCredentialsFile ++ ".json").

(** [readCredentials]; [calls] lists the paths [WriteConfigAs] was called
    with. *)
Definition readCredentials (configDir : string) (calls : list string)
    : result Viper * list string :=
  let credViper := newViper configDir in
  match ReadInConfig credViper with
  | Some (cfg.ConfigFileNotFoundError _) =>
      let filePath := credentialsPath configDir in
      match WriteConfigAs credViper filePath with
      | Some err =>
          (Err ("error initializing new configuration directory " ++ filePath ++ ": "
                  ++ err),
           (calls ++ [filePath])%list)
      | None => (Ok credViper, (calls ++ [filePath])%list)
      end
  | Some (cfg.ConfigParseError e) =>
      (Err ("error parsing profile config file: " ++ e), calls)
  | Some (cfg.OtherError _) => (Ok credViper, calls)
  | None => (Ok credViper, calls)
  end.

(** [unmarshalProfiles]: the pointer to the decoded map ([None] for nil)
    and the error. *)
Definition unmarshalProfiles (cfgViper : Viper)
    : result (option (gmap string credentials.Profile) * option string) :=
  match Unmarshal cfgViper with
  | Ok cfgMap => Ok (Some cfgMap, None)
  | Err err => Ok (None, Some ("failed to unmarshal credentials with error: " ++ err))
  | Panic p => Panic p
  end.

(** [LoadProfiles] *)
Definition LoadProfiles (configDir : string) (calls : list string)
    : result (option (gmap string credentials.Profile) * option string) * list string :=
  match readCredentials configDir calls with
  | (Ok cfgViper, calls') =>
      match unmarshalProfiles cfgViper with
      | Ok (creds, None) => (Ok (creds, None), calls')
      | Ok (_, Some err) =>
          (Ok (Some ∅, Some ("error unmarshaling profiles: " ++ err)), calls')
      | Err e => (Err e, calls')
      | Panic p => (Panic p, calls')
      end
  | (Err err, calls') =>
      (Ok (Some ∅, Some ("error while reading credentials: " ++ err)), calls')
  | (Panic p, calls') => (Panic p, calls')
  end.

End load.

(** A value of the JSON object [MarshalJSON] encodes. *)
Inductive jvalue : Type :=
| JString (s : string)
| JNumber (z : Z).

(** A member tagged [omitempty]: left out when the value is the empty
    string or zero. *)
Definition omitempty (name : string) (v : jvalue) : list (string * jvalue) :=
  match v with
  | JString EmptyString => []
  | JNumber 0 => []
  | _ => [(name, v)]
  end.

(** [func (p Profile) MarshalJSON() ([]byte, error)]: the members of the
    object that [json.Marshal] encodes, in the order of the fields of the
    anonymous struct. *)
Definition MarshalJSON (unicodeMap : string → string) (p : credentials.Profile)
    : list (string * jvalue) :=
  (omitempty "apiKey" (JString (credentials.APIKey p))
   ++ omitempty "insightsInsertKey" (JString (credentials.InsightsInsertKey p))
   ++ omitempty "region" (JString (gostrings.ToLower unicodeMap (credentials.Region p)))
   ++ omitempty "accountID" (JNumber (credentials.AccountID p))
   ++ omitempty "licenseKey" (JString (credentials.LicenseKey p)))%list.

End profiles.

(** ** package configuration: the files of the configuration directory *)
Module configuration.

Definition configFilename : string := "config.json".
Definition credsFilename : string := "credentials.json".
Definition defaultProfileFilename : string := "default-profile.json".

(** [keyGlobalScope] *)
Definition keyGlobalScope (key : string) : string := "*" ++ "." ++ key.

(** [defaultProfile] and [keyDefaultProfile] *)
Definition defaultProfile : string := "default".

Definition keyDefaultProfile (key : string) : string := defaultProfile ++ "." ++ key.

Section pkg.

(** [V] is the type of viper handles and [FS] that of the file system;
    [configDir] is the package variable [init] sets; [pathJoin] is
    [path.Join] and [filepathJoin] is [filepath.Join]. *)
Context {V FS : Type}.
Context (configDir : string) (pathJoin filepathJoin : string → string → string).
Context (ReadInConfig : V → option cfg.viperError).
Context (newConfigViper newCredsViper : V).
Context (WriteFile : string → string → Z → FS → option string * FS).
Context (ReadFile : string → FS → result string).
Context (O_CREATE O_TRUNC O_WRONLY : Z).

(** The package variables that [load] and the setters change, and the
    lines written to the debug log. *)
Record State : Type := mkState {
  viperConfig : option V;
  viperCreds : option V;
  defaultProfileValue : string;
  logged : list string
}.

Definition debug (line : string) (st : State) : State :=
  mkState (viperConfig st) (viperCreds st) (defaultProfileValue st)
          (logged st ++ [line]).

(** [loadFile] *)
Definition loadFile (v : V) (st : State) : option string * State :=
  match ReadInConfig v with
  | Some (cfg.ConfigFileNotFoundError _) =>
      (None, debug "file not found, using defaults" st)
  | Some (cfg.ConfigParseError e) => (Some e, st)
  | _ => (None, st)
  end.

(** [loadConfigFile] *)
Definition loadConfigFile (st : State) : option string * State :=
  let st := mkState (Some newConfigViper) (viperCreds st) (defaultProfileValue st)
                    (logged st) in
  match loadFile newConfigViper st with
  | (Some err, st) =>
      (None, debug ("config file not found: " ++ pathJoin configDir configFilename) st)
  | (None, st) => (None, st)
  end.

(** [loadCredsFile]; its debug line names the configuration file. *)
Definition loadCredsFile (st : State) : option string * State :=
  let st := mkState (viperConfig st) (Some newCredsViper) (defaultProfileValue st)
                    (logged st) in
  match loadFile newCredsViper st with
  | (Some err, st) =>
      (None, debug ("credentials file not found: " ++ pathJoin configDir configFilename) st)
  | (None, st) => (None, st)
  end.

(** [loadDefaultProfileFile] *)
Definition loadDefaultProfileFile (fs : FS) (st : State) : result (option string) * State :=
  let defaultProfileFilePath := filepathJoin configDir defaultProfileFilename in
  match ReadFile defaultProfileFilePath fs with
  | Ok defaultProfileBytes =>
      (Ok None,
       mkState (viperConfig st) (viperCreds st)
               (gostrings.TrimByte defaultProfileBytes (ascii_of_nat 34)) (logged st))
  | Err _ => (Ok None, st)
  | Panic p => (Panic p, st)
  end.

(** [load] *)
Definition load (fs : FS) (st : State) : result (option string) * State :=
  match loadConfigFile st with
  | (Some err, st) => (Ok (Some err), st)
  | (None, st) =>
      match loadCredsFile st with
      | (Some err, st) => (Ok (Some err), st)
      | (None, st) => loadDefaultProfileFile fs st
      end
  end.

(** [saveDefaultProfileName]: the open flags are passed as the file mode;
    a failed write is not reported. *)
Definition saveDefaultProfileName (profileName : string) (fs : FS) (st : State)
    : option string * (FS * State) :=
  let defaultProfileFilePath := filepathJoin configDir defaultProfileFilename in
  let flags := Z.lor (Z.lor O_CREATE O_TRUNC) O_WRONLY in
  match WriteFile defaultProfileFilePath profileName flags fs with
  | (Some _, fs') => (None, (fs', st))
  | (None, fs') =>
      (None, (fs', mkState (viperConfig st) (viperCreds st) profileName (logged st)))
  end.

(** [SetDefaultProfileName] and [GetDefaultProfileName] *)
Definition SetDefaultProfileName (profileName : string) (fs : FS) (st : State)
    : option string * (FS * State) :=
  saveDefaultProfileName profileName fs st.

Definition GetDefaultProfileName (st : State) : string := defaultProfileValue st.

End pkg.

End configuration.

(** ** Notions used to state the further properties *)

(** The world with further events logged. *)
Definition addEvents (w : install.World) (evs : list install.event) : install.World :=
  install.mkWorld (install.files w) (install.prompts w) (install.trace w ++ evs).


(** The facts [setSystemVars] takes from the manifest, by name. *)
Definition manifestFacts (m : install.discoveryManifest) : list (string * string) :=
  [ ("OS", install.os m);
    ("Platform", install.platform m);
    ("PlatformFamily", install.platformFamily m);
    ("PlatformVersion", install.platformVersion m);
    ("KernelArch", install.kernelArch m);
    ("KernelVersion", install.kernelVersion m) ].

(** The text of the panic of [reflect.Value.Interface] on an unexported
    field. *)
Definition unexportedPanic : string :=
  "reflect.Value.Interface: cannot return value obtained from unexported field or method".

(** The level [setLogger] chooses for a lower-case name. *)
Definition namedLevel (name : string) : cfg.Level :=
  if bool_decide (name = "trace") then cfg.TraceLevel
  else if bool_decide (name = "debug") then cfg.DebugLevel
  else if bool_decide (name = "warn") then cfg.WarnLevel
  else if bool_decide (name = "error") then cfg.ErrorLevel
  else cfg.InfoLevel.

(** The levels for which [setLogger] switches caller reporting on. *)
Definition reportsCaller (lvl : cfg.Level) : bool :=
  match lvl with cfg.TraceLevel | cfg.DebugLevel => true | _ => false end.

(** The first and the last byte of a string. *)
Definition firstByte (s : string) : option ascii :=
  match s with
  | String b _ => Some b
  | EmptyString => None
  end.

Fixpoint lastByte (s : string) : option ascii :=
  match s with
  | String b EmptyString => Some b
  | String _ s' => lastByte s'
  | EmptyString => None
  end.

(** ** Further sample data *)

Module fixtures.

(** Collaborators for a recipe text that does not parse. *)
Definition extBadRecipe : install.Externals :=
  install.mkExternals
    (fun r => Err "yaml: line 1: did not find expected key")
    (fun i => Ok i)
    (fun pattern => Ok sample.tmpPath)
    (fun path out => Ok tt)
    (fun path => Ok taskfile.empty)
    (fun out => Ok tt)
    sample.creds
    sample.acceptDefault
    (fun calls vars => Ok tt).

(** Collaborators whose engine fails on the first step. *)
Definition extFailingEngine : install.Externals :=
  install.mkExternals
    (fun r => Ok (install.mkRecipeFile "tasks: {}" [sample.varPort]))
    (fun i => Ok i)
    (fun pattern => Ok sample.tmpPath)
    (fun path out => Ok tt)
    (fun path => Ok taskfile.empty)
    (fun out => Ok tt)
    sample.creds
    sample.acceptDefault
    (fun calls vars => Err "task: Failed to run task").

(** An operator who answers the first prompt and the later ones apart. *)
Definition typeIndex (n : nat) (p : promptui.Prompt) : result string :=
  Ok (if (n =? 0)%nat then "first" else "second").

(** A declared variable that carries the name of the license key binding,
    the environment of a run in which that name is exported, and the
    variables assembled for such a recipe on the sample host. *)
Definition varKey : install.variableConfig :=
  install.mkVariableConfig "NR_LICENSE_KEY" "" "".

Definition envKey : gmap string string := {[ "NR_LICENSE_KEY" := "key-of-the-shell" ]}.

Definition varsKey : taskfile.Vars :=
  taskfile.set
    (install.setSystemVars
       (taskfile.set taskfile.empty "NR_LICENSE_KEY" (taskfile.static "license-0001"))
       sample.manifest)
    "NR_LICENSE_KEY" (taskfile.static "key-of-the-shell").

End fixtures.

Module cfgsample.

Definition defaults : cfg.Config := cfg.defaultConfig "/home/op/.newrelic".

Definition verbose : cfg.Config := cfg.mkConfig "debug" "/opt/plugins" "ALLOW" None.

Definition badLevel : cfg.Config := cfg.mkConfig "verbose" "/opt/plugins" "ALLOW" None.

Definition badUsage : cfg.Config := cfg.mkConfig "Info" "/opt/plugins" "maybe" None.

Definition noMap (s : string) : string := s.

Definition noFold (s t : string) : bool := false.

Definition quiet : cfg.Logger :=
  cfg.mkLogger (cfg.mkFormatter false "" false) cfg.InfoLevel false.

End cfgsample.

Module cfgsample2.

(** No configuration file in the directory. *)
Definition missingFile (configDir : string) : cfg.Viper :=
  cfg.mkViper (Some (cfg.ConfigFileNotFoundError "Config File Not Found")) (Ok ∅) 1.

(** A configuration file that is not valid JSON. *)
Definition brokenFile (configDir : string) : cfg.Viper :=
  cfg.mkViper (Some (cfg.ConfigParseError "While parsing config: unexpected end of JSON input"))
              (Ok ∅) 2.

End cfgsample2.

Module profsample.

(** No credentials file yet, in a directory that can be written. *)
Definition fresh (configDir : string) : profiles.Viper :=
  profiles.mkViper (Some (cfg.ConfigFileNotFoundError "Config File Not Found"))
                   (fun path => None) (Ok ∅).

(** A credentials file that is not valid JSON. *)
Definition broken (configDir : string) : profiles.Viper :=
  profiles.mkViper (Some (cfg.ConfigParseError "While parsing config: invalid character"))
                   (fun path => None) (Ok ∅).

Definition staging : credentials.Profile :=
  credentials.mkProfile "NRAK-2" "" "EU" 0 "".

End profsample.

Module cfnsample.

(** A file system as the map from paths to contents; a path under
    [/readonly] cannot be written. *)
Definition WriteFile (path data : string) (mode : Z) (fs : gmap string string)
    : option string * gmap string string :=
  if String.prefix "/readonly" path then (Some "permission denied", fs)
  else (None, <[path := data]> fs).

Definition ReadFile (path : string) (fs : gmap string string) : result string :=
  match fs !! path with
  | Some data => Ok data
  | None => Err "no such file or directory"
  end.

Definition join (dir name : string) : string := dir ++ "/" ++ name.

(** Two viper handles, told apart by a number: the first finds no file,
    the second a file that does not parse. *)
Definition ReadInConfig (v : nat) : option cfg.viperError :=
  match v with
  | 0 => Some (cfg.ConfigFileNotFoundError "Config File Not Found")
  | _ => Some (cfg.ConfigParseError "While parsing config: invalid character")
  end.

Definition start : configuration.State (V := nat) :=
  configuration.mkState None None "default" [].

Definition quoted : string :=
  String (ascii_of_nat 34) ("staging" ++ String (ascii_of_nat 34) "").

End cfnsample.

(** * Properties *)

(** Closes a decidable goal on concrete data by evaluating its decision. *)
Ltac decided := apply (bool_decide_unpack _); vm_compute; exact I.

(** ** [taskfile.Vars] *)
Section vars_facts.

Import taskfile.

Lemma get_set_eq (vs : Vars) (k : string) (v : Var) : get (set vs k v) k = Some v.
Proof. unfold get, set; simpl. apply lookup_insert_eq. Qed.

Lemma get_set_ne (vs : Vars) (k k' : string) (v : Var) :
  k ≠ k' → get (set vs k v) k' = get vs k'.
Proof. intros Hne. unfold get, set; simpl. by apply lookup_insert_ne. Qed.

(** Merging writes every key of [other] over the receiver and leaves the
    remaining keys alone. *)
Lemma get_Merge (vs other : Vars) (k : string) :
  get (Merge vs other) k =
    if bool_decide (k ∈ Keys other)
    then Some (default zeroVar (Mapping other !! k))
    else get vs k.
Proof.
  unfold Merge. generalize (Keys other) as l. intros l. revert vs.
  induction l as [|a l IH]; intros vs; cbn [foldl].
  - rewrite bool_decide_eq_false_2; [done | apply not_elem_of_nil].
  - rewrite IH. destruct (decide (k ∈ l)) as [Hin | Hnin].
    + rewrite !bool_decide_eq_true_2; [done | by right | done].
    + rewrite (bool_decide_eq_false_2 _ Hnin).
      destruct (decide (k = a)) as [-> | Hne].
      * rewrite bool_decide_eq_true_2 by left. apply get_set_eq.
      * rewrite bool_decide_eq_false_2.
        -- by apply get_set_ne.
        -- intros Hc. apply elem_of_cons in Hc as [? | ?]; congruence.
Qed.

(** Merging a one-entry [Vars] is a [Set]. *)
Lemma Merge_single (vs : Vars) (k : string) (v : Var) :
  Merge vs (set empty k v) = set vs k v.
Proof.
  unfold Merge; simpl. by rewrite lookup_insert_eq.
Qed.

Lemma Merge_empty (vs : Vars) : Merge vs empty = vs.
Proof. reflexivity. Qed.

End vars_facts.

(** ** [Credentials.Default] *)

(** C9: [Default] returns (a pointer to) the profile named by
    [DefaultProfile] whenever that name is non-empty and a key of
    [Profiles]; it returns nil whenever the name is empty or names no
    profile; the [Credentials] value is the same after the call. *)
Theorem Default_returns_default_profile (c : credentials.Credentials) :
  (∀ p, credentials.DefaultProfile c ≠ "" →
        credentials.Profiles c !! credentials.DefaultProfile c = Some p →
        fst (credentials.Default c) = Some p) ∧
  (credentials.DefaultProfile c = "" ∨
   credentials.Profiles c !! credentials.DefaultProfile c = None →
   fst (credentials.Default c) = None) ∧
  snd (credentials.Default c) = c.
Proof.
  unfold credentials.Default.
  destruct (decide (credentials.DefaultProfile c = "")) as [He | Hne].
  - rewrite bool_decide_eq_false_2 by (intros H; by apply H).
    split; [| split]; simpl.
    + intros p Hp. by destruct Hp.
    + done.
    + done.
  - rewrite bool_decide_eq_true_2 by done.
    destruct (credentials.Profiles c !! credentials.DefaultProfile c) as [val|] eqn:Hl;
      (split; [| split]); simpl.
    + by intros p _ [= ->].
    + intros [? | ?]; [done | discriminate].
    + done.
    + intros p _ ?. discriminate.
    + done.
    + done.
Qed.

Lemma Default_returns_default_profile_witness :
  fst (credentials.Default sample.creds) = Some sample.profile ∧
  fst (credentials.Default sample.credsDangling) = None ∧
  fst (credentials.Default sample.credsUnset) = None ∧
  snd (credentials.Default sample.creds) = sample.creds.
Proof.
  split; [| split; [| split]].
  - apply (proj1 (Default_returns_default_profile sample.creds)).
    + discriminate.
    + apply lookup_singleton_eq.
  - apply (proj1 (proj2 (Default_returns_default_profile sample.credsDangling))).
    right. apply lookup_singleton_ne. discriminate.
  - apply (proj1 (proj2 (Default_returns_default_profile sample.credsUnset))).
    left. reflexivity.
  - apply (proj2 (proj2 (Default_returns_default_profile sample.creds))).
Defined.

(** ** The recipe executor *)
Section executor_facts.

Import install.

Context (ext : Externals) (env : gmap string string).

Lemma inputVar_env (cfg : variableConfig) (w : World) :
  Getenv env (Name cfg) ≠ "" →
  inputVar ext env cfg w =
    (Ok (taskfile.set taskfile.empty (Name cfg) (taskfile.static (Getenv env (Name cfg)))), w).
Proof.
  intros Hne. unfold inputVar. by rewrite bool_decide_eq_false_2.
Qed.

Lemma inputVar_prompt (cfg : variableConfig) (w : World) :
  Getenv env (Name cfg) = "" →
  inputVar ext env cfg w =
    match promptRun ext (prompts w) (inputPrompt cfg) with
    | Ok result =>
        (Ok (taskfile.set taskfile.empty (Name cfg) (taskfile.static result)),
         prompted (inputPrompt cfg) w)
    | Err err => (Err ("prompt failed: " ++ err), prompted (inputPrompt cfg) w)
    | Panic p => (Panic p, prompted (inputPrompt cfg) w)
    end.
Proof.
  intros He. unfold inputVar. rewrite bool_decide_eq_true_2 by done.
  unfold prompt_Run, prompted.
  by destruct (promptRun ext (prompts w) (inputPrompt cfg)).
Qed.

(** Resolving one variable touches no file and never runs the engine. *)
Lemma inputVar_frame (cfg : variableConfig) (w : World) :
  files (snd (inputVar ext env cfg w)) = files w ∧
  runs (trace (snd (inputVar ext env cfg w))) = runs (trace w).
Proof.
  destruct (decide (Getenv env (Name cfg) = "")) as [He | Hne].
  - rewrite inputVar_prompt by done.
    destruct (promptRun ext (prompts w) (inputPrompt cfg)); simpl;
      (split; [done |]); unfold runs; rewrite List.filter_app; simpl;
      by rewrite List.app_nil_r.
  - by rewrite inputVar_env.
Qed.

Lemma setInputVars_cons (t : taskfile.Vars) (cfg : variableConfig)
    (rest : list variableConfig) (w : World) :
  setInputVars ext env t (cfg :: rest) w =
    match inputVar ext env cfg w with
    | (Ok v, w') => setInputVars ext env (taskfile.Merge t v) rest w'
    | (Err e, w') => (Err e, w')
    | (Panic p, w') => (Panic p, w')
    end.
Proof. reflexivity. Qed.

Lemma setInputVars_frame (inputVars : list variableConfig) :
  ∀ (t : taskfile.Vars) (w : World),
    files (snd (setInputVars ext env t inputVars w)) = files w ∧
    runs (trace (snd (setInputVars ext env t inputVars w))) = runs (trace w).
Proof.
  induction inputVars as [|cfg rest IH]; intros t w.
  - done.
  - rewrite setInputVars_cons.
    destruct (inputVar_frame cfg w) as [Hf Hr].
    destruct (inputVar ext env cfg w) as [[v | e | p] w1]; simpl in *.
    + destruct (IH (taskfile.Merge t v) w1) as [Hf' Hr']. split; congruence.
    + done.
    + done.
Qed.

(** The loop over a concatenation runs the first part, then the second. *)
Lemma setInputVars_app (pre post : list variableConfig) :
  ∀ (t : taskfile.Vars) (w : World),
    setInputVars ext env t (pre ++ post) w =
      match setInputVars ext env t pre w with
      | (Ok t1, w1) => setInputVars ext env t1 post w1
      | (Err e, w1) => (Err e, w1)
      | (Panic p, w1) => (Panic p, w1)
      end.
Proof.
  induction pre as [|cfg pre IH]; intros t w.
  - reflexivity.
  - rewrite <- app_comm_cons, !setInputVars_cons.
    destruct (inputVar ext env cfg w) as [[v | e | p] w1]; [apply IH | done | done].
Qed.

(** A name no declared variable carries keeps its binding. *)
Lemma setInputVars_get_other (k : string) (inputVars : list variableConfig) :
  ∀ (t t' : taskfile.Vars) (w w' : World),
    k ∉ Name <$> inputVars →
    setInputVars ext env t inputVars w = (Ok t', w') →
    taskfile.get t' k = taskfile.get t k.
Proof.
  induction inputVars as [|cfg rest IH]; intros t t' w w' Hk Hrun.
  - by injection Hrun as <- _.
  - rewrite fmap_cons in Hk. apply not_elem_of_cons in Hk as [Hne Hk].
    rewrite setInputVars_cons in Hrun.
    destruct (decide (Getenv env (Name cfg) = "")) as [He | Hnz].
    + rewrite inputVar_prompt in Hrun by done.
      destruct (promptRun ext (prompts w) (inputPrompt cfg)); [| done | done].
      rewrite Merge_single in Hrun.
      rewrite (IH _ _ _ _ Hk Hrun). by apply get_set_ne.
    + rewrite inputVar_env in Hrun by done.
      rewrite Merge_single in Hrun.
      rewrite (IH _ _ _ _ Hk Hrun). by apply get_set_ne.
Qed.

(** A declared variable is bound to what its resolution produced: its
    environment value when that is not empty, else the answer to a prompt
    shown for a declaration of that name. *)
Lemma setInputVars_get_declared (k : string) (inputVars : list variableConfig) :
  ∀ (t t' : taskfile.Vars) (w w' : World),
    k ∈ Name <$> inputVars →
    setInputVars ext env t inputVars w = (Ok t', w') →
    ∃ value,
      taskfile.get t' k = Some (taskfile.static value) ∧
      ((Getenv env k ≠ "" ∧ value = Getenv env k) ∨
       (Getenv env k = "" ∧
        ∃ cfg n, cfg ∈ inputVars ∧ Name cfg = k ∧
                 promptRun ext n (inputPrompt cfg) = Ok value)).
Proof.
  induction inputVars as [|cfg rest IH]; intros t t' w w' Hk Hrun.
  - by apply elem_of_nil in Hk.
  - rewrite setInputVars_cons in Hrun.
    destruct (decide (k ∈ Name <$> rest)) as [Hin | Hnin].
    + destruct (inputVar ext env cfg w) as [[v | e | p] w1]; [| done | done].
      destruct (IH _ _ _ _ Hin Hrun) as (value & Hget & [Henv | (He & c & n & Hc & Hn & Hp)]).
      * exists value. split; [done | by left].
      * exists value. split; [done |]. right. split; [done |].
        exists c, n. split; [by right | done].
    + rewrite fmap_cons in Hk. apply elem_of_cons in Hk as [-> | Hk]; [| done].
      destruct (decide (Getenv env (Name cfg) = "")) as [He | Hnz].
      * rewrite inputVar_prompt in Hrun by done.
        destruct (promptRun ext (prompts w) (inputPrompt cfg)) as [a | |] eqn:Hp;
          [| done | done].
        rewrite Merge_single in Hrun.
        exists a. split.
        -- rewrite (setInputVars_get_other _ _ _ _ _ _ Hnin Hrun). apply get_set_eq.
        -- right. split; [done |]. exists cfg, (prompts w). split; [by left | done].
      * rewrite inputVar_env in Hrun by done.
        rewrite Merge_single in Hrun.
        exists (Getenv env (Name cfg)). split.
        -- rewrite (setInputVars_get_other _ _ _ _ _ _ Hnin Hrun). apply get_set_eq.
        -- by left.
Qed.

Lemma get_setSystemVars_other (m : discoveryManifest) (t : taskfile.Vars) (k : string) :
  k ∉ ["OS"; "Platform"; "PlatformFamily"; "PlatformVersion"; "KernelArch";
       "KernelVersion"] →
  taskfile.get (setSystemVars t m) k = taskfile.get t k.
Proof.
  intros Hk. unfold setSystemVars. rewrite get_Merge.
  by rewrite bool_decide_eq_false_2.
Qed.

(** Before the declared variables are resolved, every system binding
    holds. *)
Lemma get_systemBindings (c : credentials.Credentials) (m : discoveryManifest)
    (t : taskfile.Vars) (k v : string) :
  (k, v) ∈ systemBindings c m →
  taskfile.get
    (setSystemVars
       (taskfile.set t "NR_LICENSE_KEY" (taskfile.static (defaultLicenseKey c))) m) k
  = Some (taskfile.static v).
Proof.
  intros Hin. unfold systemBindings in Hin.
  apply elem_of_cons in Hin as [[= -> ->] | Hin].
  - rewrite get_setSystemVars_other; [apply get_set_eq |].
    intros Hc. repeat (apply elem_of_cons in Hc as [Hc | Hc]; [discriminate |]).
    by apply elem_of_nil in Hc.
  - unfold setSystemVars. rewrite get_Merge.
    repeat (apply elem_of_cons in Hin as [[= -> ->] | Hin]; [vm_compute; reflexivity |]).
    by apply elem_of_nil in Hin.
Qed.

Lemma licenseKeyCallback_eq (c : credentials.Credentials) (vars : taskfile.Vars)
    (err : option string) :
  licenseKeyCallback c (vars, err) =
    (taskfile.set vars "NR_LICENSE_KEY" (taskfile.static (defaultLicenseKey c)),
     if bool_decide (defaultLicenseKey c = "")
     then Some "license key not found in default profile"
     else err).
Proof. unfold licenseKeyCallback. by rewrite Merge_single. Qed.

(** The variable assembly, step by step. *)
Lemma assembleVars_eq (m : discoveryManifest) (f : recipeFile)
    (vars : taskfile.Vars) (w : World) :
  assembleVars ext env m f vars w =
    if bool_decide (defaultLicenseKey (loaded ext) = "")
    then (Err "license key not found in default profile", w)
    else
      setInputVars ext env
        (setSystemVars
           (taskfile.set vars "NR_LICENSE_KEY"
              (taskfile.static (defaultLicenseKey (loaded ext)))) m)
        (InputVars f) w.
Proof.
  unfold assembleVars, ParseV3, credentials.WithCredentials.
  rewrite Merge_empty, licenseKeyCallback_eq.
  by destruct (bool_decide (defaultLicenseKey (loaded ext) = "")).
Qed.

Lemma assembleVars_frame (m : discoveryManifest) (f : recipeFile)
    (vars : taskfile.Vars) (w : World) :
  files (snd (assembleVars ext env m f vars w)) = files w ∧
  runs (trace (snd (assembleVars ext env m f vars w))) = runs (trace w).
Proof.
  rewrite assembleVars_eq.
  destruct (bool_decide (defaultLicenseKey (loaded ext) = "")); [done |].
  apply setInputVars_frame.
Qed.

(** A system binding survives the assembly when no declared variable
    carries its name. *)
Lemma assembleVars_get_system (m : discoveryManifest) (f : recipeFile)
    (vars0 vars : taskfile.Vars) (w w' : World) (k v : string) :
  assembleVars ext env m f vars0 w = (Ok vars, w') →
  (k, v) ∈ systemBindings (loaded ext) m →
  k ∉ Name <$> InputVars f →
  taskfile.get vars k = Some (taskfile.static v).
Proof.
  intros Hrun Hsys Hk. rewrite assembleVars_eq in Hrun.
  destruct (bool_decide (defaultLicenseKey (loaded ext) = "")); [discriminate |].
  rewrite (setInputVars_get_other _ _ _ _ _ _ Hk Hrun).
  by apply get_systemBindings.
Qed.

(** [execute] once its first steps have succeeded: the variables are
    assembled in the staged world, the engine is run on them, and the
    temporary file is removed whatever came of it. *)
Lemma execute_prepared (m : discoveryManifest) (r : recipe) (f : recipeFile)
    (out path : string) (vars : taskfile.Vars) (w : World) :
  prepared ext r f out path vars →
  execute ext env m r w =
    match assembleVars ext env m f vars (staged path out w) with
    | (Ok vars', w1) => (Run ext ["default"] vars',
                         os_Remove path
                           (mkWorld (files w1) (prompts w1)
                                    (trace w1 ++ [EvRun ["default"] vars'])))
    | (Err e, w1) => (Err e, os_Remove path w1)
    | (Panic p, w1) => (Panic p, os_Remove path w1)
    end.
Proof.
  intros (Hf & Hout & Htmp & Hwr & Hsetup & Hun).
  unfold execute, bind, call, ioutil_TempFile, File_Name, ret, defer.
  rewrite Hf, Hout, Htmp. cbn [executeBody].
  unfold bind, call, emit. rewrite Hwr, Hsetup, Hun. cbn [trace files prompts].
  rewrite <- !app_assoc. cbn [app]. fold (staged path out w).
  by destruct (assembleVars ext env m f vars (staged path out w)) as [[v | e | p] w1].
Qed.

(** *** The prompts of a resolution *)

Lemma unresolved_cons (cfg : variableConfig) (rest : list variableConfig) :
  unresolved env (cfg :: rest) =
    if bool_decide (Getenv env (Name cfg) = "") then cfg :: unresolved env rest
    else unresolved env rest.
Proof. reflexivity. Qed.

Lemma afterPrompts_nil (w : World) : afterPrompts w [] = w.
Proof.
  destruct w as [fs n tr]. unfold afterPrompts. cbn.
  by rewrite Nat.add_0_r, app_nil_r.
Qed.

Lemma afterPrompts_cons (w : World) (cfg : variableConfig) (cfgs : list variableConfig) :
  afterPrompts (prompted (inputPrompt cfg) w) cfgs = afterPrompts w (cfg :: cfgs).
Proof.
  unfold afterPrompts, prompted. cbn [files prompts trace].
  rewrite fmap_cons, <- app_assoc. cbn [List.length app]. f_equal. lia.
Qed.

Lemma answered_cons_env (cfg : variableConfig) (rest : list variableConfig) (w : World) :
  Getenv env (Name cfg) ≠ "" →
  answered ext env (cfg :: rest) w → answered ext env rest w.
Proof.
  intros Hne Hans i c Hi. apply (Hans i c).
  by rewrite unresolved_cons, bool_decide_eq_false_2.
Qed.

Lemma answered_cons_prompt (cfg : variableConfig) (rest : list variableConfig)
    (w : World) :
  Getenv env (Name cfg) = "" →
  answered ext env (cfg :: rest) w →
  (∃ answer, promptRun ext (prompts w) (inputPrompt cfg) = Ok answer) ∧
  answered ext env rest (prompted (inputPrompt cfg) w).
Proof.
  intros He Hans. split.
  - destruct (Hans 0%nat cfg) as [a Ha].
    + by rewrite unresolved_cons, bool_decide_eq_true_2.
    + exists a. by rewrite Nat.add_0_r in Ha.
  - intros i c Hi. destruct (Hans (S i) c) as [a Ha].
    + by rewrite unresolved_cons, bool_decide_eq_true_2.
    + exists a. cbn [prompted prompts]. by rewrite Nat.add_succ_comm.
Qed.

(** A successful resolution has shown the prompts of the variables without
    an environment value, and done nothing else. *)
Lemma setInputVars_ok_world (inputVars : list variableConfig) :
  ∀ (t t' : taskfile.Vars) (w w' : World),
    setInputVars ext env t inputVars w = (Ok t', w') →
    w' = afterPrompts w (unresolved env inputVars).
Proof.
  induction inputVars as [|cfg rest IH]; intros t t' w w' Hrun.
  - injection Hrun as _ <-. by rewrite afterPrompts_nil.
  - rewrite setInputVars_cons in Hrun. rewrite unresolved_cons.
    destruct (decide (Getenv env (Name cfg) = "")) as [He | Hne].
    + rewrite inputVar_prompt in Hrun by done.
      rewrite bool_decide_eq_true_2 by done.
      destruct (promptRun ext (prompts w) (inputPrompt cfg)); [| done | done].
      rewrite <- afterPrompts_cons. by eapply IH.
    + rewrite inputVar_env in Hrun by done.
      rewrite bool_decide_eq_false_2 by done. by eapply IH.
Qed.

(** When every prompt is answered the resolution succeeds. *)
Lemma setInputVars_answered (inputVars : list variableConfig) :
  ∀ (t : taskfile.Vars) (w : World),
    answered ext env inputVars w →
    ∃ t', setInputVars ext env t inputVars w
          = (Ok t', afterPrompts w (unresolved env inputVars)).
Proof.
  induction inputVars as [|cfg rest IH]; intros t w Hans.
  - exists t. by rewrite afterPrompts_nil.
  - rewrite setInputVars_cons, unresolved_cons.
    destruct (decide (Getenv env (Name cfg) = "")) as [He | Hne].
    + destruct (answered_cons_prompt cfg rest w He Hans) as [[a Ha] Hrest].
      rewrite inputVar_prompt, Ha, bool_decide_eq_true_2 by done.
      rewrite <- afterPrompts_cons. by apply IH.
    + rewrite inputVar_env, bool_decide_eq_false_2 by done.
      apply IH. by eapply answered_cons_env.
Qed.

(** Whatever comes of the resolution, the prompts it has shown are those
    of the first variables without an environment value. *)
Lemma setInputVars_prompt_prefix (inputVars : list variableConfig) :
  ∀ (t : taskfile.Vars) (w : World),
    ∃ k, trace (snd (setInputVars ext env t inputVars w))
         = (trace w ++ (EvPrompt ∘ inputPrompt <$> take k (unresolved env inputVars)))%list.
Proof.
  induction inputVars as [|cfg rest IH]; intros t w.
  - exists 0%nat. cbn. by rewrite app_nil_r.
  - rewrite setInputVars_cons, unresolved_cons.
    destruct (decide (Getenv env (Name cfg) = "")) as [He | Hne].
    + rewrite inputVar_prompt, bool_decide_eq_true_2 by done.
      destruct (promptRun ext (prompts w) (inputPrompt cfg)) as [a | e | p].
      * destruct (IH (taskfile.Merge t (taskfile.set taskfile.empty (Name cfg)
                                          (taskfile.static a)))
                     (prompted (inputPrompt cfg) w)) as [k Hk].
        exists (S k). rewrite Hk. cbn [prompted trace take].
        by rewrite fmap_cons, <- app_assoc.
      * exists 1%nat. cbn [snd prompted trace take]. by rewrite take_0.
      * exists 1%nat. cbn [snd prompted trace take]. by rewrite take_0.
    + rewrite inputVar_env, bool_decide_eq_false_2 by done. apply IH.
Qed.

(** The binding of a declared name after a successful resolution is the
    resolution of the last declaration of that name. *)
Lemma setInputVars_last (pre post : list variableConfig) (cfg : variableConfig)
    (t t' : taskfile.Vars) (w w' : World) :
  Name cfg ∉ Name <$> post →
  setInputVars ext env t (pre ++ cfg :: post) w = (Ok t', w') →
  ∃ value,
    taskfile.get t' (Name cfg) = Some (taskfile.static value) ∧
    (if bool_decide (Getenv env (Name cfg) = "")
     then promptRun ext (prompts w + List.length (unresolved env pre)) (inputPrompt cfg)
          = Ok value
     else value = Getenv env (Name cfg)).
Proof.
  intros Hlast Hrun. rewrite setInputVars_app in Hrun.
  destruct (setInputVars ext env t pre w) as [[t1 | e | p] w1] eqn:Hpre; [| done | done].
  apply setInputVars_ok_world in Hpre. subst w1.
  rewrite setInputVars_cons in Hrun.
  destruct (decide (Getenv env (Name cfg) = "")) as [He | Hne].
  - rewrite inputVar_prompt in Hrun by done.
    rewrite bool_decide_eq_true_2 by done. cbn [afterPrompts prompts] in Hrun.
    destruct (promptRun ext _ (inputPrompt cfg)) as [a | |]; [| done | done].
    rewrite Merge_single in Hrun. exists a. split; [| done].
    rewrite (setInputVars_get_other _ _ _ _ _ _ Hlast Hrun). apply get_set_eq.
  - rewrite inputVar_env in Hrun by done.
    rewrite bool_decide_eq_false_2 by done.
    rewrite Merge_single in Hrun. eexists. split; [| done].
    rewrite (setInputVars_get_other _ _ _ _ _ _ Hlast Hrun). apply get_set_eq.
Qed.

(** A variable without an environment value that the resolution reaches is
    prompted for, and the answer decides how the resolution goes on. *)
Lemma setInputVars_reaches (pre post : list variableConfig) (cfg : variableConfig)
    (t : taskfile.Vars) (w : World) :
  Getenv env (Name cfg) = "" →
  answered ext env pre w →
  ∃ t1,
    setInputVars ext env t pre w = (Ok t1, afterPrompts w (unresolved env pre)) ∧
    setInputVars ext env t (pre ++ cfg :: post) w =
      match promptRun ext (prompts w + List.length (unresolved env pre))
                      (inputPrompt cfg) with
      | Ok result =>
          setInputVars ext env
            (taskfile.set t1 (Name cfg) (taskfile.static result)) post
            (prompted (inputPrompt cfg) (afterPrompts w (unresolved env pre)))
      | Err err =>
          (Err ("prompt failed: " ++ err),
           prompted (inputPrompt cfg) (afterPrompts w (unresolved env pre)))
      | Panic p =>
          (Panic p, prompted (inputPrompt cfg) (afterPrompts w (unresolved env pre)))
      end.
Proof.
  intros He Hans. destruct (setInputVars_answered pre t w Hans) as [t1 Hpre].
  exists t1. split; [done |].
  rewrite setInputVars_app, Hpre, setInputVars_cons, inputVar_prompt by done.
  cbn [afterPrompts prompts].
  destruct (promptRun ext _ (inputPrompt cfg)); [| done | done].
  by rewrite Merge_single.
Qed.

(** A variable with an environment value that the resolution reaches is
    bound to that value, and the resolution goes on in the same world. *)
Lemma setInputVars_passes (pre post : list variableConfig) (cfg : variableConfig)
    (t : taskfile.Vars) (w : World) :
  Getenv env (Name cfg) ≠ "" →
  answered ext env pre w →
  ∃ t1,
    setInputVars ext env t pre w = (Ok t1, afterPrompts w (unresolved env pre)) ∧
    setInputVars ext env t (pre ++ cfg :: post) w =
      setInputVars ext env
        (taskfile.set t1 (Name cfg) (taskfile.static (Getenv env (Name cfg)))) post
        (afterPrompts w (unresolved env pre)).
Proof.
  intros Hne Hans. destruct (setInputVars_answered pre t w Hans) as [t1 Hpre].
  exists t1. split; [done |].
  by rewrite setInputVars_app, Hpre, setInputVars_cons, inputVar_env, Merge_single.
Qed.

(** With a license key and every prompt answered, the assembly succeeds. *)
Lemma assembleVars_answered (m : discoveryManifest) (f : recipeFile)
    (vars : taskfile.Vars) (w : World) :
  defaultLicenseKey (loaded ext) ≠ "" →
  answered ext env (InputVars f) w →
  ∃ vars', assembleVars ext env m f vars w
           = (Ok vars', afterPrompts w (unresolved env (InputVars f))).
Proof.
  intros Hkey Hans. rewrite assembleVars_eq, bool_decide_eq_false_2 by done.
  by apply setInputVars_answered.
Qed.

(** After a successful assembly the engine is run on the assembled
    variables. *)
Lemma execute_runs_assembled (m : discoveryManifest) (r : recipe) (f : recipeFile)
    (out path : string) (vars vars' : taskfile.Vars) (w w' : World) :
  prepared ext r f out path vars →
  assembleVars ext env m f vars (staged path out w) = (Ok vars', w') →
  fst (execute ext env m r w) = Run ext ["default"] vars' ∧
  EvRun ["default"] vars' ∈ trace (snd (execute ext env m r w)).
Proof.
  intros Hprep Hrun. rewrite (execute_prepared m r f out path vars w Hprep), Hrun.
  split; [done |]. cbn [snd os_Remove trace].
  rewrite !elem_of_app. left. right. by apply list_elem_of_singleton.
Qed.

End executor_facts.

(** ** Precedence between declared variables and system bindings *)

(** C1, as the code has it: the declared input variables are resolved
    after the system bindings are injected, so a declared variable wins a
    name collision.  After the variable assembly of [execute], every
    system binding whose name no declared variable carries holds the
    system value, and every declared name holds the resolution of its last
    declaration: the environment value if that is not empty, else the
    answer to the prompt shown for that last declaration, which is the
    prompt that follows those of the earlier variables without an
    environment value.  These are the variables the engine is run with.
    The assembly succeeds when there is a license key and every prompt is
    answered. *)
Theorem declared_vars_override_system_bindings
    (ext : install.Externals) (env : gmap string string)
    (m : install.discoveryManifest) (f : install.recipeFile)
    (vars0 : taskfile.Vars) (w : install.World) :
  (∀ vars w',
     install.assembleVars ext env m f vars0 w = (Ok vars, w') →
     (∀ k v, (k, v) ∈ install.systemBindings (install.loaded ext) m →
             k ∉ install.Name <$> install.InputVars f →
             taskfile.get vars k = Some (taskfile.static v)) ∧
     (∀ pre cfg post,
        install.InputVars f = (pre ++ cfg :: post)%list →
        install.Name cfg ∉ install.Name <$> post →
        ∃ value,
          taskfile.get vars (install.Name cfg) = Some (taskfile.static value) ∧
          (if bool_decide (install.Getenv env (install.Name cfg) = "")
           then install.promptRun ext
                  (install.prompts w + List.length (install.unresolved env pre))
                  (install.inputPrompt cfg) = Ok value
           else value = install.Getenv env (install.Name cfg))) ∧
     (∀ r out path w0,
        install.prepared ext r f out path vars0 →
        w = install.staged path out w0 →
        fst (install.execute ext env m r w0) = install.Run ext ["default"] vars ∧
        install.EvRun ["default"] vars ∈
          install.trace (snd (install.execute ext env m r w0)))) ∧
  (install.defaultLicenseKey (install.loaded ext) ≠ "" →
   install.answered ext env (install.InputVars f) w →
   ∃ vars,
     install.assembleVars ext env m f vars0 w
     = (Ok vars, install.afterPrompts w (install.unresolved env (install.InputVars f)))).
Proof.
  split.
  - intros vars w' Hrun. split; [| split].
    + intros k v Hsys Hk. by eapply assembleVars_get_system.
    + intros pre cfg post Hvars Hlast. rewrite assembleVars_eq in Hrun.
      destruct (bool_decide (install.defaultLicenseKey (install.loaded ext) = ""));
        [discriminate |].
      rewrite Hvars in Hrun. by eapply setInputVars_last.
    + intros r out path w0 Hprep ->. by eapply execute_runs_assembled.
  - intros Hkey Hans. by apply assembleVars_answered.
Qed.

(** A run on the sample host ([OS] is ["linux"]) of a recipe that declares
    [PORT], [OS] and [HOST] twice, with [OS=custom] exported and nothing
    else, by an operator who types ["first"] at the first prompt and
    ["second"] at the later ones: [Platform] and the license key keep the
    system value, [OS] takes the exported value, [PORT] the first answer
    and [HOST] the answer to the prompt of its last declaration. *)
Lemma declared_vars_override_system_bindings_witness :
  ∃ vars,
    install.assembleVars
      (sample.ext [] fixtures.typeIndex (Ok sample.tmpPath) sample.creds)
      sample.envOS sample.manifest
      (install.mkRecipeFile "tasks: {}"
         [sample.varPort; sample.varOS; sample.varHost; sample.varHost])
      taskfile.empty sample.world
    = (Ok vars,
       install.mkWorld ∅ 3
         [install.EvPrompt (promptui.mkPrompt "Port to monitor" "8080");
          install.EvPrompt (promptui.mkPrompt "value for HOST required" "");
          install.EvPrompt (promptui.mkPrompt "value for HOST required" "")]) ∧
    taskfile.get vars "Platform" = Some (taskfile.static "ubuntu") ∧
    taskfile.get vars "NR_LICENSE_KEY" = Some (taskfile.static "license-0001") ∧
    taskfile.get vars "OS" = Some (taskfile.static "custom") ∧
    taskfile.get vars "PORT" = Some (taskfile.static "first") ∧
    taskfile.get vars "HOST" = Some (taskfile.static "second").
Proof.
  pose proof (declared_vars_override_system_bindings
    (sample.ext [] fixtures.typeIndex (Ok sample.tmpPath) sample.creds)
    sample.envOS sample.manifest
    (install.mkRecipeFile "tasks: {}"
       [sample.varPort; sample.varOS; sample.varHost; sample.varHost])
    taskfile.empty sample.world) as [Hbound Hruns].
  destruct Hruns as [vars Hrun].
  { vm_compute. discriminate. }
  { intros i cfg Hi. eexists. reflexivity. }
  destruct (Hbound _ _ Hrun) as (Hsys & Hdecl & _).
  exists vars. split; [exact Hrun | split; [| split; [| split; [| split]]]].
  - apply Hsys; decided.
  - apply Hsys; decided.
  - destruct (Hdecl [sample.varPort] sample.varOS [sample.varHost; sample.varHost])
      as (value & Hget & Hval); [reflexivity | decided |].
    vm_compute in Hval. by subst value.
  - destruct (Hdecl [] sample.varPort [sample.varOS; sample.varHost; sample.varHost])
      as (value & Hget & Hval); [reflexivity | decided |].
    vm_compute in Hval. injection Hval as <-. exact Hget.
  - destruct (Hdecl [sample.varPort; sample.varOS; sample.varHost] sample.varHost [])
      as (value & Hget & Hval); [reflexivity | decided |].
    vm_compute in Hval. injection Hval as <-. exact Hget.
Defined.

(** C1 fails as stated: on a host whose [OS] is ["linux"], a recipe that
    declares an input variable [OS] is run with [OS=custom] exported; the
    engine is run with [OS] bound to ["custom"], not to the system value. *)
Lemma system_binding_overridden_by_declared_var :
  install.EvRun ["default"] sample.varsOS ∈
    install.trace
      (snd (install.execute
              (sample.ext [sample.varOS] sample.acceptDefault
                          (Ok sample.tmpPath) sample.creds)
              sample.envOS sample.manifest sample.nginx sample.world)) ∧
  ("OS", "linux") ∈ install.systemBindings sample.creds sample.manifest ∧
  taskfile.get sample.varsOS "OS" = Some (taskfile.static "custom") ∧
  taskfile.get sample.varsOS "OS" ≠ Some (taskfile.static "linux").
Proof.
  split; [| split; [| split]].
  - vm_compute. do 3 right. left.
  - decided.
  - apply get_set_eq.
  - unfold sample.varsOS. rewrite get_set_eq. discriminate.
Qed.

(** ** The shape of [execute] *)
Section execute_facts.

Import install.

Context (ext : Externals).

(** [execute], by the outcome of its first three steps: a failure of
    [TempFile] leaves a nil file whose name the [defer] statement asks for
    before the error is looked at. *)
Lemma execute_eq (env : gmap string string) (m : discoveryManifest) (r : recipe)
    (w : World) :
  execute ext env m r w =
    match ToRecipeFile ext r with
    | Ok f =>
        match yamlMarshal ext (Install f) with
        | Ok out =>
            match TempFile ext (MetadataName r) with
            | Ok path =>
                let '(res, w1) :=
                  executeBody ext env m f out path None
                    (mkWorld ({[path]} ∪ files w) (prompts w)
                             (trace w ++ [EvTempFile path])) in
                (res, os_Remove path w1)
            | Err e => (Panic "invalid memory address or nil pointer dereference", w)
            | Panic p => (Panic p, w)
            end
        | Err e => (Err e, w)
        | Panic p => (Panic p, w)
        end
    | Err e => (Err e, w)
    | Panic p => (Panic p, w)
    end.
Proof.
  unfold execute, bind, call, ioutil_TempFile, File_Name, ret, defer.
  destruct (ToRecipeFile ext r) as [f | e | p]; [| done | done].
  destruct (yamlMarshal ext (Install f)) as [out | e | p]; [| done | done].
  by destruct (TempFile ext (MetadataName r)) as [path | e | p].
Qed.

Lemma runs_snoc (tr : list event) (ev : event) :
  runs (tr ++ [ev]) = (runs tr + if isRun ev then 1 else 0)%nat.
Proof.
  unfold runs. rewrite List.filter_app, List.length_app. simpl.
  by destruct (isRun ev).
Qed.

(** The body of [execute] creates and removes no file. *)
Lemma executeBody_files (env : gmap string string) (m : discoveryManifest)
    (f : recipeFile) (out path : string) (w : World) :
  files (snd (executeBody ext env m f out path None w)) = files w.
Proof.
  cbn [executeBody]. unfold bind, call, emit, task_Run.
  destruct (fileWrite ext path out) as [[] | e | p]; [| done | done].
  cbn [files prompts trace].
  destruct (Setup ext path) as [vars | e | p]; [| done | done].
  destruct (yamlUnmarshal ext out) as [[] | e | p]; [| done | done].
  set (w0 := mkWorld (files w) (prompts w) _).
  destruct (assembleVars_frame ext env m f vars w0) as [Hf _].
  by destruct (assembleVars ext env m f vars w0) as [[v | e | p] w1].
Qed.

(** Without a license key the body of [execute] fails before the engine
    is run. *)
Lemma executeBody_no_key (env : gmap string string) (m : discoveryManifest)
    (f : recipeFile) (out path : string) (w : World) :
  defaultLicenseKey (loaded ext) = "" →
  runs (trace (snd (executeBody ext env m f out path None w))) = runs (trace w) ∧
  fst (executeBody ext env m f out path None w) ≠ Ok tt.
Proof.
  intros Hkey. cbn [executeBody]. unfold bind, call, emit, task_Run.
  destruct (fileWrite ext path out) as [[] | e | p]; [| done | done].
  cbn [files prompts trace].
  destruct (Setup ext path) as [vars | e | p]; cbn [fst snd trace].
  2,3: rewrite !runs_snoc; simpl; split; [lia | done].
  destruct (yamlUnmarshal ext out) as [[] | e | p]; cbn [fst snd trace].
  2,3: rewrite !runs_snoc; simpl; split; [lia | done].
  rewrite assembleVars_eq, bool_decide_eq_true_2 by done.
  cbn [fst snd trace]. rewrite !runs_snoc; simpl; split; [lia | done].
Qed.

End execute_facts.

(** ** Resolution of the declared variables *)
Section resolution_facts.

Import install.

Context (ext : Externals).

(** The loop prompts at most once for each variable whose environment value
    is empty, and for no other. *)
Lemma setInputVars_prompts (env : gmap string string) (inputVars : list variableConfig) :
  ∀ (t : taskfile.Vars) (w : World),
    (prompts (snd (setInputVars ext env t inputVars w))
     ≤ prompts w + List.length (unresolved env inputVars))%nat.
Proof.
  induction inputVars as [|cfg rest IH]; intros t w.
  - simpl. lia.
  - rewrite setInputVars_cons. unfold unresolved. cbn [List.filter].
    destruct (decide (Getenv env (Name cfg) = "")) as [He | Hne].
    + rewrite inputVar_prompt, bool_decide_eq_true_2 by done.
      destruct (promptRun ext (prompts w) (inputPrompt cfg)) as [a | e | p].
      * etrans; [apply IH |]. unfold unresolved. simpl. lia.
      * simpl. lia.
      * simpl. lia.
    + rewrite inputVar_env, bool_decide_eq_false_2 by done. apply IH.
Qed.

(** Only [Getenv] reads the environment: two environments that answer it
    alike are not told apart. *)
Lemma inputVar_env_ext (env1 env2 : gmap string string) (cfg : variableConfig)
    (w : World) :
  (∀ k, Getenv env1 k = Getenv env2 k) →
  inputVar ext env1 cfg w = inputVar ext env2 cfg w.
Proof. intros Heq. unfold inputVar. by rewrite Heq. Qed.

Lemma setInputVars_env_ext (env1 env2 : gmap string string)
    (inputVars : list variableConfig) :
  (∀ k, Getenv env1 k = Getenv env2 k) →
  ∀ (t : taskfile.Vars) (w : World),
    setInputVars ext env1 t inputVars w = setInputVars ext env2 t inputVars w.
Proof.
  intros Heq. induction inputVars as [|cfg rest IH]; intros t w; [done |].
  rewrite !setInputVars_cons, (inputVar_env_ext env1 env2) by done.
  destruct (inputVar ext env2 cfg w) as [[v | e | p] w1]; [apply IH | done | done].
Qed.

Lemma Getenv_empty_unset (env : gmap string string) (name k : string) :
  Getenv (<[name := ""]> env) k = Getenv (delete name env) k.
Proof.
  unfold Getenv. destruct (decide (name = k)) as [-> | Hne].
  - by rewrite lookup_insert_eq, lookup_delete_eq.
  - by rewrite lookup_insert_ne, lookup_delete_ne.
Qed.

End resolution_facts.

(** C2: a declared variable whose environment variable is set and not
    empty is bound to the environment value: resolving it returns that
    binding and leaves the world as it was (no prompt is shown), whatever
    its prompt text and default are; the loop shows at most one prompt for
    each variable without an environment value; after a successful
    resolution the variable is bound to the environment value.  The loop
    itself: when the operator answers the prompts of the other variables,
    the resolution succeeds, the world it leaves has the prompts of the
    variables without an environment value and nothing else, and the
    variable is bound to its environment value; where the loop comes to
    the variable, at the head of the list or later, it binds the name to
    the environment value and goes on in the same world, whatever the
    prompt text and the default of the declaration; and whatever comes of
    the resolution, every prompt it has shown is the prompt of a variable
    without an environment value. *)
Theorem env_value_used_without_prompt
    (ext : install.Externals) (env : gmap string string)
    (cfg : install.variableConfig) :
  install.Getenv env (install.Name cfg) ≠ "" →
  (∀ w, install.inputVar ext env cfg w =
          (Ok (taskfile.set taskfile.empty (install.Name cfg)
                 (taskfile.static (install.Getenv env (install.Name cfg)))), w)) ∧
  (∀ text dflt w,
      install.inputVar ext env
        (install.mkVariableConfig (install.Name cfg) text dflt) w =
      install.inputVar ext env cfg w) ∧
  (∀ t inputVars w,
      (install.prompts (snd (install.setInputVars ext env t inputVars w))
       ≤ install.prompts w + List.length (install.unresolved env inputVars))%nat ∧
      cfg ∉ install.unresolved env inputVars) ∧
  (∀ t inputVars w t' w',
      cfg ∈ inputVars →
      install.setInputVars ext env t inputVars w = (Ok t', w') →
      taskfile.get t' (install.Name cfg) =
        Some (taskfile.static (install.Getenv env (install.Name cfg)))) ∧
  (∀ t inputVars w,
      cfg ∈ inputVars →
      install.answered ext env inputVars w →
      ∃ t',
        install.setInputVars ext env t inputVars w
        = (Ok t', install.afterPrompts w (install.unresolved env inputVars)) ∧
        taskfile.get t' (install.Name cfg) =
          Some (taskfile.static (install.Getenv env (install.Name cfg)))) ∧
  (∀ text dflt t rest w,
      install.setInputVars ext env t
        (install.mkVariableConfig (install.Name cfg) text dflt :: rest) w =
      install.setInputVars ext env
        (taskfile.set t (install.Name cfg)
           (taskfile.static (install.Getenv env (install.Name cfg)))) rest w) ∧
  (∀ t pre post w,
      install.answered ext env pre w →
      ∃ t1,
        install.setInputVars ext env t pre w
        = (Ok t1, install.afterPrompts w (install.unresolved env pre)) ∧
        install.setInputVars ext env t (pre ++ cfg :: post) w =
          install.setInputVars ext env
            (taskfile.set t1 (install.Name cfg)
               (taskfile.static (install.Getenv env (install.Name cfg)))) post
            (install.afterPrompts w (install.unresolved env pre))) ∧
  (∀ t inputVars w,
      ∃ k, install.trace (snd (install.setInputVars ext env t inputVars w))
           = (install.trace w
              ++ (install.EvPrompt ∘ install.inputPrompt
                    <$> take k (install.unresolved env inputVars)))%list).
Proof.
  intros Hne.
  assert (Hbound : ∀ t inputVars w t' w',
    cfg ∈ inputVars →
    install.setInputVars ext env t inputVars w = (Ok t', w') →
    taskfile.get t' (install.Name cfg) =
      Some (taskfile.static (install.Getenv env (install.Name cfg)))).
  { intros t inputVars w t' w' Hin Hrun.
    destruct (setInputVars_get_declared ext env (install.Name cfg) inputVars
                t t' w w') as (value & Hget & [[_ ->] | [He _]]); try done.
    by apply list_elem_of_fmap_2. }
  split; [| split; [| split; [| split; [| split; [| split; [| split]]]]]].
  - intros w. by apply inputVar_env.
  - intros text dflt w. by rewrite !inputVar_env.
  - intros t inputVars w. split; [apply setInputVars_prompts |].
    unfold install.unresolved. rewrite list_elem_of_In, List.filter_In.
    intros [_ Hc]. by apply bool_decide_eq_true_1 in Hc.
  - exact Hbound.
  - intros t inputVars w Hin Hans.
    destruct (setInputVars_answered ext env inputVars t w Hans) as [t' Hrun].
    exists t'. split; [exact Hrun |]. by eapply Hbound.
  - intros text dflt t rest w.
    by rewrite setInputVars_cons, inputVar_env, Merge_single.
  - intros t pre post w Hans.
    exact (setInputVars_passes ext env pre post cfg t w Hne Hans).
  - intros t inputVars w. apply setInputVars_prompt_prefix.
Qed.

(** The recipe declares [PORT], [OS] and [HOST]; [OS=custom] is exported
    and the operator accepts the default of every prompt: the resolution
    succeeds, it has shown the prompts of [PORT] and [HOST] and none for
    [OS], and [OS] is bound to ["custom"].  A recipe that declares [OS]
    alone is resolved without a prompt, also by an operator who would
    interrupt one. *)
Lemma env_value_used_without_prompt_witness :
  (∃ t',
     install.setInputVars
       (sample.ext [] sample.acceptDefault (Ok sample.tmpPath) sample.creds)
       sample.envOS taskfile.empty [sample.varPort; sample.varOS; sample.varHost]
       sample.world
     = (Ok t',
        install.mkWorld ∅ 2
          [install.EvPrompt (promptui.mkPrompt "Port to monitor" "8080");
           install.EvPrompt (promptui.mkPrompt "value for HOST required" "")]) ∧
     taskfile.get t' "OS" = Some (taskfile.static "custom")) ∧
  install.setInputVars
    (sample.ext [] sample.interrupt (Ok sample.tmpPath) sample.creds)
    sample.envOS taskfile.empty [sample.varOS] sample.world
  = (Ok (taskfile.set taskfile.empty "OS" (taskfile.static "custom")), sample.world).
Proof.
  split.
  - destruct (env_value_used_without_prompt
      (sample.ext [] sample.acceptDefault (Ok sample.tmpPath) sample.creds)
      sample.envOS sample.varOS ltac:(vm_compute; discriminate))
      as (_ & _ & _ & _ & Hloop & _).
    destruct (Hloop taskfile.empty [sample.varPort; sample.varOS; sample.varHost]
                sample.world) as (t' & Hrun & Hget).
    + right. left.
    + intros i c Hi. eexists. reflexivity.
    + exists t'. split; [exact Hrun | exact Hget].
  - destruct (env_value_used_without_prompt
      (sample.ext [] sample.interrupt (Ok sample.tmpPath) sample.creds)
      sample.envOS sample.varOS ltac:(vm_compute; discriminate))
      as (_ & _ & _ & _ & _ & Hstep & _).
    exact (Hstep "" "" taskfile.empty [] sample.world).
Defined.

(** C3: when the prompt shown for a declared variable fails or is
    interrupted, the resolution of the recipe's variables fails with the
    error ["prompt failed: ..."], [execute] returns that error, and the
    task engine is not run. *)
Theorem failed_prompt_fails_recipe
    (ext : install.Externals) (env : gmap string string)
    (m : install.discoveryManifest) (r : install.recipe) (f : install.recipeFile)
    (out path : string) (vars : taskfile.Vars) (w : install.World)
    (pre post : list install.variableConfig) (cfg : install.variableConfig)
    (t1 : taskfile.Vars) (w1 : install.World) (err : string) :
  install.prepared ext r f out path vars →
  install.defaultLicenseKey (install.loaded ext) ≠ "" →
  install.InputVars f = (pre ++ cfg :: post)%list →
  install.setInputVars ext env (install.baseVars ext m vars) pre
    (install.staged path out w) = (Ok t1, w1) →
  install.Getenv env (install.Name cfg) = "" →
  install.promptRun ext (install.prompts w1) (install.inputPrompt cfg) = Err err →
  install.setInputVars ext env (install.baseVars ext m vars) (install.InputVars f)
    (install.staged path out w)
  = (Err ("prompt failed: " ++ err), install.prompted (install.inputPrompt cfg) w1) ∧
  install.execute ext env m r w
  = (Err ("prompt failed: " ++ err),
     install.os_Remove path (install.prompted (install.inputPrompt cfg) w1)) ∧
  install.runs (install.trace (snd (install.execute ext env m r w)))
  = install.runs (install.trace w).
Proof.
  intros Hprep Hkey Hvars Hpre He Hprompt.
  assert (Hloop :
    install.setInputVars ext env (install.baseVars ext m vars) (install.InputVars f)
      (install.staged path out w)
    = (Err ("prompt failed: " ++ err), install.prompted (install.inputPrompt cfg) w1)).
  { rewrite Hvars, setInputVars_app, Hpre, setInputVars_cons.
    by rewrite inputVar_prompt, Hprompt by done. }
  assert (Hexec :
    install.execute ext env m r w
    = (Err ("prompt failed: " ++ err),
       install.os_Remove path (install.prompted (install.inputPrompt cfg) w1))).
  { rewrite (execute_prepared ext env m r f out path vars w Hprep).
    rewrite assembleVars_eq, bool_decide_eq_false_2 by done.
    fold (install.baseVars ext m vars). by rewrite Hloop. }
  split; [done | split; [done |]].
  rewrite Hexec.
  destruct (setInputVars_frame ext env pre (install.baseVars ext m vars)
              (install.staged path out w)) as [_ Hr].
  rewrite Hpre in Hr. cbn [snd] in Hr.
  cbn [snd install.os_Remove install.prompted install.trace].
  rewrite !runs_snoc, Hr. unfold install.staged. cbn [install.trace].
  change [install.EvTempFile path; install.EvWrite path out; install.EvSetup path]
    with ([install.EvTempFile path] ++ [install.EvWrite path out]
            ++ [install.EvSetup path])%list.
  rewrite !app_assoc, !runs_snoc. simpl. lia.
Qed.

(** The recipe declares [HOST], nothing is exported and the operator
    interrupts the prompt. *)
Lemma failed_prompt_fails_recipe_witness :
  fst (install.execute
         (sample.ext [sample.varHost] sample.interrupt (Ok sample.tmpPath) sample.creds)
         sample.noEnv sample.manifest sample.nginx sample.world)
  = Err "prompt failed: ^C" ∧
  install.runs
    (install.trace
       (snd (install.execute
               (sample.ext [sample.varHost] sample.interrupt (Ok sample.tmpPath)
                           sample.creds)
               sample.noEnv sample.manifest sample.nginx sample.world)))
  = install.runs (install.trace sample.world).
Proof.
  destruct (failed_prompt_fails_recipe
    (sample.ext [sample.varHost] sample.interrupt (Ok sample.tmpPath) sample.creds)
    sample.noEnv sample.manifest sample.nginx
    (install.mkRecipeFile "tasks: {}" [sample.varHost]) "tasks: {}" sample.tmpPath
    taskfile.empty sample.world [] [] sample.varHost
    (install.baseVars
       (sample.ext [sample.varHost] sample.interrupt (Ok sample.tmpPath) sample.creds)
       sample.manifest taskfile.empty)
    (install.staged sample.tmpPath "tasks: {}" sample.world) "^C")
    as (_ & Hexec & Hruns).
  - by repeat split.
  - vm_compute. discriminate.
  - reflexivity.
  - reflexivity.
  - reflexivity.
  - reflexivity.
  - split; [by rewrite Hexec | exact Hruns].
Defined.

(** C4, as the code has it: when the default profile has no license key,
    [execute] does not succeed and does not run the engine, and once its
    earlier steps have succeeded it returns the error ["license key not
    found in default profile"].  When the key is not empty, the callback
    binds [NR_LICENSE_KEY] to exactly that key and reports no error; if
    the recipe declares no input variable of that name, the assembled
    variables keep that binding, the assembly succeeds as soon as every
    prompt is answered, and the engine is then run with [NR_LICENSE_KEY]
    bound to the key; if the recipe declares such a variable, the binding
    is the resolution of its last declaration. *)
Theorem missing_license_key_fails
    (ext : install.Externals) (env : gmap string string)
    (m : install.discoveryManifest) (r : install.recipe) (w : install.World) :
  (install.defaultLicenseKey (install.loaded ext) = "" →
     fst (install.execute ext env m r w) ≠ Ok tt ∧
     install.runs (install.trace (snd (install.execute ext env m r w)))
       = install.runs (install.trace w) ∧
     ∀ f out path vars,
       install.prepared ext r f out path vars →
       fst (install.execute ext env m r w)
         = Err "license key not found in default profile") ∧
  (install.defaultLicenseKey (install.loaded ext) ≠ "" →
     (∀ vars,
        install.licenseKeyCallback (install.loaded ext) (vars, None) =
          (taskfile.set vars "NR_LICENSE_KEY"
             (taskfile.static (install.defaultLicenseKey (install.loaded ext))),
           None)) ∧
     (∀ f vars w0 vars' w',
        install.assembleVars ext env m f vars w0 = (Ok vars', w') →
        "NR_LICENSE_KEY" ∉ install.Name <$> install.InputVars f →
        taskfile.get vars' "NR_LICENSE_KEY" =
          Some (taskfile.static (install.defaultLicenseKey (install.loaded ext)))) ∧
     (∀ f vars w0,
        "NR_LICENSE_KEY" ∉ install.Name <$> install.InputVars f →
        install.answered ext env (install.InputVars f) w0 →
        ∃ vars',
          install.assembleVars ext env m f vars w0
          = (Ok vars',
             install.afterPrompts w0 (install.unresolved env (install.InputVars f))) ∧
          taskfile.get vars' "NR_LICENSE_KEY" =
            Some (taskfile.static (install.defaultLicenseKey (install.loaded ext)))) ∧
     (∀ f out path vars,
        install.prepared ext r f out path vars →
        "NR_LICENSE_KEY" ∉ install.Name <$> install.InputVars f →
        install.answered ext env (install.InputVars f) (install.staged path out w) →
        ∃ vars',
          fst (install.execute ext env m r w) = install.Run ext ["default"] vars' ∧
          install.EvRun ["default"] vars' ∈
            install.trace (snd (install.execute ext env m r w)) ∧
          install.runs (install.trace (snd (install.execute ext env m r w)))
            = S (install.runs (install.trace w)) ∧
          taskfile.get vars' "NR_LICENSE_KEY" =
            Some (taskfile.static (install.defaultLicenseKey (install.loaded ext)))) ∧
     (∀ f vars w0 vars' w' pre cfg post,
        install.assembleVars ext env m f vars w0 = (Ok vars', w') →
        install.InputVars f = (pre ++ cfg :: post)%list →
        install.Name cfg = "NR_LICENSE_KEY" →
        "NR_LICENSE_KEY" ∉ install.Name <$> post →
        ∃ value,
          taskfile.get vars' "NR_LICENSE_KEY" = Some (taskfile.static value) ∧
          (if bool_decide (install.Getenv env "NR_LICENSE_KEY" = "")
           then install.promptRun ext
                  (install.prompts w0 + List.length (install.unresolved env pre))
                  (install.inputPrompt cfg) = Ok value
           else value = install.Getenv env "NR_LICENSE_KEY"))).
Proof.
  split.
  - intros Hkey. split; [| split].
    + rewrite execute_eq.
      destruct (install.ToRecipeFile ext r) as [f | e | p]; [| done | done].
      destruct (install.yamlMarshal ext (install.Install f)) as [out | e | p];
        [| done | done].
      destruct (install.TempFile ext (install.MetadataName r)) as [path | e | p];
        [| done | done].
      set (w0 := install.mkWorld _ _ _).
      destruct (executeBody_no_key ext env m f out path w0 Hkey) as [_ Hres].
      by destruct (install.executeBody ext env m f out path None w0).
    + rewrite execute_eq.
      destruct (install.ToRecipeFile ext r) as [f | e | p]; [| done | done].
      destruct (install.yamlMarshal ext (install.Install f)) as [out | e | p];
        [| done | done].
      destruct (install.TempFile ext (install.MetadataName r)) as [path | e | p];
        [| done | done].
      set (w0 := install.mkWorld _ _ _).
      destruct (executeBody_no_key ext env m f out path w0 Hkey) as [Hruns _].
      destruct (install.executeBody ext env m f out path None w0) as [res w1].
      cbn [snd install.os_Remove install.trace] in *.
      rewrite runs_snoc, Hruns. subst w0. cbn [install.trace].
      rewrite runs_snoc. simpl. lia.
    + intros f out path vars Hprep.
      rewrite (execute_prepared ext env m r f out path vars w Hprep).
      by rewrite assembleVars_eq, bool_decide_eq_true_2.
  - intros Hkey.
    assert (Hkeep : ∀ f vars w0 vars' w',
      install.assembleVars ext env m f vars w0 = (Ok vars', w') →
      "NR_LICENSE_KEY" ∉ install.Name <$> install.InputVars f →
      taskfile.get vars' "NR_LICENSE_KEY" =
        Some (taskfile.static (install.defaultLicenseKey (install.loaded ext)))).
    { intros f vars w0 vars' w' Hrun Hfree.
      eapply assembleVars_get_system; [exact Hrun | | done].
      unfold install.systemBindings. by left. }
    split; [| split; [| split; [| split]]].
    + intros vars. by rewrite licenseKeyCallback_eq, bool_decide_eq_false_2.
    + exact Hkeep.
    + intros f vars w0 Hfree Hans.
      destruct (assembleVars_answered ext env m f vars w0 Hkey Hans) as [vars' Hrun].
      exists vars'. split; [exact Hrun |]. by eapply Hkeep.
    + intros f out path vars Hprep Hfree Hans.
      destruct (assembleVars_answered ext env m f vars (install.staged path out w)
                  Hkey Hans) as [vars' Hrun].
      destruct (execute_runs_assembled ext env m r f out path vars vars' w _ Hprep Hrun)
        as [Hres Hev].
      exists vars'. split; [exact Hres | split; [exact Hev | split]].
      * destruct (assembleVars_frame ext env m f vars (install.staged path out w))
          as [_ Hr].
        rewrite Hrun in Hr. cbn [snd] in Hr.
        rewrite (execute_prepared ext env m r f out path vars w Hprep), Hrun.
        cbn [snd install.os_Remove install.trace].
        rewrite !runs_snoc, Hr. unfold install.staged. cbn [install.trace].
        change [install.EvTempFile path; install.EvWrite path out; install.EvSetup path]
          with ([install.EvTempFile path] ++ [install.EvWrite path out]
                  ++ [install.EvSetup path])%list.
        rewrite !app_assoc, !runs_snoc. simpl. lia.
      * by eapply Hkeep.
    + intros f vars w0 vars' w' pre cfg post Hrun Hvars Hname Hlast.
      rewrite assembleVars_eq, bool_decide_eq_false_2, Hvars in Hrun by done.
      rewrite <- Hname in Hlast |- *. by eapply setInputVars_last.
Qed.

(** With a default profile that has no key the run fails before the
    engine; with the sample credentials and a recipe that declares [PORT],
    the engine is run once, with [NR_LICENSE_KEY] bound to the key of the
    profile. *)
Lemma missing_license_key_fails_witness :
  fst (install.execute
         (sample.ext [] sample.acceptDefault (Ok sample.tmpPath) sample.credsNoKey)
         sample.noEnv sample.manifest sample.nginx sample.world)
  = Err "license key not found in default profile" ∧
  ∃ vars',
    fst (install.execute
           (sample.ext [sample.varPort] sample.acceptDefault (Ok sample.tmpPath)
                       sample.creds)
           sample.noEnv sample.manifest sample.nginx sample.world)
    = Ok tt ∧
    install.EvRun ["default"] vars' ∈
      install.trace
        (snd (install.execute
                (sample.ext [sample.varPort] sample.acceptDefault (Ok sample.tmpPath)
                            sample.creds)
                sample.noEnv sample.manifest sample.nginx sample.world)) ∧
    taskfile.get vars' "NR_LICENSE_KEY" = Some (taskfile.static "license-0001").
Proof.
  split.
  - apply (proj1 (missing_license_key_fails
      (sample.ext [] sample.acceptDefault (Ok sample.tmpPath) sample.credsNoKey)
      sample.noEnv sample.manifest sample.nginx sample.world)
      ltac:(vm_compute; reflexivity)) with
      (f := install.mkRecipeFile "tasks: {}" []) (out := "tasks: {}")
      (path := sample.tmpPath) (vars := taskfile.empty).
    by repeat split.
  - destruct (proj2 (missing_license_key_fails
      (sample.ext [sample.varPort] sample.acceptDefault (Ok sample.tmpPath) sample.creds)
      sample.noEnv sample.manifest sample.nginx sample.world)
      ltac:(vm_compute; discriminate)) as (_ & _ & _ & Hexec & _).
    destruct (Hexec (install.mkRecipeFile "tasks: {}" [sample.varPort]) "tasks: {}"
                sample.tmpPath taskfile.empty) as (vars' & Hres & Hev & _ & Hget).
    + by repeat split.
    + decided.
    + intros i c Hi. eexists. reflexivity.
    + exists vars'. split; [exact Hres | split; [exact Hev | exact Hget]].
Defined.

(** C4 fails as stated: the default profile has the license key
    ["license-0001"], the recipe declares an input variable
    [NR_LICENSE_KEY] and that name is exported with another value; the run
    succeeds and the engine is run with [NR_LICENSE_KEY] bound to the
    exported value, not to the key of the profile. *)
Lemma license_key_overridden_by_declared_var :
  install.defaultLicenseKey sample.creds = "license-0001" ∧
  fst (install.execute
         (sample.ext [fixtures.varKey] sample.acceptDefault (Ok sample.tmpPath)
                     sample.creds)
         fixtures.envKey sample.manifest sample.nginx sample.world)
  = Ok tt ∧
  install.EvRun ["default"] fixtures.varsKey ∈
    install.trace
      (snd (install.execute
              (sample.ext [fixtures.varKey] sample.acceptDefault (Ok sample.tmpPath)
                          sample.creds)
              fixtures.envKey sample.manifest sample.nginx sample.world)) ∧
  taskfile.get fixtures.varsKey "NR_LICENSE_KEY"
  = Some (taskfile.static "key-of-the-shell") ∧
  taskfile.get fixtures.varsKey "NR_LICENSE_KEY" ≠ Some (taskfile.static "license-0001").
Proof.
  split; [| split; [| split; [| split]]].
  - vm_compute. reflexivity.
  - vm_compute. reflexivity.
  - vm_compute. do 3 right. left.
  - apply get_set_eq.
  - unfold fixtures.varsKey. rewrite get_set_eq. discriminate.
Qed.

(** C5: an environment variable set to the empty string is treated as an
    unset one: [Getenv] answers alike, so the resolution of the declared
    variables and the variable assembly of [execute] give the same result
    (the same bindings or the same error) and the same world.  In either
    state a declared variable of that name takes the
    prompt path: the loop shows its prompt, with its default filled in,
    binds the name to the answer and goes on to the later variables, or
    fails with the error of the prompt; this holds for the variable at the
    head of the list and at any place the resolution reaches. *)
Theorem empty_env_value_same_as_unset
    (ext : install.Externals) (env : gmap string string) (name : string) :
  (∀ t inputVars w,
      install.setInputVars ext (<[name := ""]> env) t inputVars w =
      install.setInputVars ext (delete name env) t inputVars w) ∧
  (∀ m f vars w,
      install.assembleVars ext (<[name := ""]> env) m f vars w =
      install.assembleVars ext (delete name env) m f vars w) ∧
  (∀ text dflt w,
      let cfg := install.mkVariableConfig name text dflt in
      install.inputVar ext (<[name := ""]> env) cfg w =
        match install.promptRun ext (install.prompts w) (install.inputPrompt cfg) with
        | Ok result =>
            (Ok (taskfile.set taskfile.empty name (taskfile.static result)),
             install.prompted (install.inputPrompt cfg) w)
        | Err err =>
            (Err ("prompt failed: " ++ err), install.prompted (install.inputPrompt cfg) w)
        | Panic p => (Panic p, install.prompted (install.inputPrompt cfg) w)
        end) ∧
  (∀ env', env' = <[name := ""]> env ∨ env' = delete name env →
    ∀ text dflt,
      let cfg := install.mkVariableConfig name text dflt in
      promptui.Default (install.inputPrompt cfg) = dflt ∧
      (∀ w,
         install.inputVar ext env' cfg w =
           match install.promptRun ext (install.prompts w) (install.inputPrompt cfg) with
           | Ok result =>
               (Ok (taskfile.set taskfile.empty name (taskfile.static result)),
                install.prompted (install.inputPrompt cfg) w)
           | Err err =>
               (Err ("prompt failed: " ++ err),
                install.prompted (install.inputPrompt cfg) w)
           | Panic p => (Panic p, install.prompted (install.inputPrompt cfg) w)
           end) ∧
      (∀ t rest w,
         install.setInputVars ext env' t (cfg :: rest) w =
           match install.promptRun ext (install.prompts w) (install.inputPrompt cfg) with
           | Ok result =>
               install.setInputVars ext env'
                 (taskfile.set t name (taskfile.static result)) rest
                 (install.prompted (install.inputPrompt cfg) w)
           | Err err =>
               (Err ("prompt failed: " ++ err),
                install.prompted (install.inputPrompt cfg) w)
           | Panic p => (Panic p, install.prompted (install.inputPrompt cfg) w)
           end) ∧
      (∀ t w,
         install.setInputVars ext env' t [cfg] w =
           match install.promptRun ext (install.prompts w) (install.inputPrompt cfg) with
           | Ok result =>
               (Ok (taskfile.set t name (taskfile.static result)),
                install.prompted (install.inputPrompt cfg) w)
           | Err err =>
               (Err ("prompt failed: " ++ err),
                install.prompted (install.inputPrompt cfg) w)
           | Panic p => (Panic p, install.prompted (install.inputPrompt cfg) w)
           end) ∧
      (∀ t pre post w,
         install.answered ext env' pre w →
         ∃ t1,
           install.setInputVars ext env' t pre w
           = (Ok t1, install.afterPrompts w (install.unresolved env' pre)) ∧
           install.setInputVars ext env' t (pre ++ cfg :: post) w =
             match install.promptRun ext
                     (install.prompts w + List.length (install.unresolved env' pre))
                     (install.inputPrompt cfg) with
             | Ok result =>
                 install.setInputVars ext env'
                   (taskfile.set t1 name (taskfile.static result)) post
                   (install.prompted (install.inputPrompt cfg)
                      (install.afterPrompts w (install.unresolved env' pre)))
             | Err err =>
                 (Err ("prompt failed: " ++ err),
                  install.prompted (install.inputPrompt cfg)
                    (install.afterPrompts w (install.unresolved env' pre)))
             | Panic p =>
                 (Panic p,
                  install.prompted (install.inputPrompt cfg)
                    (install.afterPrompts w (install.unresolved env' pre)))
             end)).
Proof.
  split; [| split; [| split]].
  - intros t inputVars w. apply setInputVars_env_ext. apply Getenv_empty_unset.
  - intros m f vars w. rewrite !assembleVars_eq.
    destruct (bool_decide (install.defaultLicenseKey (install.loaded ext) = ""));
      [done |].
    apply setInputVars_env_ext. apply Getenv_empty_unset.
  - intros text dflt w cfg. apply inputVar_prompt.
    unfold install.Getenv. subst cfg. cbn [install.Name].
    by rewrite lookup_insert_eq.
  - intros env' Henv text dflt cfg.
    assert (He : install.Getenv env' (install.Name cfg) = "").
    { subst cfg. cbn [install.Name]. unfold install.Getenv.
      destruct Henv as [-> | ->]; [by rewrite lookup_insert_eq | by rewrite lookup_delete_eq]. }
    assert (Hhead : ∀ t rest w,
      install.setInputVars ext env' t (cfg :: rest) w =
        match install.promptRun ext (install.prompts w) (install.inputPrompt cfg) with
        | Ok result =>
            install.setInputVars ext env'
              (taskfile.set t name (taskfile.static result)) rest
              (install.prompted (install.inputPrompt cfg) w)
        | Err err =>
            (Err ("prompt failed: " ++ err),
             install.prompted (install.inputPrompt cfg) w)
        | Panic p => (Panic p, install.prompted (install.inputPrompt cfg) w)
        end).
    { intros t rest w. rewrite setInputVars_cons, inputVar_prompt by done.
      destruct (install.promptRun ext (install.prompts w) (install.inputPrompt cfg));
        [| done | done].
      by rewrite Merge_single. }
    split; [| split; [| split; [| split]]].
    + subst cfg. unfold install.inputPrompt. cbn [install.Default].
      by destruct dflt.
    + intros w. by apply inputVar_prompt.
    + exact Hhead.
    + intros t w. rewrite Hhead.
      by destruct (install.promptRun ext (install.prompts w) (install.inputPrompt cfg)).
    + intros t pre post w Hans.
      exact (setInputVars_reaches ext env' pre post cfg t w He Hans).
Qed.

(** The recipe declares [HOST] and then [PORT], whose default is ["8080"],
    and the operator accepts the default of every prompt: with [PORT]
    exported as the empty string, and with [PORT] not exported, the
    resolution shows the prompt of [HOST] and then that of [PORT] with its
    default filled in, and binds [PORT] to ["8080"]. *)
Lemma empty_env_value_same_as_unset_witness :
  (∃ t1,
     install.setInputVars
       (sample.ext [] sample.acceptDefault (Ok sample.tmpPath) sample.creds)
       (<["PORT" := ""]> sample.noEnv) taskfile.empty [sample.varHost; sample.varPort]
       sample.world
     = (Ok (taskfile.set t1 "PORT" (taskfile.static "8080")),
        install.mkWorld ∅ 2
          [install.EvPrompt (promptui.mkPrompt "value for HOST required" "");
           install.EvPrompt (promptui.mkPrompt "Port to monitor" "8080")])) ∧
  (∃ t1,
     install.setInputVars
       (sample.ext [] sample.acceptDefault (Ok sample.tmpPath) sample.creds)
       (delete "PORT" sample.noEnv) taskfile.empty [sample.varHost; sample.varPort]
       sample.world
     = (Ok (taskfile.set t1 "PORT" (taskfile.static "8080")),
        install.mkWorld ∅ 2
          [install.EvPrompt (promptui.mkPrompt "value for HOST required" "");
           install.EvPrompt (promptui.mkPrompt "Port to monitor" "8080")])).
Proof.
  destruct (empty_env_value_same_as_unset
    (sample.ext [] sample.acceptDefault (Ok sample.tmpPath) sample.creds)
    sample.noEnv "PORT") as (_ & _ & _ & Hpath).
  split.
  - destruct (Hpath (<["PORT" := ""]> sample.noEnv) ltac:(by left)
                "Port to monitor" "8080") as (_ & _ & _ & _ & Hreach).
    destruct (Hreach taskfile.empty [sample.varHost] [] sample.world) as (t1 & _ & Hrun).
    + intros i c Hi. eexists. reflexivity.
    + exists t1. exact Hrun.
  - destruct (Hpath (delete "PORT" sample.noEnv) ltac:(by right)
                "Port to monitor" "8080") as (_ & _ & _ & _ & Hreach).
    destruct (Hreach taskfile.empty [sample.varHost] [] sample.world) as (t1 & _ & Hrun).
    + intros i c Hi. eexists. reflexivity.
    + exists t1. exact Hrun.
Defined.

(** C6: [execute] leaves no file behind: the files after the call are
    among those before it, and once the temporary file has been created
    its removal is the last thing done, on every way out. *)
Theorem temp_file_removed
    (ext : install.Externals) (env : gmap string string)
    (m : install.discoveryManifest) (r : install.recipe) (w : install.World) :
  install.files (snd (install.execute ext env m r w)) ⊆ install.files w ∧
  (∀ f out path,
      install.ToRecipeFile ext r = Ok f →
      install.yamlMarshal ext (install.Install f) = Ok out →
      install.TempFile ext (install.MetadataName r) = Ok path →
      (path ∉ install.files (snd (install.execute ext env m r w))) ∧
      last (install.trace (snd (install.execute ext env m r w)))
        = Some (install.EvRemove path)).
Proof.
  rewrite execute_eq. split.
  - destruct (install.ToRecipeFile ext r) as [f | e | p]; [| done | done].
    destruct (install.yamlMarshal ext (install.Install f)) as [out | e | p];
      [| done | done].
    destruct (install.TempFile ext (install.MetadataName r)) as [path | e | p];
      [| done | done].
    set (w0 := install.mkWorld _ _ _).
    pose proof (executeBody_files ext env m f out path w0) as Hfiles.
    destruct (install.executeBody ext env m f out path None w0) as [res w1].
    cbn [snd install.os_Remove install.files] in *. rewrite Hfiles.
    subst w0. cbn [install.files].
    intros x Hx. apply elem_of_difference in Hx as [Hx Hne].
    apply elem_of_union in Hx as [Hx | Hx]; [done | exact Hx].
  - intros f out path -> -> ->.
    set (w0 := install.mkWorld _ _ _).
    destruct (install.executeBody ext env m f out path None w0) as [res w1].
    cbn [snd install.os_Remove install.files install.trace]. split.
    + intros Hx. apply elem_of_difference in Hx as [_ Hne].
      by apply Hne, elem_of_singleton.
    + apply last_snoc.
Qed.

(** A run that succeeds and a run whose prompt is interrupted both end
    without the temporary file. *)
Lemma temp_file_removed_witness :
  (sample.tmpPath ∉
     install.files
       (snd (install.execute
               (sample.ext [sample.varPort] sample.acceptDefault (Ok sample.tmpPath)
                           sample.creds)
               sample.noEnv sample.manifest sample.nginx sample.world))) ∧
  (sample.tmpPath ∉
     install.files
       (snd (install.execute
               (sample.ext [sample.varHost] sample.interrupt (Ok sample.tmpPath)
                           sample.creds)
               sample.noEnv sample.manifest sample.nginx sample.world))).
Proof.
  split.
  - apply (proj2 (temp_file_removed
      (sample.ext [sample.varPort] sample.acceptDefault (Ok sample.tmpPath) sample.creds)
      sample.noEnv sample.manifest sample.nginx sample.world)
      (install.mkRecipeFile "tasks: {}" [sample.varPort]) "tasks: {}" sample.tmpPath
      eq_refl eq_refl eq_refl).
  - apply (proj2 (temp_file_removed
      (sample.ext [sample.varHost] sample.interrupt (Ok sample.tmpPath) sample.creds)
      sample.noEnv sample.manifest sample.nginx sample.world)
      (install.mkRecipeFile "tasks: {}" [sample.varHost]) "tasks: {}" sample.tmpPath
      eq_refl eq_refl eq_refl).
Defined.



(** C8, on the code: when [TempFile] fails, the [defer] statement asks the
    nil file for its name before the error is looked at, and [execute]
    panics instead of returning the error. *)
Theorem TempFile_failure_panics
    (ext : install.Externals) (env : gmap string string)
    (m : install.discoveryManifest) (r : install.recipe) (w : install.World)
    (f : install.recipeFile) (out e : string) :
  install.ToRecipeFile ext r = Ok f →
  install.yamlMarshal ext (install.Install f) = Ok out →
  install.TempFile ext (install.MetadataName r) = Err e →
  install.execute ext env m r w
  = (Panic "invalid memory address or nil pointer dereference", w) ∧
  install.execute ext env m r w ≠ (Err e, w).
Proof.
  intros Hf Hout Htmp. rewrite execute_eq, Hf, Hout, Htmp. by split.
Qed.

(** The temporary directory is not writable. *)
Lemma TempFile_failure_panics_witness :
  install.execute
    (sample.ext [] sample.acceptDefault (Err "permission denied") sample.creds)
    sample.noEnv sample.manifest sample.nginx sample.world
  = (Panic "invalid memory address or nil pointer dereference", sample.world).
Proof.
  apply (TempFile_failure_panics
    (sample.ext [] sample.acceptDefault (Err "permission denied") sample.creds)
    sample.noEnv sample.manifest sample.nginx sample.world
    (install.mkRecipeFile "tasks: {}" []) "tasks: {}" "permission denied"
    eq_refl eq_refl eq_refl).
Defined.

(** ** The key check of [Config.Set] *)
Section config_facts.

Import config.

Context (hasUnicode : string → string → bool).
Context {St : Type}.
Context (c_set : string → string → St → result unit * St).
Context (renderer_Set : string → string → St → St).

(** A key that matches no entry of [validConfigKeys] is refused: [Set]
    returns the error and neither [c.set] nor the renderer is reached. *)
Lemma ConfigSet_rejects (key value : string) (st : St) :
  stringInStrings hasUnicode key validConfigKeys = false →
  ConfigSet hasUnicode c_set renderer_Set key value st = (Err (invalidKey key), st).
Proof. intros Hno. unfold ConfigSet. by rewrite Hno. Qed.

(** A key that matches an entry is handed to [c.set]. *)
Lemma ConfigSet_accepts (key value : string) (st : St) :
  stringInStrings hasUnicode key validConfigKeys = true →
  ConfigSet hasUnicode c_set renderer_Set key value st =
    match c_set key value st with
    | (Ok _, st') => (Ok tt, renderer_Set key value st')
    | (Err e, st') => (Err e, st')
    | (Panic p, st') => (Panic p, st')
    end.
Proof. intros Hyes. unfold ConfigSet. by rewrite Hyes. Qed.

Lemma byte_lowerByte (c : ascii) :
  (byte c < 128)%nat →
  byte (lowerByte c) = if isUpper c then (byte c + 32)%nat else byte c.
Proof.
  intros Hc. unfold lowerByte. destruct (isUpper c); [| done].
  unfold byte. apply nat_ascii_embedding. unfold byte in Hc. lia.
Qed.

(** On ASCII bytes the byte comparison of [EqualFold] is equality of the
    lower-case forms. *)
Lemma foldEqByte_lower (a b : ascii) :
  (byte a < 128)%nat → (byte b < 128)%nat →
  foldEqByte a b = true ↔ lowerByte a = lowerByte b.
Proof.
  intros Ha Hb.
  assert (Hinj : ∀ x y : ascii, byte x = byte y → x = y).
  { intros x y Hxy. rewrite <- (ascii_nat_embedding x), <- (ascii_nat_embedding y).
    unfold byte in Hxy. by rewrite Hxy. }
  assert (Hlow : lowerByte a = lowerByte b ↔ byte (lowerByte a) = byte (lowerByte b)).
  { split; [by intros -> | apply Hinj]. }
  rewrite Hlow, !byte_lowerByte by done.
  unfold foldEqByte, isUpper.
  change (byte "A") with 65%nat. change (byte "Z") with 90%nat.
  change (byte "a") with 97%nat.
  destruct (bool_decide (b = a)) eqn:Hba.
  - apply bool_decide_eq_true_1 in Hba as ->. done.
  - apply bool_decide_eq_false_1 in Hba.
    assert (byte b ≠ byte a) by (intros Hc; by apply Hba, Hinj).
    destruct (byte b <? byte a)%nat eqn:Hlt;
    destruct (65 <=? byte a)%nat eqn:H1; destruct (byte a <=? 90)%nat eqn:H2;
    destruct (65 <=? byte b)%nat eqn:H3; destruct (byte b <=? 90)%nat eqn:H4;
    simpl;
    repeat match goal with
    | H : (_ <? _)%nat = true |- _ => apply Nat.ltb_lt in H
    | H : (_ <? _)%nat = false |- _ => apply Nat.ltb_ge in H
    | H : (_ <=? _)%nat = true |- _ => apply Nat.leb_le in H
    | H : (_ <=? _)%nat = false |- _ => apply Nat.leb_gt in H
    end;
    rewrite ?Nat.eqb_eq; try (split; [discriminate | lia]); try lia.
Qed.

(** On ASCII strings [EqualFold] is equality of the lower-case forms. *)
Lemma EqualFold_ascii (s : string) :
  ∀ t, isASCII s = true → isASCII t = true →
       EqualFold hasUnicode s t = true ↔ lowerASCII s = lowerASCII t.
Proof.
  induction s as [|a s IH]; intros [|b t] Hs Ht; cbn [EqualFold lowerASCII isASCII] in *; try done.
  apply andb_true_iff in Hs as [Ha Hs]. apply andb_true_iff in Ht as [Hb Ht].
  apply Nat.ltb_lt in Ha, Hb.
  rewrite (proj2 (Nat.leb_gt 128 (byte a))), (proj2 (Nat.leb_gt 128 (byte b))) by lia.
  cbn [orb]. destruct (foldEqByte a b) eqn:Hf.
  - apply foldEqByte_lower in Hf; [| done | done]. rewrite IH by done.
    split; [intros ->; by rewrite Hf | by intros [= _ ?]].
  - split; [done |]. intros [= Hl _].
    apply foldEqByte_lower in Hl; [congruence | done | done].
Qed.

(** The ASCII keys that pass the check of [Set]: the case variants of the
    three field names, and the empty key. *)
Lemma key_check_ascii (key : string) :
  isASCII key = true →
  stringInStrings hasUnicode key validConfigKeys = true ↔
  lowerASCII key ∈ ["loglevel"; "plugindir"; "sendusagedata"; ""].
Proof.
  intros Hkey. unfold stringInStrings. rewrite existsb_exists. split.
  - intros (v & Hin & Hfold).
    apply list_elem_of_In in Hin.
    change validConfigKeys with ["logLevel"; "pluginDir"; "sendUsageData"; ""] in Hin.
    repeat (apply elem_of_cons in Hin as [-> | Hin];
      [apply EqualFold_ascii in Hfold; [rewrite <- Hfold; decided | done | done] |]).
    by apply elem_of_nil in Hin.
  - intros Hin.
    assert (Hpick : ∀ v, In v validConfigKeys → lowerASCII v = lowerASCII key →
                         isASCII v = true →
                         ∃ x, In x validConfigKeys ∧ EqualFold hasUnicode x key = true).
    { intros v Hv Hl Ha. exists v. split; [done |]. by apply EqualFold_ascii. }
    apply elem_of_cons in Hin as [Hl | Hin];
      [apply (Hpick "logLevel"); [apply list_elem_of_In; decided | by rewrite Hl | done] |].
    apply elem_of_cons in Hin as [Hl | Hin];
      [apply (Hpick "pluginDir"); [apply list_elem_of_In; decided | by rewrite Hl | done] |].
    apply elem_of_cons in Hin as [Hl | Hin];
      [apply (Hpick "sendUsageData");
         [apply list_elem_of_In; decided | by rewrite Hl | done] |].
    apply elem_of_cons in Hin as [Hl | Hin];
      [apply (Hpick ""); [apply list_elem_of_In; decided | by rewrite Hl | done] |].
    by apply elem_of_nil in Hin.
Qed.

(** The comparison ignores the case of ASCII letters. *)
Lemma stringInStrings_case_variants :
  stringInStrings hasUnicode "LOGLEVEL" validConfigKeys = true ∧
  stringInStrings hasUnicode "plugindir" validConfigKeys = true ∧
  stringInStrings hasUnicode "SendUsageData" validConfigKeys = true ∧
  stringInStrings hasUnicode "logLevels" validConfigKeys = false ∧
  stringInStrings hasUnicode "apiKey" validConfigKeys = false.
Proof. repeat split; reflexivity. Qed.

End config_facts.

(** C10, on the code: [validConfigKeys] collects the [mapstructure] tag of
    every field of [Config], the untagged [cfgViper] included, so the empty
    string is listed next to the three field names; [Set] with the empty
    key passes the check and goes on to [c.set] instead of returning the
    error. *)
Theorem empty_key_passes_the_key_check
    (hasUnicode : string → string → bool) (St : Type)
    (c_set : string → string → St → result unit * St)
    (renderer_Set : string → string → St → St) (value : string) (st : St) :
  config.validConfigKeys = ["logLevel"; "pluginDir"; "sendUsageData"; ""] ∧
  config.formatStrings config.validConfigKeys = "[logLevel pluginDir sendUsageData ]" ∧
  config.stringInStrings hasUnicode "" ["logLevel"; "pluginDir"; "sendUsageData"]
    = false ∧
  config.stringInStrings hasUnicode "" config.validConfigKeys = true ∧
  config.ConfigSet hasUnicode c_set renderer_Set "" value st =
    match c_set "" value st with
    | (Ok _, st') => (Ok tt, renderer_Set "" value st')
    | (Err e, st') => (Err e, st')
    | (Panic p, st') => (Panic p, st')
    end.
Proof.
  split; [reflexivity | split; [reflexivity | split; [reflexivity |]]].
  split; [reflexivity |]. by apply ConfigSet_accepts.
Qed.

(** * Further properties *)

(** ** The recipe executor, continued *)

Section install_more.

Import install.

Context (ext : Externals) (env : gmap string string).

Lemma runs_app (a b : list event) : runs (a ++ b) = (runs a + runs b)%nat.
Proof. unfold runs. by rewrite List.filter_app, List.length_app. Qed.

(** The body of [execute], by the outcome of each of its steps. *)
Lemma executeBody_eq (m : discoveryManifest) (f : recipeFile) (out path : string)
    (w : World) :
  executeBody ext env m f out path None w =
    match fileWrite ext path out with
    | Ok _ =>
        let w0 := addEvents w [EvWrite path out; EvSetup path] in
        match Setup ext path with
        | Ok vars =>
            match yamlUnmarshal ext out with
            | Ok _ =>
                match assembleVars ext env m f vars w0 with
                | (Ok vars', w1) =>
                    (Run ext ["default"] vars', addEvents w1 [EvRun ["default"] vars'])
                | (Err e, w1) => (Err e, w1)
                | (Panic p, w1) => (Panic p, w1)
                end
            | Err e => (Err e, w0)
            | Panic p => (Panic p, w0)
            end
        | Err e => (Err e, w0)
        | Panic p => (Panic p, w0)
        end
    | Err e => (Err e, w)
    | Panic p => (Panic p, w)
    end.
Proof.
  cbn [executeBody]. unfold bind, call, emit, task_Run, addEvents.
  destruct (fileWrite ext path out) as [[] | e | p]; [| done | done].
  cbn [files prompts trace]. rewrite <- !app_assoc. cbn [app].
  destruct (Setup ext path) as [vars | e | p]; [| done | done].
  destruct (yamlUnmarshal ext out) as [[] | e | p]; [| done | done].
  by destruct (assembleVars ext env m f vars _) as [[v | e | p] w1].
Qed.

Lemma executeBody_runs (m : discoveryManifest) (f : recipeFile) (out path : string)
    (w : World) :
  (runs (trace (snd (executeBody ext env m f out path None w))) ≤ S (runs (trace w)))%nat ∧
  (fst (executeBody ext env m f out path None w) = Ok tt →
   runs (trace (snd (executeBody ext env m f out path None w))) = S (runs (trace w))).
Proof.
  rewrite executeBody_eq.
  destruct (fileWrite ext path out) as [[] | e | p]; [| split; [cbn [snd]; lia | done] ..].
  cbn zeta.
  assert (H0 : runs (trace (addEvents w [EvWrite path out; EvSetup path])) = runs (trace w)).
  { unfold addEvents. cbn [trace]. rewrite runs_app.
    change (runs [EvWrite path out; EvSetup path]) with 0%nat. lia. }
  destruct (Setup ext path) as [vars | e | p];
    [| split; [cbn [snd]; lia | done] ..].
  destruct (yamlUnmarshal ext out) as [[] | e | p];
    [| split; [cbn [snd]; lia | done] ..].
  destruct (assembleVars_frame ext env m f vars
              (addEvents w [EvWrite path out; EvSetup path])) as [_ Hr].
  destruct (assembleVars ext env m f vars _) as [[v | e | p] w1]; cbn [fst snd] in *.
  - unfold addEvents at 1 2. cbn [trace]. rewrite runs_app, Hr, H0.
    change (runs [EvRun ["default"] v]) with 1%nat. split; [lia | intros _; lia].
  - split; [lia | done].
  - split; [lia | done].
Qed.

End install_more.

Section vars_more.

Import taskfile.

Lemma set_Keys_prefix (vs : Vars) (k : string) (v : Var) :
  Keys vs `prefix_of` Keys (set vs k v).
Proof.
  unfold set; cbn [Keys]. case_bool_decide; [done | by apply prefix_app_r].
Qed.


Lemma Merge_Keys_prefix (vs other : Vars) : Keys vs `prefix_of` Keys (Merge vs other).
Proof.
  unfold Merge. generalize (Keys other) as l. intros l. revert vs.
  induction l as [|a l IH]; intros vs; cbn [foldl]; [done |].
  etrans; [apply set_Keys_prefix | apply IH].
Qed.


Lemma elem_of_Keys_set (vs : Vars) (k k' : string) (v : Var) :
  k' ∈ Keys (set vs k v) ↔ k' ∈ Keys vs ∨ k' = k.
Proof.
  unfold set; cbn [Keys]. case_bool_decide as Hk.
  - split; [by left | intros [? | ->]; done].
  - by rewrite elem_of_app, list_elem_of_singleton.
Qed.

End vars_more.

Section sys_more.

Import install.

(** [setSystemVars] written out: six [Set]s on the receiver. *)
Lemma setSystemVars_eq (t : taskfile.Vars) (m : discoveryManifest) :
  setSystemVars t m =
    taskfile.set (taskfile.set (taskfile.set (taskfile.set (taskfile.set (taskfile.set t
      "OS" (taskfile.static (os m)))
      "Platform" (taskfile.static (platform m)))
      "PlatformFamily" (taskfile.static (platformFamily m)))
      "PlatformVersion" (taskfile.static (platformVersion m)))
      "KernelArch" (taskfile.static (kernelArch m)))
      "KernelVersion" (taskfile.static (kernelVersion m)).
Proof.
  unfold setSystemVars, taskfile.Merge.
  change (taskfile.Keys _) with
    ["OS"; "Platform"; "PlatformFamily"; "PlatformVersion"; "KernelArch"; "KernelVersion"]
    at 1.
  cbn [foldl].
  repeat match goal with
  | |- context [default taskfile.zeroVar (?mp !! ?k)] =>
      let v := eval vm_compute in (default taskfile.zeroVar (mp !! k)) in
      change (default taskfile.zeroVar (mp !! k)) with v
  end.
  reflexivity.
Qed.

Lemma Keys_set_listed (vs : taskfile.Vars) (k : string) (v : taskfile.Var) :
  k ∈ taskfile.Keys vs → taskfile.Keys (taskfile.set vs k v) = taskfile.Keys vs.
Proof. intros Hk. unfold taskfile.set; cbn [taskfile.Keys]. by rewrite bool_decide_eq_true_2. Qed.

(** After [setSystemVars] the six names are listed. *)
Lemma setSystemVars_listed (t : taskfile.Vars) (m : discoveryManifest) (k : string) :
  k ∈ ["OS"; "Platform"; "PlatformFamily"; "PlatformVersion"; "KernelArch";
       "KernelVersion"] →
  k ∈ taskfile.Keys (setSystemVars t m).
Proof.
  intros Hk. rewrite setSystemVars_eq, !elem_of_Keys_set.
  repeat (apply elem_of_cons in Hk as [-> | Hk]; [tauto |]).
  by apply elem_of_nil in Hk.
Qed.

(** X1: [setSystemVars] twice is [setSystemVars] with the later manifest:
    the facts of the earlier one are all replaced, and applying it again
    with the same manifest changes nothing. *)
Theorem setSystemVars_last_manifest_wins (t : taskfile.Vars) (m1 m2 : discoveryManifest) :
  setSystemVars (setSystemVars t m1) m2 = setSystemVars t m2 ∧
  setSystemVars (setSystemVars t m1) m1 = setSystemVars t m1.
Proof.
  assert (Hgen : ∀ m m', setSystemVars (setSystemVars t m) m' = setSystemVars t m').
  { intros m m'.
    assert (Hkeys : taskfile.Keys (setSystemVars (setSystemVars t m) m')
                    = taskfile.Keys (setSystemVars t m')).
    { rewrite (setSystemVars_eq (setSystemVars t m) m').
      rewrite !Keys_set_listed.
      - by rewrite !setSystemVars_eq.
      - apply setSystemVars_listed; decided.
      - apply elem_of_Keys_set; left. apply setSystemVars_listed; decided.
      - do 2 (apply elem_of_Keys_set; left). apply setSystemVars_listed; decided.
      - do 3 (apply elem_of_Keys_set; left). apply setSystemVars_listed; decided.
      - do 4 (apply elem_of_Keys_set; left). apply setSystemVars_listed; decided.
      - do 5 (apply elem_of_Keys_set; left). apply setSystemVars_listed; decided. }
    assert (Hmap : taskfile.Mapping (setSystemVars (setSystemVars t m) m')
                   = taskfile.Mapping (setSystemVars t m')).
    { apply map_eq. intros i.
      change (taskfile.get (setSystemVars (setSystemVars t m) m') i
              = taskfile.get (setSystemVars t m') i).
      unfold setSystemVars. rewrite !get_Merge.
      change (taskfile.Keys _) with
        ["OS"; "Platform"; "PlatformFamily"; "PlatformVersion"; "KernelArch";
         "KernelVersion"] at 1.
      change (taskfile.Keys _) with
        ["OS"; "Platform"; "PlatformFamily"; "PlatformVersion"; "KernelArch";
         "KernelVersion"] at 1.
      change (taskfile.Keys _) with
        ["OS"; "Platform"; "PlatformFamily"; "PlatformVersion"; "KernelArch";
         "KernelVersion"] at 1.
      by destruct (bool_decide (i ∈ _)). }
    destruct (setSystemVars (setSystemVars t m) m'), (setSystemVars t m').
    cbn [taskfile.Keys taskfile.Mapping] in *. congruence. }
  split; apply Hgen.
Qed.

(** X2: [setSystemVars] binds the six names to the facts of the manifest,
    whatever they were bound to, leaves every other variable as it was and
    keeps the keys listed before in front, in their order. *)
Theorem setSystemVars_bindings (t : taskfile.Vars) (m : discoveryManifest) :
  (∀ k v, (k, v) ∈ manifestFacts m →
          taskfile.get (setSystemVars t m) k = Some (taskfile.static v)) ∧
  (∀ k, k ∉ fst <$> manifestFacts m →
        taskfile.get (setSystemVars t m) k = taskfile.get t k) ∧
  taskfile.Keys t `prefix_of` taskfile.Keys (setSystemVars t m).
Proof.
  split; [| split].
  - intros k v Hin. unfold setSystemVars. rewrite get_Merge. unfold manifestFacts in Hin.
    repeat (apply elem_of_cons in Hin as [[= -> ->] | Hin]; [vm_compute; reflexivity |]).
    by apply elem_of_nil in Hin.
  - intros k Hk. by apply get_setSystemVars_other.
  - apply Merge_Keys_prefix.
Qed.

End sys_more.

Section install_theorems.

Import install.

(** X3: [execute] runs the task engine at most once, and exactly once when
    it returns without error. *)
Theorem engine_run_at_most_once (ext : Externals) (env : gmap string string)
    (m : discoveryManifest) (r : recipe) (w : World) :
  (runs (trace (snd (execute ext env m r w))) ≤ S (runs (trace w)))%nat ∧
  (fst (execute ext env m r w) = Ok tt →
   runs (trace (snd (execute ext env m r w))) = S (runs (trace w))).
Proof.
  rewrite execute_eq.
  destruct (ToRecipeFile ext r) as [f | e | p]; [| split; [cbn [snd]; lia | done] ..].
  destruct (yamlMarshal ext (Install f)) as [out | e | p];
    [| split; [cbn [snd]; lia | done] ..].
  destruct (TempFile ext (MetadataName r)) as [path | e | p];
    [| split; [cbn [snd]; lia | done] ..].
  set (w0 := mkWorld _ _ _).
  assert (H0 : runs (trace w0) = runs (trace w)).
  { subst w0. cbn [trace]. rewrite runs_app.
    change (runs [EvTempFile path]) with 0%nat. lia. }
  destruct (executeBody_runs ext env m f out path w0) as [Hle Heq].
  destruct (executeBody ext env m f out path None w0) as [res w1].
  cbn [fst snd os_Remove trace] in *. rewrite runs_app.
  change (runs [EvRemove path]) with 0%nat. split; [lia |].
  intros Hok. rewrite Heq by done. lia.
Qed.

(** X4: once the recipe is prepared and its variables assembled, [execute]
    returns what the engine returns, be it an error; the engine ran once,
    on the assembled variables, and the temporary file was removed after. *)
Theorem execute_returns_engine_result (ext : Externals) (env : gmap string string)
    (m : discoveryManifest) (r : recipe) (f : recipeFile) (out path : string)
    (vars vars' : taskfile.Vars) (w w1 : World) :
  prepared ext r f out path vars →
  assembleVars ext env m f vars (staged path out w) = (Ok vars', w1) →
  fst (execute ext env m r w) = Run ext ["default"] vars' ∧
  trace (snd (execute ext env m r w))
    = (trace w1 ++ [EvRun ["default"] vars'; EvRemove path])%list ∧
  path ∉ files (snd (execute ext env m r w)).
Proof.
  intros Hprep Hvars.
  rewrite (execute_prepared ext env m r f out path vars w Hprep), Hvars.
  cbn [fst snd os_Remove trace files]. split; [done | split].
  - by rewrite <- app_assoc.
  - intros Hin. apply elem_of_difference in Hin as [_ Hne].
    by apply Hne, elem_of_singleton.
Qed.

Lemma execute_returns_engine_result_witness :
  fst (execute fixtures.extFailingEngine sample.noEnv sample.manifest sample.nginx
         sample.world)
  = Err "task: Failed to run task" ∧
  sample.tmpPath ∉
    files (snd (execute fixtures.extFailingEngine sample.noEnv sample.manifest
                  sample.nginx sample.world)).
Proof.
  destruct (execute_returns_engine_result fixtures.extFailingEngine sample.noEnv
    sample.manifest sample.nginx
    (mkRecipeFile "tasks: {}" [sample.varPort]) "tasks: {}" sample.tmpPath
    taskfile.empty
    (taskfile.set (baseVars fixtures.extFailingEngine sample.manifest taskfile.empty)
       "PORT" (taskfile.static "8080"))
    sample.world
    (prompted (inputPrompt sample.varPort) (staged sample.tmpPath "tasks: {}" sample.world)))
    as (Hres & _ & Hfile).
  - by repeat split.
  - vm_compute. reflexivity.
  - split; [exact Hres | exact Hfile].
Defined.

(** X5: a recipe that does not parse, or whose task definition does not
    marshal, fails with that error before anything is done: no file, no
    prompt, no event. *)
Theorem unusable_recipe_touches_nothing (ext : Externals) (env : gmap string string)
    (m : discoveryManifest) (r : recipe) (w : World) (e : string) :
  ToRecipeFile ext r = Err e ∨
  (∃ f, ToRecipeFile ext r = Ok f ∧ yamlMarshal ext (Install f) = Err e) →
  execute ext env m r w = (Err e, w).
Proof.
  intros [Hf | (f & Hf & Hout)]; rewrite execute_eq, Hf; [done | by rewrite Hout].
Qed.

Lemma unusable_recipe_touches_nothing_witness :
  execute fixtures.extBadRecipe sample.noEnv sample.manifest sample.nginx sample.world
  = (Err "yaml: line 1: did not find expected key", sample.world).
Proof.
  apply unusable_recipe_touches_nothing. by left.
Defined.

(** X6: the operator is prompted only in a run that got as far as the
    declared variables: if [execute] showed a prompt, every earlier step had
    succeeded and the default profile had a license key. *)
Theorem prompt_only_after_preparation (ext : Externals) (env : gmap string string)
    (m : discoveryManifest) (r : recipe) (w : World) :
  prompts (snd (execute ext env m r w)) ≠ prompts w →
  defaultLicenseKey (loaded ext) ≠ "" ∧
  ∃ f out path vars, prepared ext r f out path vars.
Proof.
  rewrite execute_eq.
  destruct (ToRecipeFile ext r) as [f | e | p] eqn:Hf; [| done | done].
  destruct (yamlMarshal ext (Install f)) as [out | e | p] eqn:Hout; [| done | done].
  destruct (TempFile ext (MetadataName r)) as [path | e | p] eqn:Htmp; [| done | done].
  rewrite executeBody_eq.
  destruct (fileWrite ext path out) as [[] | e | p] eqn:Hwr; [| done | done].
  destruct (Setup ext path) as [vars | e | p] eqn:Hsetup; [| done | done].
  destruct (yamlUnmarshal ext out) as [[] | e | p] eqn:Hun; [| done | done].
  cbn zeta. rewrite assembleVars_eq.
  destruct (decide (defaultLicenseKey (loaded ext) = "")) as [Hkey | Hkey].
  - by rewrite bool_decide_eq_true_2.
  - intros _. split; [done |]. by exists f, out, path, vars.
Qed.

Lemma prompt_only_after_preparation_witness :
  defaultLicenseKey
    (loaded (sample.ext [sample.varPort] sample.acceptDefault (Ok sample.tmpPath)
                        sample.creds)) ≠ "".
Proof.
  apply (prompt_only_after_preparation
    (sample.ext [sample.varPort] sample.acceptDefault (Ok sample.tmpPath) sample.creds)
    sample.noEnv sample.manifest sample.nginx sample.world).
  vm_compute. discriminate.
Defined.

End install_theorems.

Section resolution_theorems.

Import install.

(** X7: a successful resolution shows exactly one prompt for each declared
    variable without an environment value, in the order of declaration,
    and nothing else happens. *)
Theorem prompts_follow_declaration_order (ext : Externals) (env : gmap string string)
    (inputVars : list variableConfig) (t t' : taskfile.Vars) (w w' : World) :
  setInputVars ext env t inputVars w = (Ok t', w') →
  trace w' = (trace w ++ (EvPrompt ∘ inputPrompt <$> unresolved env inputVars))%list ∧
  prompts w' = (prompts w + List.length (unresolved env inputVars))%nat ∧
  files w' = files w.
Proof.
  revert t t' w w'.
  induction inputVars as [|cfg rest IH]; intros t t' w w' Hrun.
  - injection Hrun as <- <-. simpl. by rewrite app_nil_r, Nat.add_0_r.
  - rewrite setInputVars_cons in Hrun. unfold unresolved. cbn [List.filter].
    destruct (decide (Getenv env (Name cfg) = "")) as [He | Hne].
    + rewrite inputVar_prompt in Hrun by done.
      rewrite bool_decide_eq_true_2 by done.
      destruct (promptRun ext (prompts w) (inputPrompt cfg)); [| done | done].
      destruct (IH _ _ _ _ Hrun) as (Htr & Hp & Hf).
      rewrite Htr, Hp, Hf. unfold prompted, unresolved. cbn [trace prompts files].
      rewrite fmap_cons, <- app_assoc. cbn [List.length]. split; [done | split; [lia | done]].
    + rewrite inputVar_env in Hrun by done.
      rewrite bool_decide_eq_false_2 by done. by apply IH in Hrun.
Qed.

Lemma prompts_follow_declaration_order_witness :
  trace
    (snd (setInputVars
            (sample.ext [] sample.acceptDefault (Ok sample.tmpPath) sample.creds)
            sample.envOS taskfile.empty
            [sample.varPort; sample.varOS; sample.varHost] sample.world))
  = [EvPrompt (promptui.mkPrompt "Port to monitor" "8080");
     EvPrompt (promptui.mkPrompt "value for HOST required" "")].
Proof.
  destruct (setInputVars
              (sample.ext [] sample.acceptDefault (Ok sample.tmpPath) sample.creds)
              sample.envOS taskfile.empty
              [sample.varPort; sample.varOS; sample.varHost] sample.world)
    as [[t' | e | p] w'] eqn:Hrun; [| by vm_compute in Hrun ..].
  destruct (prompts_follow_declaration_order _ _ _ _ _ _ _ Hrun) as (Htr & _ & _).
  cbn [snd]. rewrite Htr. vm_compute. reflexivity.
Defined.

(** X8: resolving a list of declarations is resolving its first part and
    then, in the variables and the world that leaves, its second part; a
    failure in the first part ends the resolution. *)
Theorem resolution_of_concatenation (ext : Externals) (env : gmap string string)
    (pre post : list variableConfig) (t : taskfile.Vars) (w : World) :
  setInputVars ext env t (pre ++ post) w =
    match setInputVars ext env t pre w with
    | (Ok t1, w1) => setInputVars ext env t1 post w1
    | (Err e, w1) => (Err e, w1)
    | (Panic p, w1) => (Panic p, w1)
    end.
Proof.
  revert t w. induction pre as [|cfg pre IH]; intros t w.
  - reflexivity.
  - rewrite <- app_comm_cons, !setInputVars_cons.
    destruct (inputVar ext env cfg w) as [[v | e | p] w1]; [apply IH | done | done].
Qed.

(** X9: when a name is declared more than once, its binding is the
    resolution of the last declaration: the environment value if there is
    one, else the answer to the prompt shown for that last declaration. *)
Theorem last_declaration_wins (ext : Externals) (env : gmap string string)
    (pre post : list variableConfig) (cfg : variableConfig)
    (t t' : taskfile.Vars) (w w' : World) :
  Name cfg ∉ Name <$> post →
  setInputVars ext env t (pre ++ cfg :: post) w = (Ok t', w') →
  ∃ t1 w1 value,
    setInputVars ext env t pre w = (Ok t1, w1) ∧
    taskfile.get t' (Name cfg) = Some (taskfile.static value) ∧
    (if bool_decide (Getenv env (Name cfg) = "")
     then promptRun ext (prompts w1) (inputPrompt cfg) = Ok value
     else value = Getenv env (Name cfg)).
Proof.
  intros Hlast Hrun. rewrite setInputVars_app in Hrun.
  destruct (setInputVars ext env t pre w) as [[t1 | e | p] w1]; [| done | done].
  rewrite setInputVars_cons in Hrun. exists t1, w1.
  destruct (decide (Getenv env (Name cfg) = "")) as [He | Hne].
  - rewrite inputVar_prompt in Hrun by done.
    rewrite bool_decide_eq_true_2 by done.
    destruct (promptRun ext (prompts w1) (inputPrompt cfg)) as [a | |]; [| done | done].
    rewrite Merge_single in Hrun. exists a. split; [done | split; [| done]].
    rewrite (setInputVars_get_other _ _ _ _ _ _ _ _ Hlast Hrun). apply get_set_eq.
  - rewrite inputVar_env in Hrun by done.
    rewrite bool_decide_eq_false_2 by done.
    rewrite Merge_single in Hrun. eexists. split; [done | split; [| done]].
    rewrite (setInputVars_get_other _ _ _ _ _ _ _ _ Hlast Hrun). apply get_set_eq.
Qed.

Lemma last_declaration_wins_witness :
  ∃ t',
    fst (setInputVars
           (sample.ext [] fixtures.typeIndex (Ok sample.tmpPath) sample.creds)
           sample.noEnv taskfile.empty [sample.varHost; sample.varHost] sample.world)
    = Ok t' ∧
    taskfile.get t' "HOST" = Some (taskfile.static "second").
Proof.
  destruct (setInputVars
              (sample.ext [] fixtures.typeIndex (Ok sample.tmpPath) sample.creds)
              sample.noEnv taskfile.empty [sample.varHost; sample.varHost] sample.world)
    as [[t' | e | p] w'] eqn:Hrun; [| by vm_compute in Hrun ..].
  exists t'. split; [done |].
  destruct (last_declaration_wins _ _ [sample.varHost] [] sample.varHost _ _ _ _
              ltac:(decided) Hrun) as (t1 & w1 & value & Hpre & Hget & Hval).
  change (Name sample.varHost) with "HOST" in Hget. rewrite Hget.
  assert (Hw1 : prompts w1 = 1%nat).
  { by injection Hpre as _ <-. }
  rewrite Hw1 in Hval. vm_compute in Hval. by injection Hval as <-.
Defined.



End resolution_theorems.

(** ** internal/config, continued *)

Section strings_facts.

Import config gostrings.

Context (hasUnicode : string → string → bool).

(** On ASCII strings [stringInStrings] is membership of the lower-case
    form among the lower-case forms. *)
Lemma stringInStrings_ascii (s : string) (ss : list string) :
  isASCII s = true → Forall (fun v => isASCII v = true) ss →
  stringInStrings hasUnicode s ss = true ↔ lowerASCII s ∈ lowerASCII <$> ss.
Proof.
  intros Hs Hss. unfold stringInStrings. rewrite existsb_exists, list_elem_of_fmap.
  split.
  - intros (v & Hin & Hfold). exists v. apply list_elem_of_In in Hin. split; [| done].
    rewrite Forall_forall in Hss. symmetry. apply (EqualFold_ascii hasUnicode); auto.
  - intros (v & Hl & Hin). exists v. split; [by apply list_elem_of_In |].
    rewrite Forall_forall in Hss. apply EqualFold_ascii; auto.
Qed.

Lemma stringInStrings_ascii_false (s : string) (ss : list string) :
  isASCII s = true → Forall (fun v => isASCII v = true) ss →
  lowerASCII s ∉ lowerASCII <$> ss → stringInStrings hasUnicode s ss = false.
Proof.
  intros Hs Hss Hno. apply not_true_is_false. intros Hyes. apply Hno.
  by apply stringInStrings_ascii.
Qed.

Lemma lowerByte_upperByte (c : ascii) : lowerByte (upperByte c) = lowerByte c.
Proof. destruct c as [[] [] [] [] [] [] [] []]; reflexivity. Qed.

Lemma upperByte_lowerByte (c : ascii) : upperByte (lowerByte c) = upperByte c.
Proof. destruct c as [[] [] [] [] [] [] [] []]; reflexivity. Qed.

Lemma lowerASCII_upperASCII (s : string) : lowerASCII (upperASCII s) = lowerASCII s.
Proof. induction s as [|c s IH]; [done |]. simpl. by rewrite lowerByte_upperByte, IH. Qed.

Lemma upperASCII_lowerASCII (s : string) : upperASCII (lowerASCII s) = upperASCII s.
Proof. induction s as [|c s IH]; [done |]. simpl. by rewrite upperByte_lowerByte, IH. Qed.

(** An upper-case constant is met exactly by the strings whose lower-case
    form is the constant's. *)
Lemma upperASCII_eq (s k : string) :
  upperASCII (lowerASCII k) = k →
  upperASCII s = k ↔ lowerASCII s = lowerASCII k.
Proof.
  intros Hk. split.
  - intros <-. by rewrite lowerASCII_upperASCII.
  - intros Hl. by rewrite <- Hk, <- Hl, upperASCII_lowerASCII.
Qed.

End strings_facts.

Section cfg_facts.

Import config cfg.

Context (hasUnicode : string → string → bool) (unicodeMap : string → string).
Context (defaults : Config).

(** [validate], by its three checks: the log level, then the usage
    setting, then the field [cfgViper]. *)
Lemma validate_eq (c : Config) :
  validate hasUnicode unicodeMap defaults c =
    if negb (stringInStrings hasUnicode (LogLevel c) logLevels)
    then Err (invalidValue (LogLevel c) "logLevel" logLevels)
    else if negb (stringInStrings hasUnicode (SendUsageData c) usageValues)
    then Err (invalidValue (SendUsageData c) "sendUsageData" usageValues)
    else Panic "reflect.Value.Interface: cannot return value obtained from unexported field or method".
Proof.
  unfold validate, visitAllConfigFields. cbn [visitFrom ConfigFields fieldInterface].
  unfold validateField at 1. cbn [Name Tag Tag_Get bool_decide decide_rel].
  change (gostrings.ToLower unicodeMap _) with "loglevel" at 1.
  rewrite bool_decide_eq_true_2 by done.
  unfold checkValue at 1. cbn [Val Name].
  destruct (stringInStrings hasUnicode (LogLevel c) logLevels); [| done].
  cbn [negb]. unfold validateField at 1.
  change (gostrings.ToLower unicodeMap _) with "plugindir" at 1.
  rewrite !bool_decide_eq_false_2 by done.
  unfold validateField at 1.
  change (gostrings.ToLower unicodeMap _) with "sendusagedata" at 1.
  rewrite bool_decide_eq_false_2 by done. rewrite bool_decide_eq_true_2 by done.
  unfold checkValue. cbn [Val Name].
  by destruct (stringInStrings hasUnicode (SendUsageData c) usageValues).
Qed.

Lemma logLevels_ascii : Forall (fun v => isASCII v = true) logLevels.
Proof. by repeat constructor. Qed.

Lemma usageValues_ascii : Forall (fun v => isASCII v = true) usageValues.
Proof. by repeat constructor. Qed.

(** Every walk that is not stopped by its callback reaches [cfgViper]. *)
Lemma visitAll_panics {A : Type} (c : Config) (f : Value → A → result unit * A) (a : A) :
  (∀ v a', fst (f v a') = Ok tt) →
  fst (visitAllConfigFields defaults c f a) = Panic unexportedPanic.
Proof.
  intros Hok. unfold visitAllConfigFields. cbn [visitFrom ConfigFields fieldInterface].
  repeat match goal with
  | |- context [f ?v ?a'] =>
      let H := fresh in
      pose proof (Hok v a') as H; destruct (f v a') as [[[] | |] ?]; cbn [fst] in H;
      [clear H | discriminate H | discriminate H]
  end.
  reflexivity.
Qed.

End cfg_facts.

(** X11: [validate] refuses a log level that is none of Info, Debug, Trace,
    Warn and Error in any case, with an error that names the value, the
    field and the accepted values. *)
Theorem validate_rejects_log_level
    (hasUnicode : string → string → bool) (unicodeMap : string → string)
    (defaults c : cfg.Config) :
  config.isASCII (cfg.LogLevel c) = true →
  config.lowerASCII (cfg.LogLevel c) ∉ ["info"; "debug"; "trace"; "warn"; "error"] →
  cfg.validate hasUnicode unicodeMap defaults c
  = Err (cfg.invalidValue (cfg.LogLevel c) "logLevel"
           ["Info"; "Debug"; "Trace"; "Warn"; "Error"]).
Proof.
  intros Hascii Hno. rewrite validate_eq.
  by rewrite (stringInStrings_ascii_false hasUnicode _ _ Hascii logLevels_ascii).
Qed.

Lemma validate_rejects_log_level_witness :
  cfg.validate cfgsample.noFold cfgsample.noMap cfgsample.defaults cfgsample.badLevel
  = Err (cfg.invalidValue "verbose" "logLevel"
           ["Info"; "Debug"; "Trace"; "Warn"; "Error"]).
Proof.
  apply (validate_rejects_log_level cfgsample.noFold cfgsample.noMap cfgsample.defaults
           cfgsample.badLevel); [reflexivity | decided].
Defined.

(** X12: with an accepted log level, [validate] refuses a usage setting that
    is none of NOT_ASKED, DISALLOW and ALLOW in any case. *)
Theorem validate_rejects_send_usage_data
    (hasUnicode : string → string → bool) (unicodeMap : string → string)
    (defaults c : cfg.Config) :
  config.isASCII (cfg.LogLevel c) = true →
  config.lowerASCII (cfg.LogLevel c) ∈ ["info"; "debug"; "trace"; "warn"; "error"] →
  config.isASCII (cfg.SendUsageData c) = true →
  config.lowerASCII (cfg.SendUsageData c) ∉ ["not_asked"; "disallow"; "allow"] →
  cfg.validate hasUnicode unicodeMap defaults c
  = Err (cfg.invalidValue (cfg.SendUsageData c) "sendUsageData"
           ["NOT_ASKED"; "DISALLOW"; "ALLOW"]).
Proof.
  intros Hl Hlevel Hu Hno. rewrite validate_eq.
  rewrite (proj2 (stringInStrings_ascii hasUnicode _ _ Hl logLevels_ascii)) by done.
  by rewrite (stringInStrings_ascii_false hasUnicode _ _ Hu usageValues_ascii).
Qed.

Lemma validate_rejects_send_usage_data_witness :
  cfg.validate cfgsample.noFold cfgsample.noMap cfgsample.defaults cfgsample.badUsage
  = Err (cfg.invalidValue "maybe" "sendUsageData" ["NOT_ASKED"; "DISALLOW"; "ALLOW"]).
Proof.
  apply (validate_rejects_send_usage_data cfgsample.noFold cfgsample.noMap
           cfgsample.defaults cfgsample.badUsage);
    [reflexivity | decided | reflexivity | decided].
Defined.

(** X13: the walk over the fields of [Config] asks the unexported field
    [cfgViper] for its value, which panics: [validate] never returns nil
    and panics on a configuration whose values it accepts, and
    [getDefaultValue], [getAll] and [Delete] panic for every key, [Delete]
    before it writes anything. *)
Theorem field_walk_panics_at_cfgViper
    (hasUnicode : string → string → bool) (unicodeMap : string → string)
    (defaults c : cfg.Config) (key : string) (St : Type)
    (c_set : cfg.Config → string → option cfg.iface → St → result unit * St)
    (renderer_Delete : string → St → St) (st : St) :
  cfg.validate hasUnicode unicodeMap defaults c ≠ Ok tt ∧
  (config.stringInStrings hasUnicode (cfg.LogLevel c) cfg.logLevels = true →
   config.stringInStrings hasUnicode (cfg.SendUsageData c) cfg.usageValues = true →
   cfg.validate hasUnicode unicodeMap defaults c = Panic unexportedPanic) ∧
  cfg.getDefaultValue defaults c key = Panic unexportedPanic ∧
  cfg.getAll defaults c key = Panic unexportedPanic ∧
  cfg.Delete defaults c_set renderer_Delete c key st = (Panic unexportedPanic, st).
Proof.
  assert (Hdv : cfg.getDefaultValue defaults c key = Panic unexportedPanic).
  { unfold cfg.getDefaultValue.
    match goal with |- context [cfg.visitAllConfigFields ?d ?c ?f ?a] =>
      pose proof (visitAll_panics d c f a) as Hp;
      destruct (cfg.visitAllConfigFields d c f a) as [r [dv found]] end.
    cbn [fst] in Hp. rewrite Hp; [done |].
    intros v [dv' found']. by case_bool_decide. }
  split; [| split; [| split; [| split]]].
  - rewrite validate_eq. by repeat case_match.
  - intros Hl Hu. by rewrite validate_eq, Hl, Hu.
  - exact Hdv.
  - unfold cfg.getAll.
    match goal with |- context [cfg.visitAllConfigFields ?d ?c ?f ?a] =>
      pose proof (visitAll_panics d c f a) as Hp;
      destruct (cfg.visitAllConfigFields d c f a) as [r values] end.
    cbn [fst] in Hp. rewrite Hp; [done |].
    intros v a'. by destruct (_ && _).
  - unfold cfg.Delete. by rewrite Hdv.
Qed.

Lemma field_walk_panics_at_cfgViper_witness :
  cfg.validate cfgsample.noFold cfgsample.noMap cfgsample.defaults cfgsample.verbose
  = Panic unexportedPanic.
Proof.
  apply (proj1 (proj2 (field_walk_panics_at_cfgViper cfgsample.noFold cfgsample.noMap
    cfgsample.defaults cfgsample.verbose "logLevel" unit
    (fun _ _ _ st => (Ok tt, st)) (fun _ st => st) tt))); reflexivity.
Defined.

Lemma mergeString_idem (dst src : string) :
  cfg.mergeString (cfg.mergeString dst src) src = cfg.mergeString dst src.
Proof.
  unfold cfg.mergeString.
  destruct (decide (dst = "")) as [-> | Hd], (decide (src = "")) as [-> | Hs].
  - done.
  - rewrite (bool_decide_eq_true_2 ("" = "")) by done.
    rewrite (bool_decide_eq_false_2 (src = "")) by done. cbn.
    by rewrite (bool_decide_eq_false_2 (src = "")).
  - by rewrite !(bool_decide_eq_false_2 (dst = "")).
  - by rewrite !(bool_decide_eq_false_2 (dst = "")).
Qed.

Lemma mergeString_cases (dst src : string) :
  cfg.mergeString dst src = if bool_decide (dst = "") then src else dst.
Proof.
  unfold cfg.mergeString. destruct (decide (dst = "")) as [-> | Hd].
  - rewrite (bool_decide_eq_true_2 ("" = "")) by done.
    destruct (decide (src = "")) as [-> | Hs]; [done |].
    by rewrite (bool_decide_eq_false_2 (src = "")).
  - by rewrite (bool_decide_eq_false_2 (dst = "")).
Qed.

(** X14: [setDefaults] keeps every field that is set, gives every empty
    field its default, leaves the viper handle alone and changes nothing
    when applied again; with the defaults of the package no field is empty
    afterwards. *)
Theorem setDefaults_fills_empty_fields (defaults c : cfg.Config) :
  cfg.LogLevel (cfg.setDefaults defaults c)
    = (if bool_decide (cfg.LogLevel c = "") then cfg.LogLevel defaults
       else cfg.LogLevel c) ∧
  cfg.PluginDir (cfg.setDefaults defaults c)
    = (if bool_decide (cfg.PluginDir c = "") then cfg.PluginDir defaults
       else cfg.PluginDir c) ∧
  cfg.SendUsageData (cfg.setDefaults defaults c)
    = (if bool_decide (cfg.SendUsageData c = "") then cfg.SendUsageData defaults
       else cfg.SendUsageData c) ∧
  cfg.cfgViper (cfg.setDefaults defaults c) = cfg.cfgViper c ∧
  cfg.setDefaults defaults (cfg.setDefaults defaults c) = cfg.setDefaults defaults c ∧
  (∀ dir, defaults = cfg.defaultConfig dir →
          cfg.LogLevel (cfg.setDefaults defaults c) ≠ "" ∧
          cfg.PluginDir (cfg.setDefaults defaults c) ≠ "" ∧
          cfg.SendUsageData (cfg.setDefaults defaults c) ≠ "").
Proof.
  unfold cfg.setDefaults. cbn [cfg.LogLevel cfg.PluginDir cfg.SendUsageData cfg.cfgViper].
  rewrite !mergeString_idem, !mergeString_cases.
  do 5 (split; [done |]).
  intros dir ->. cbn [cfg.defaultConfig cfg.LogLevel cfg.PluginDir cfg.SendUsageData].
  repeat split; case_bool_decide; try done.
  destruct dir; discriminate.
Qed.

Lemma setDefaults_fills_empty_fields_witness :
  cfg.setDefaults cfgsample.defaults (cfg.mkConfig "" "/opt/plugins" "" (Some 7))
  = cfg.mkConfig "INFO" "/opt/plugins" "NOT_ASKED" (Some 7).
Proof.
  destruct (setDefaults_fills_empty_fields cfgsample.defaults
              (cfg.mkConfig "" "/opt/plugins" "" (Some 7)))
    as (Hl & Hp & Hu & Hv & _).
  destruct (cfg.setDefaults cfgsample.defaults _) as [l p u v].
  cbn [cfg.LogLevel cfg.PluginDir cfg.SendUsageData cfg.cfgViper] in *.
  by rewrite Hl, Hp, Hu, Hv.
Defined.

(** X15: [setLogger] reads the log level without regard to case: trace,
    debug, warn and error choose their level, every other text (info and
    any unknown one) chooses info; caller reporting is switched on for
    trace and debug and never switched off; the formatter is replaced. *)
Theorem setLogger_level_by_name (unicodeMap : string → string) (c : cfg.Config)
    (lg : cfg.Logger) :
  config.isASCII (cfg.LogLevel c) = true →
  cfg.level (cfg.setLogger unicodeMap c lg)
    = namedLevel (config.lowerASCII (cfg.LogLevel c)) ∧
  cfg.ReportCaller (cfg.setLogger unicodeMap c lg)
    = (cfg.ReportCaller lg
       || reportsCaller (namedLevel (config.lowerASCII (cfg.LogLevel c)))) ∧
  cfg.Formatter (cfg.setLogger unicodeMap c lg) = cfg.mkFormatter true cfg.RFC3339 true.
Proof.
  intros Hascii. unfold cfg.setLogger, gostrings.ToUpper, namedLevel. rewrite Hascii.
  pose proof (upperASCII_eq (cfg.LogLevel c) "TRACE" eq_refl) as Ht.
  pose proof (upperASCII_eq (cfg.LogLevel c) "DEBUG" eq_refl) as Hd.
  pose proof (upperASCII_eq (cfg.LogLevel c) "WARN" eq_refl) as Hw.
  pose proof (upperASCII_eq (cfg.LogLevel c) "ERROR" eq_refl) as He.
  change (config.lowerASCII "TRACE") with "trace" in Ht.
  change (config.lowerASCII "DEBUG") with "debug" in Hd.
  change (config.lowerASCII "WARN") with "warn" in Hw.
  change (config.lowerASCII "ERROR") with "error" in He.
  set (up := gostrings.upperASCII (cfg.LogLevel c)) in *.
  set (lo := config.lowerASCII (cfg.LogLevel c)) in *.
  cbn [cfg.level cfg.ReportCaller cfg.Formatter].
  repeat case_bool_decide; cbn [cfg.level cfg.ReportCaller cfg.Formatter reportsCaller];
    rewrite ?orb_true_r, ?orb_false_r; try done; exfalso; tauto.
Qed.

Lemma setLogger_level_by_name_witness :
  cfg.level (cfg.setLogger cfgsample.noMap cfgsample.verbose cfgsample.quiet)
    = cfg.DebugLevel ∧
  cfg.ReportCaller (cfg.setLogger cfgsample.noMap cfgsample.verbose cfgsample.quiet)
    = true.
Proof.
  destruct (setLogger_level_by_name cfgsample.noMap cfgsample.verbose cfgsample.quiet
              eq_refl) as (Hl & Hr & _).
  split; [exact Hl | exact Hr].
Defined.

(** X16: [LoadConfig] fails only when the file does not parse or the
    settings do not decode; a missing file and any other read error are
    passed over. Without a global scope the configuration loaded is the
    defaults, with the viper handle attached. *)
Theorem LoadConfig_falls_back_to_defaults
    (unicodeMap : string → string) (defaults : cfg.Config)
    (newViper : string → cfg.Viper) (configDir : string) (lg : cfg.Logger) :
  (∀ e, cfg.ReadInConfig (newViper configDir) = Some (cfg.ConfigParseError e) →
        cfg.LoadConfig unicodeMap defaults newViper configDir lg
        = (Err ("error parsing config file: " ++ e), lg)) ∧
  (∀ scopes,
      (∀ e, cfg.ReadInConfig (newViper configDir) ≠ Some (cfg.ConfigParseError e)) →
      cfg.Unmarshal (newViper configDir) = Ok scopes →
      ∃ c, fst (cfg.LoadConfig unicodeMap defaults newViper configDir lg) = Ok c ∧
           cfg.cfgViper c = Some (cfg.handle (newViper configDir)) ∧
           (scopes !! "*" = None →
            c = cfg.mkConfig (cfg.LogLevel defaults) (cfg.PluginDir defaults)
                  (cfg.SendUsageData defaults) (Some (cfg.handle (newViper configDir))))) ∧
  (∀ e,
      (∀ e', cfg.ReadInConfig (newViper configDir) ≠ Some (cfg.ConfigParseError e')) →
      cfg.Unmarshal (newViper configDir) = Err e →
      cfg.LoadConfig unicodeMap defaults newViper configDir lg
      = (Err ("failed to unmarshal config with error: " ++ e), lg)).
Proof.
  unfold cfg.LoadConfig, cfg.readConfig, cfg.unmarshalAllScopes, cfg.globalScopeIdentifier.
  split; [| split].
  - intros e ->. done.
  - intros scopes Hread Hun.
    destruct (cfg.ReadInConfig (newViper configDir)) as [[msg | msg | msg] |];
      try (by exfalso; eapply Hread).
    all: rewrite Hun; eexists; split; [reflexivity |]; split; [reflexivity |];
      intros ->; unfold cfg.setDefaults;
      cbn [cfg.LogLevel cfg.PluginDir cfg.SendUsageData cfg.cfgViper];
      rewrite !mergeString_cases; done.
  - intros e Hread Hun.
    destruct (cfg.ReadInConfig (newViper configDir)) as [[msg | msg | msg] |];
      try (by exfalso; eapply Hread); by rewrite Hun.
Qed.

Lemma LoadConfig_falls_back_to_defaults_witness :
  fst (cfg.LoadConfig cfgsample.noMap cfgsample.defaults cfgsample2.missingFile
         "/home/op/.newrelic" cfgsample.quiet)
  = Ok (cfg.mkConfig "INFO" "/home/op/.newrelic/plugins" "NOT_ASKED" (Some 1)) ∧
  fst (cfg.LoadConfig cfgsample.noMap cfgsample.defaults cfgsample2.brokenFile
         "/home/op/.newrelic" cfgsample.quiet)
  = Err "error parsing config file: While parsing config: unexpected end of JSON input".
Proof.
  destruct (LoadConfig_falls_back_to_defaults cfgsample.noMap cfgsample.defaults
              cfgsample2.missingFile "/home/op/.newrelic" cfgsample.quiet)
    as (_ & Hok & _).
  destruct (LoadConfig_falls_back_to_defaults cfgsample.noMap cfgsample.defaults
              cfgsample2.brokenFile "/home/op/.newrelic" cfgsample.quiet)
    as (Hparse & _ & _).
  split.
  - destruct (Hok ∅) as (c & Hc & _ & Hdef); [done | done |].
    rewrite Hc, Hdef; [done | apply lookup_empty].
  - by rewrite (Hparse _ eq_refl).
Defined.

(** X17: [IsDefault] compares strings without regard to case: on ASCII
    strings it holds exactly when the lower-case forms are equal; a string
    value against a default that is no string panics; other values are
    compared by equality. *)
Theorem IsDefault_ignores_case (hasUnicode : string → string → bool)
    (name v d : string) (tag : nat) (other : cfg.iface) :
  (config.isASCII v = true → config.isASCII d = true →
   cfg.IsDefault hasUnicode (cfg.mkValue name (cfg.IString v) (cfg.IString d))
   = Ok (bool_decide (config.lowerASCII v = config.lowerASCII d))) ∧
  cfg.IsDefault hasUnicode (cfg.mkValue name (cfg.IString v) (cfg.IOther tag))
  = Panic "interface conversion: interface {} is not string" ∧
  cfg.IsDefault hasUnicode (cfg.mkValue name (cfg.IOther tag) other)
  = Ok (bool_decide (cfg.IOther tag = other)).
Proof.
  split; [| by split]. intros Hv Hd. unfold cfg.IsDefault. cbn [cfg.Val cfg.Default].
  f_equal. apply eq_true_iff_eq.
  rewrite (EqualFold_ascii hasUnicode v d Hv Hd).
  by rewrite bool_decide_eq_true.
Qed.

Lemma IsDefault_ignores_case_witness :
  cfg.IsDefault cfgsample.noFold (cfg.mkValue "logLevel" (cfg.IString "info")
                                    (cfg.IString "INFO"))
  = Ok true.
Proof.
  apply (proj1 (IsDefault_ignores_case cfgsample.noFold "logLevel" "info" "INFO" 0
                  (cfg.IOther 0)) eq_refl eq_refl).
Defined.

(** X18: for a key of ASCII bytes, [Set] returns the invalid-key error and
    leaves the state alone exactly when the lower-case form of the key is
    none of loglevel, plugindir, sendusagedata and the empty string;
    otherwise it hands the key to [c.set] and returns what that returns. *)
Theorem Set_key_check_on_ascii_keys
    (hasUnicode : string → string → bool) (St : Type)
    (c_set : string → string → St → result unit * St)
    (renderer_Set : string → string → St → St) (key value : string) (st : St) :
  config.isASCII key = true →
  (config.lowerASCII key ∉ ["loglevel"; "plugindir"; "sendusagedata"; ""] →
   config.ConfigSet hasUnicode c_set renderer_Set key value st
   = (Err (config.invalidKey key), st)) ∧
  (config.lowerASCII key ∈ ["loglevel"; "plugindir"; "sendusagedata"; ""] →
   config.ConfigSet hasUnicode c_set renderer_Set key value st =
     match c_set key value st with
     | (Ok _, st') => (Ok tt, renderer_Set key value st')
     | (Err e, st') => (Err e, st')
     | (Panic p, st') => (Panic p, st')
     end).
Proof.
  intros Hascii. split.
  - intros Hno. apply ConfigSet_rejects. apply not_true_is_false. intros Hyes.
    by apply Hno, (key_check_ascii hasUnicode).
  - intros Hyes. apply ConfigSet_accepts. by apply key_check_ascii.
Qed.

Lemma Set_key_check_on_ascii_keys_witness :
  config.ConfigSet cfgsample.noFold (fun _ _ (st : nat) => (Ok tt, S st))
    (fun _ _ st => st) "apiKey" "NRAK" 0
  = (Err (config.invalidKey "apiKey"), 0) ∧
  config.ConfigSet cfgsample.noFold (fun _ _ (st : nat) => (Ok tt, S st))
    (fun _ _ st => st) "LOGLEVEL" "debug" 0
  = (Ok tt, 1).
Proof.
  split.
  - apply (proj1 (Set_key_check_on_ascii_keys cfgsample.noFold nat
      (fun _ _ (st : nat) => (Ok tt, S st)) (fun _ _ st => st) "apiKey" "NRAK" 0 eq_refl)).
    decided.
  - rewrite (proj2 (Set_key_check_on_ascii_keys cfgsample.noFold nat
      (fun _ _ (st : nat) => (Ok tt, S st)) (fun _ _ st => st) "LOGLEVEL" "debug" 0
      eq_refl)); [done | decided].
Defined.

(** ** internal/credentials, continued *)

(** X19: [LoadProfiles] never returns a nil map, and the map is empty
    whenever it returns an error. A read error other than a parse error is
    passed over; a missing file is created at
    [configDir/DefaultCredentialsFile.json] and loading goes on; a parse
    error is returned wrapped, without any write. *)
Theorem LoadProfiles_outcome
    (DefaultCredentialsFile : string) (ExpandEnv : string → string)
    (newViper : string → profiles.Viper) (configDir : string) (calls : list string) :
  (∀ creds err calls',
      profiles.LoadProfiles DefaultCredentialsFile ExpandEnv newViper configDir calls
        = (Ok (creds, err), calls') →
      is_Some creds ∧ (is_Some err → creds = Some ∅)) ∧
  (∀ msg loaded,
      profiles.ReadInConfig (newViper configDir) = Some (cfg.OtherError msg) →
      profiles.Unmarshal (newViper configDir) = Ok loaded →
      profiles.LoadProfiles DefaultCredentialsFile ExpandEnv newViper configDir calls
        = (Ok (Some loaded, None), calls)) ∧
  (∀ msg loaded,
      profiles.ReadInConfig (newViper configDir)
        = Some (cfg.ConfigFileNotFoundError msg) →
      profiles.WriteConfigAs (newViper configDir)
        (profiles.credentialsPath DefaultCredentialsFile ExpandEnv configDir) = None →
      profiles.Unmarshal (newViper configDir) = Ok loaded →
      profiles.LoadProfiles DefaultCredentialsFile ExpandEnv newViper configDir calls
        = (Ok (Some loaded, None),
           (calls ++ [profiles.credentialsPath DefaultCredentialsFile ExpandEnv
                        configDir])%list)) ∧
  (∀ e,
      profiles.ReadInConfig (newViper configDir) = Some (cfg.ConfigParseError e) →
      profiles.LoadProfiles DefaultCredentialsFile ExpandEnv newViper configDir calls
        = (Ok (Some ∅,
               Some ("error while reading credentials: error parsing profile config file: "
                       ++ e)),
           calls)).
Proof.
  unfold profiles.LoadProfiles, profiles.readCredentials, profiles.unmarshalProfiles.
  split; [| split; [| split]].
  - intros creds err calls'.
    destruct (profiles.ReadInConfig (newViper configDir)) as [[msg | msg | msg] |];
      [destruct (profiles.WriteConfigAs (newViper configDir) _) | ..];
      try destruct (profiles.Unmarshal (newViper configDir));
      intros [= <- <- <-]; (split; [done |]); intros [? ?]; done.
  - intros msg loaded -> ->. done.
  - intros msg loaded -> -> ->. done.
  - intros e ->. done.
Qed.

Lemma LoadProfiles_outcome_witness :
  profiles.LoadProfiles "credentials" (fun p => p) profsample.fresh "/home/op/.newrelic" []
  = (Ok (Some ∅, None), ["/home/op/.newrelic/credentials.json"]) ∧
  fst (profiles.LoadProfiles "credentials" (fun p => p) profsample.broken
         "/home/op/.newrelic" [])
  = Ok (Some ∅,
        Some "error while reading credentials: error parsing profile config file: While parsing config: invalid character").
Proof.
  destruct (LoadProfiles_outcome "credentials" (fun p => p) profsample.fresh
              "/home/op/.newrelic" []) as (_ & _ & Hfresh & _).
  destruct (LoadProfiles_outcome "credentials" (fun p => p) profsample.broken
              "/home/op/.newrelic" []) as (_ & _ & _ & Hbroken).
  split.
  - by rewrite (Hfresh _ ∅ eq_refl eq_refl eq_refl).
  - by rewrite (Hbroken _ eq_refl).
Defined.

Lemma omitempty_value (name : string) (v : profiles.jvalue) (k : string)
    (x : profiles.jvalue) :
  (k, x) ∈ profiles.omitempty name v →
  k = name ∧ x = v ∧ v ≠ profiles.JString "" ∧ v ≠ profiles.JNumber 0.
Proof.
  destruct v as [[|c s] | [|z|z]]; cbn [profiles.omitempty];
    intros Hin; try (by apply elem_of_nil in Hin);
    apply list_elem_of_singleton in Hin as [= -> ->]; done.
Qed.

Lemma omitempty_elem (name : string) (v : profiles.jvalue) (k : string)
    (x : profiles.jvalue) :
  (k, x) ∈ profiles.omitempty name v ↔
  k = name ∧ x = v ∧ v ≠ profiles.JString "" ∧ v ≠ profiles.JNumber 0.
Proof.
  split; [apply omitempty_value |].
  intros (-> & -> & Hs & Hn).
  destruct v as [[|c s] | [|z|z]]; cbn [profiles.omitempty]; try done;
    by apply list_elem_of_singleton.
Qed.

(** X20: the object [MarshalJSON] encodes holds no empty member: of apiKey,
    insightsInsertKey, region, accountID and licenseKey, in this order,
    exactly those whose value is not the empty string or zero; the region
    is written in lower case and every other value as it is.  A member is
    in the object if and only if it is one of these five, under its own
    name and with its own value, and that value is not empty. *)
Theorem MarshalJSON_members (unicodeMap : string → string) (p : credentials.Profile) :
  (∀ k v, (k, v) ∈ profiles.MarshalJSON unicodeMap p →
          v ≠ profiles.JString "" ∧ v ≠ profiles.JNumber 0) ∧
  fst <$> profiles.MarshalJSON unicodeMap p
    `sublist_of` ["apiKey"; "insightsInsertKey"; "region"; "accountID"; "licenseKey"] ∧
  (credentials.LicenseKey p = "" ↔
   "licenseKey" ∉ fst <$> profiles.MarshalJSON unicodeMap p) ∧
  (credentials.AccountID p = 0%Z ↔
   "accountID" ∉ fst <$> profiles.MarshalJSON unicodeMap p) ∧
  (config.isASCII (credentials.Region p) = true → credentials.Region p ≠ "" →
   (∀ v, ("region", v) ∈ profiles.MarshalJSON unicodeMap p ↔
         v = profiles.JString (config.lowerASCII (credentials.Region p)))) ∧
  (∀ k v,
     (k, v) ∈ profiles.MarshalJSON unicodeMap p ↔
     (k = "apiKey" ∧ v = profiles.JString (credentials.APIKey p) ∧
      credentials.APIKey p ≠ "") ∨
     (k = "insightsInsertKey" ∧ v = profiles.JString (credentials.InsightsInsertKey p) ∧
      credentials.InsightsInsertKey p ≠ "") ∨
     (k = "region" ∧
      v = profiles.JString (gostrings.ToLower unicodeMap (credentials.Region p)) ∧
      gostrings.ToLower unicodeMap (credentials.Region p) ≠ "") ∨
     (k = "accountID" ∧ v = profiles.JNumber (credentials.AccountID p) ∧
      credentials.AccountID p ≠ 0%Z) ∨
     (k = "licenseKey" ∧ v = profiles.JString (credentials.LicenseKey p) ∧
      credentials.LicenseKey p ≠ "")) ∧
  (config.isASCII (credentials.Region p) = true →
   gostrings.ToLower unicodeMap (credentials.Region p)
   = config.lowerASCII (credentials.Region p)) ∧
  NoDup (fst <$> profiles.MarshalJSON unicodeMap p).
Proof.
  destruct p as [api ins reg acc lic]. unfold profiles.MarshalJSON.
  cbn [credentials.APIKey credentials.InsightsInsertKey credentials.Region
       credentials.AccountID credentials.LicenseKey].
  split; [| split; [| split; [| split; [| split; [| split; [| split]]]]]].
  - intros k v Hin. rewrite !elem_of_app in Hin.
    destruct Hin as [H | [H | [H | [H | H]]]];
      apply omitempty_value in H as (_ & -> & ? & ?); done.
  - generalize (gostrings.ToLower unicodeMap reg). intros r.
    destruct api, ins, r, acc, lic; cbn;
      repeat first [apply sublist_nil | apply sublist_skip | apply sublist_cons].
  - generalize (gostrings.ToLower unicodeMap reg). intros r.
    destruct api, ins, r, acc, lic; cbn;
      (split; [intros ?; try discriminate; decided
              | intros H; try done; exfalso; apply H; decided]).
  - generalize (gostrings.ToLower unicodeMap reg). intros r.
    destruct api, ins, r, acc, lic; cbn;
      (split; [intros ?; try discriminate; decided
              | intros H; try done; exfalso; apply H; decided]).
  - intros Hascii Hreg v. unfold gostrings.ToLower. rewrite Hascii.
    rewrite !elem_of_app. split.
    + intros [H | [H | [H | [H | H]]]];
        apply omitempty_value in H as (Hk & Hv & _); try discriminate Hk. done.
    + intros ->. do 2 right. left. destruct reg as [|c s]; [done |].
      cbn. apply list_elem_of_singleton. done.
  - intros k v. rewrite !elem_of_app, !omitempty_elem. split.
    + intros [H | [H | [H | [H | H]]]]; destruct H as (-> & -> & Hs & Hn);
        [left | right; left | do 2 right; left | do 3 right; left | do 4 right];
        (split; [done | split; [done | congruence]]).
    + intros [H | [H | [H | [H | H]]]]; destruct H as (-> & -> & Hne);
        [left | right; left | do 2 right; left | do 3 right; left | do 4 right];
        (split; [done | split; [done | split; congruence]]).
  - intros Hascii. unfold gostrings.ToLower. by rewrite Hascii.
  - generalize (gostrings.ToLower unicodeMap reg). intros r.
    destruct api, ins, r, acc, lic; cbn; decided.
Qed.

(** The profile ["NRAK-2"] of the region ["EU"], with no other field set,
    is encoded with its API key as it is and its region in lower case, and
    with no license key. *)
Lemma MarshalJSON_members_witness :
  ("apiKey", profiles.JString "NRAK-2")
    ∈ profiles.MarshalJSON (fun s => s) profsample.staging ∧
  ("region", profiles.JString "eu")
    ∈ profiles.MarshalJSON (fun s => s) profsample.staging ∧
  "licenseKey" ∉ fst <$> profiles.MarshalJSON (fun s => s) profsample.staging.
Proof.
  destruct (MarshalJSON_members (fun s => s) profsample.staging)
    as (_ & _ & Hlic & _ & _ & Hmem & _).
  split; [| split].
  - apply Hmem. left. by repeat split.
  - apply Hmem. do 2 right. left. by repeat split.
  - by apply Hlic.
Defined.

(** ** package configuration *)

Section trim_facts.

Import gostrings.

Context (c : ascii).

Lemma firstByte_trimLeftByte (s : string) : firstByte (trimLeftByte s c) ≠ Some c.
Proof.
  induction s as [|b s IH]; [done |]. cbn [trimLeftByte].
  case_bool_decide as Hb; [done |]. cbn. congruence.
Qed.

Lemma lastByte_cons (b : ascii) (s : string) :
  lastByte (String b s) = match s with EmptyString => Some b | _ => lastByte s end.
Proof. by destruct s. Qed.

Lemma lastByte_trimRightByte (s : string) : lastByte (trimRightByte s c) ≠ Some c.
Proof.
  induction s as [|b s IH]; [done |]. cbn [trimRightByte].
  destruct (trimRightByte s c) as [|b' rest] eqn:Hr.
  - case_bool_decide as Hb; [done |]. cbn. congruence.
  - rewrite lastByte_cons. exact IH.
Qed.

Lemma lastByte_trimLeftByte (s : string) :
  trimLeftByte s c = "" ∨ lastByte (trimLeftByte s c) = lastByte s.
Proof.
  induction s as [|b s IH]; [by left |]. cbn [trimLeftByte].
  case_bool_decide as Hb; [| by right].
  destruct IH as [He | Hl]; [by left |].
  destruct s as [|b' s']; [by left |]. right. by rewrite Hl, (lastByte_cons b).
Qed.

Lemma trimLeftByte_id (s : string) : firstByte s ≠ Some c → trimLeftByte s c = s.
Proof.
  destruct s as [|b s]; [done |]. cbn. intros Hb.
  rewrite bool_decide_eq_false_2; [done | congruence].
Qed.

Lemma trimRightByte_id (s : string) : lastByte s ≠ Some c → trimRightByte s c = s.
Proof.
  induction s as [|b s IH]; [done |]. rewrite lastByte_cons. cbn [trimRightByte].
  destruct s as [|b' s'].
  - intros Hb. cbn. rewrite bool_decide_eq_false_2; [done | congruence].
  - intros Hl. by rewrite (IH Hl).
Qed.

(** What [strings.Trim] leaves neither starts nor ends with the byte, and
    trimming again changes nothing. *)
Lemma TrimByte_outer (s : string) :
  firstByte (TrimByte s c) ≠ Some c ∧ lastByte (TrimByte s c) ≠ Some c ∧
  TrimByte (TrimByte s c) c = TrimByte s c.
Proof.
  assert (Hf : firstByte (TrimByte s c) ≠ Some c) by apply firstByte_trimLeftByte.
  assert (Hl : lastByte (TrimByte s c) ≠ Some c).
  { unfold TrimByte. destruct (lastByte_trimLeftByte (trimRightByte s c)) as [-> | ->];
      [done | apply lastByte_trimRightByte]. }
  split; [done | split; [done |]].
  unfold TrimByte at 1. rewrite (trimRightByte_id _ Hl). by apply trimLeftByte_id.
Qed.

Lemma TrimByte_id (s : string) :
  firstByte s ≠ Some c → lastByte s ≠ Some c → TrimByte s c = s.
Proof.
  intros Hf Hl. unfold TrimByte. rewrite (trimRightByte_id _ Hl). by apply trimLeftByte_id.
Qed.

End trim_facts.

Section configuration_theorems.

Import configuration.

Context {V FS : Type}.
Context (configDir : string) (pathJoin filepathJoin : string → string → string).
Context (ReadInConfig : V → option cfg.viperError).
Context (newConfigViper newCredsViper : V).
Context (WriteFile : string → string → Z → FS → option string * FS).
Context (ReadFile : string → FS → result string).
Context (O_CREATE O_TRUNC O_WRONLY : Z).

Lemma loadFile_value (v : V) (st : State) :
  viperConfig (snd (loadFile ReadInConfig v st)) = viperConfig st ∧
  viperCreds (snd (loadFile ReadInConfig v st)) = viperCreds st ∧
  defaultProfileValue (snd (loadFile ReadInConfig v st)) = defaultProfileValue st.
Proof. unfold loadFile. by destruct (ReadInConfig v) as [[| |] |]. Qed.

End configuration_theorems.

(** X21: [load] reports no error: a configuration or credentials file that
    does not parse only leaves a line in the debug log, a missing or
    unreadable default-profile file is passed over. After it both viper
    handles are set. *)
Theorem load_reports_no_error {V FS : Type}
    (configDir : string) (pathJoin filepathJoin : string → string → string)
    (ReadInConfig : V → option cfg.viperError) (newConfigViper newCredsViper : V)
    (ReadFile : string → FS → result string) (fs : FS) (st : configuration.State) :
  (∀ p, ReadFile (filepathJoin configDir configuration.defaultProfileFilename) fs
        ≠ Panic p) →
  fst (configuration.load configDir pathJoin filepathJoin ReadInConfig newConfigViper
         newCredsViper ReadFile fs st) = Ok None ∧
  configuration.viperConfig
    (snd (configuration.load configDir pathJoin filepathJoin ReadInConfig newConfigViper
            newCredsViper ReadFile fs st)) = Some newConfigViper ∧
  configuration.viperCreds
    (snd (configuration.load configDir pathJoin filepathJoin ReadInConfig newConfigViper
            newCredsViper ReadFile fs st)) = Some newCredsViper ∧
  (∀ e, ReadInConfig newConfigViper = Some (cfg.ConfigParseError e) →
        ("config file not found: " ++ pathJoin configDir configuration.configFilename)
          ∈ configuration.logged
              (snd (configuration.load configDir pathJoin filepathJoin ReadInConfig
                      newConfigViper newCredsViper ReadFile fs st))).
Proof.
  intros Hread. unfold configuration.load, configuration.loadConfigFile,
    configuration.loadCredsFile, configuration.loadDefaultProfileFile,
    configuration.loadFile, configuration.debug.
  destruct (ReadFile _ fs) as [bytes | e | p] eqn:Hrf; [| | by destruct (Hread p)].
  all: destruct (ReadInConfig newConfigViper) as [[m1 | m1 | m1] |];
    destruct (ReadInConfig newCredsViper) as [[m2 | m2 | m2] |];
    cbn [fst snd configuration.viperConfig configuration.viperCreds
         configuration.defaultProfileValue configuration.logged];
    (split; [done | split; [done | split; [done |]]]); intros e' [= <-];
    rewrite ?elem_of_app, ?list_elem_of_singleton; tauto.
Qed.

Lemma load_reports_no_error_witness :
  fst (configuration.load "/home/op/.newrelic" cfnsample.join cfnsample.join
         cfnsample.ReadInConfig 1 0 cfnsample.ReadFile ∅ cfnsample.start) = Ok None ∧
  configuration.logged
    (snd (configuration.load "/home/op/.newrelic" cfnsample.join cfnsample.join
            cfnsample.ReadInConfig 1 0 cfnsample.ReadFile ∅ cfnsample.start))
  = ["config file not found: /home/op/.newrelic/config.json";
     "file not found, using defaults"].
Proof.
  split; [| reflexivity].
  apply (load_reports_no_error "/home/op/.newrelic" cfnsample.join cfnsample.join
           cfnsample.ReadInConfig 1 0 cfnsample.ReadFile ∅ cfnsample.start).
  intros p. unfold cfnsample.ReadFile. by rewrite lookup_empty.
Defined.

(** X22: [saveDefaultProfileName] never returns an error: when the write
    fails the default profile in memory stays as it was, when it succeeds
    it becomes the saved name; the handles and the log are left alone. *)
Theorem save_failure_is_silent {V FS : Type}
    (configDir : string) (filepathJoin : string → string → string)
    (WriteFile : string → string → Z → FS → option string * FS)
    (O_CREATE O_TRUNC O_WRONLY : Z)
    (profileName : string) (fs : FS) (st : configuration.State (V := V)) :
  let path := filepathJoin configDir configuration.defaultProfileFilename in
  let mode := Z.lor (Z.lor O_CREATE O_TRUNC) O_WRONLY in
  let after := configuration.SetDefaultProfileName configDir filepathJoin WriteFile
                 O_CREATE O_TRUNC O_WRONLY profileName fs st in
  fst after = None ∧
  fst (snd after) = snd (WriteFile path profileName mode fs) ∧
  configuration.GetDefaultProfileName (snd (snd after))
    = match fst (WriteFile path profileName mode fs) with
      | Some _ => configuration.GetDefaultProfileName st
      | None => profileName
      end ∧
  configuration.viperConfig (snd (snd after)) = configuration.viperConfig st ∧
  configuration.viperCreds (snd (snd after)) = configuration.viperCreds st ∧
  configuration.logged (snd (snd after)) = configuration.logged st.
Proof.
  cbv zeta. unfold configuration.SetDefaultProfileName, configuration.saveDefaultProfileName,
    configuration.GetDefaultProfileName.
  by destruct (WriteFile _ profileName _ fs) as [[err |] fs'].
Qed.

(** X23: after [loadDefaultProfileFile] has read the file, the default
    profile is the content without the double quotes around it: it neither
    starts nor ends with a double quote, and a content without outer quotes
    is taken as it is; when the file cannot be read the default profile is
    not changed. No error is returned either way. *)
Theorem loaded_default_profile_is_unquoted {V FS : Type}
    (configDir : string) (filepathJoin : string → string → string)
    (ReadFile : string → FS → result string) (fs : FS)
    (st : configuration.State (V := V)) :
  let path := filepathJoin configDir configuration.defaultProfileFilename in
  let after := configuration.loadDefaultProfileFile configDir filepathJoin ReadFile fs st in
  let quote := ascii_of_nat 34 in
  (∀ content, ReadFile path fs = Ok content →
      fst after = Ok None ∧
      configuration.defaultProfileValue (snd after) = gostrings.TrimByte content quote ∧
      firstByte (configuration.defaultProfileValue (snd after)) ≠ Some quote ∧
      lastByte (configuration.defaultProfileValue (snd after)) ≠ Some quote ∧
      (firstByte content ≠ Some quote → lastByte content ≠ Some quote →
       configuration.defaultProfileValue (snd after) = content)) ∧
  (∀ e, ReadFile path fs = Err e → after = (Ok None, st)).
Proof.
  cbv zeta. unfold configuration.loadDefaultProfileFile. split.
  - intros content ->. cbn [fst snd configuration.defaultProfileValue].
    destruct (TrimByte_outer (ascii_of_nat 34) content) as (Hf & Hl & _).
    repeat split; try done. by apply TrimByte_id.
  - by intros e ->.
Qed.

Lemma loaded_default_profile_is_unquoted_witness :
  configuration.defaultProfileValue
    (snd (configuration.loadDefaultProfileFile "/home/op/.newrelic" cfnsample.join
            cfnsample.ReadFile
            ({[ "/home/op/.newrelic/default-profile.json" := cfnsample.quoted ]}
               : gmap string string)
            cfnsample.start))
  = "staging".
Proof.
  destruct (loaded_default_profile_is_unquoted "/home/op/.newrelic" cfnsample.join
    cfnsample.ReadFile
    ({[ "/home/op/.newrelic/default-profile.json" := cfnsample.quoted ]}
       : gmap string string) cfnsample.start) as [Hok _].
  destruct (Hok cfnsample.quoted) as (_ & -> & _).
  - unfold cfnsample.ReadFile, cfnsample.join.
    by rewrite lookup_singleton_eq.
  - reflexivity.
Defined.

(** ** The license key and the default profile *)


